(** * Verification of the Kubernetes zero-replica monitor (metrics_scraper.py)

    A shallow embedding of [MetricsScraper]: the watch filter, the five
    resource collectors, the stateless health evaluator and the PagerDuty
    dispatcher, followed by the theorems that settle the specification's
    claims against them.

    Conventions of the embedding.
    - Python [str] is [string]; the only character classes the program
      inspects ([a-zA-Z0-9], the hyphen, the newline, ASCII letters for
      [lower]) are ASCII, characters outside that range are inert.
    - Python [int] is [Z]; [None] is an explicit constructor or [option].
    - A metric is a Python [dict]: a [gmap string value].
    - Dict objects live in a store addressed by references, because the
      evaluator mutates the records it is handed.
    - Exceptions, the log, the store and the outbound HTTP calls are
      threaded through a small state-and-exception monad. *)

From Stdlib Require Import ZArith Ascii String.
From stdpp Require Import base decidable option list gmap strings pretty.

Local Open Scope Z_scope.

(* ===================================================================== *)
(** * Strings and the regular expression of [remove_replicaset_hash]      *)
(* ===================================================================== *)

Module PyStr.

(** [str.lower] on text whose letters are ASCII: the kinds the program
    lowers ([deployment], [replicaset], ..., and those of the watch
    list) and the pod phases.  Other characters are left as they are. *)
Definition lower_char (c : ascii) : ascii :=
  let n := nat_of_ascii c in
  if ((65 <=? n) && (n <=? 90))%nat then ascii_of_nat (n + 32) else c.

Fixpoint lower (s : string) : string :=
  match s with
  | EmptyString => EmptyString
  | String c t => String (lower_char c) (lower t)
  end.

(** The character class [[a-zA-Z0-9]]. *)
Definition is_alnum (c : ascii) : bool :=
  let n := nat_of_ascii c in
  (((97 <=? n) && (n <=? 122)) || ((65 <=? n) && (n <=? 90))
   || ((48 <=? n) && (n <=? 57)))%nat.

Definition hyphen : ascii := ascii_of_nat 45.
Definition newline : ascii := ascii_of_nat 10.

(** Python's [$] (no MULTILINE flag): the end of the string, or the
    position just before a newline that is the last character. *)
Definition at_dollar (s : string) : bool :=
  match s with
  | EmptyString => true
  | String c EmptyString => if ascii_dec c newline then true else false
  | _ => false
  end.

(** [[a-zA-Z0-9]+$] anchored at the head of [s]: the greedy [+] first
    tries to take one more character and backtracks to the current
    length when the longer attempt fails.  Returns the number of
    characters consumed. *)
Fixpoint match_alnum_plus_dollar (s : string) : option nat :=
  match s with
  | EmptyString => None
  | String c t =>
      if is_alnum c then
        match match_alnum_plus_dollar t with
        | Some n => Some (S n)
        | None => if at_dollar t then Some 1%nat else None
        end
      else None
  end.

(** [-[a-zA-Z0-9]+$] anchored at the head of [s]. *)
Definition match_here (s : string) : option nat :=
  match s with
  | EmptyString => None
  | String c t =>
      if ascii_dec c hyphen then S <$> match_alnum_plus_dollar t else None
  end.

(** [re.search(r'-[a-zA-Z0-9]+$', s)] as a truth value: is there a
    position where the pattern matches? *)
Fixpoint re_search (s : string) : bool :=
  match match_here s with
  | Some _ => true
  | None => match s with
            | EmptyString => false
            | String _ t => re_search t
            end
  end.

(** [re.sub(r'-[a-zA-Z0-9]+$', '', s)]: scan left to right; at each
    position either a match starts (its characters are dropped and the
    scan resumes after it) or the character is copied.  [skip] counts
    the characters of the current match still to be dropped. *)
Fixpoint re_sub_from (skip : nat) (s : string) : string :=
  match s with
  | EmptyString => EmptyString
  | String c t =>
      match skip with
      | S k => re_sub_from k t
      | O => match match_here s with
             | Some n => re_sub_from (Nat.pred n) t
             | None => String c (re_sub_from 0 t)
             end
      end
  end.

Definition re_sub (s : string) : string := re_sub_from 0 s.

End PyStr.

(** [MetricsScraper.remove_replicaset_hash] on a [str] argument. *)
Definition remove_replicaset_hash (metric_name : string) : string :=
  if PyStr.re_search metric_name then PyStr.re_sub metric_name
  else metric_name.


(* ===================================================================== *)
(** * Python values and dictionaries                                      *)
(* ===================================================================== *)

(** The values that occur in metric records and in the JSON sent out. *)
Inductive value : Type :=
| VNone
| VBool (b : bool)
| VInt (z : Z)
| VStr (s : string).

Abbreviation dict := (gmap string value).

Module Py.

(** Truth value testing, as used by [or] and [if]. *)
Definition truthy (v : value) : bool :=
  match v with
  | VNone => false
  | VBool b => b
  | VInt z => negb (z =? 0)
  | VStr s => negb (String.eqb s "")
  end.

(** [a or b]. *)
Definition or (a b : value) : value := if truthy a then a else b.

(** Numeric reading of [bool] and [int], which compare equal by value. *)
Definition as_int (v : value) : option Z :=
  match v with
  | VBool b => Some (if b then 1 else 0)
  | VInt z => Some z
  | _ => None
  end.

(** [a == b]. *)
Definition eq (a b : value) : bool :=
  match a, b with
  | VNone, VNone => true
  | VStr s, VStr t => String.eqb s t
  | _, _ => match as_int a, as_int b with
            | Some x, Some y => x =? y
            | _, _ => false
            end
  end.

(** [str(v)], which is what an f-string field [{v}] renders. *)
Definition format (v : value) : string :=
  match v with
  | VNone => "None"
  | VBool true => "True"
  | VBool false => "False"
  | VInt z => pretty z
  | VStr s => s
  end.

(** [d.get(k, dflt)]. *)
Definition get (d : dict) (k : string) (dflt : value) : value :=
  default dflt (d !! k).

(** [x or 0] for an optional integer attribute of an API object: [None]
    and the only falsy integer, [0], both give [0]. *)
Definition or_zero (x : option Z) : Z := default 0 x.

End Py.

(* ===================================================================== *)
(** * Exceptions, logging and the state-and-exception monad               *)
(* ===================================================================== *)

Inductive exn : Type :=
| ApiException (msg : string)      (* the Kubernetes client failed *)
| AttributeError (msg : string)    (* attribute access on [None] *)
| KeyError (key : string)          (* missing dict key *)
| TypeError (msg : string)
| ValueError (msg : string)
| RequestException (msg : string)  (* requests: transport failure *)
| HTTPError (status : Z).          (* requests: raise_for_status *)

(** [str(e)], as the log lines embed it.  The texts produced by the client
    libraries are stand-ins; nothing below depends on them. *)
Definition exn_str (e : exn) : string :=
  match e with
  | ApiException m | AttributeError m | TypeError m
  | ValueError m | RequestException m => m
  | KeyError k => "'" +:+ k +:+ "'"
  | HTTPError st => pretty st +:+ " Error"
  end.

Inductive level : Type := INFO | WARNING | ERROR.

Abbreviation Log := (list (level * string)).

Inductive outcome (A : Type) : Type :=
| Ret (a : A)
| Raise (e : exn).
Arguments Ret {A} a.
Arguments Raise {A} e.

(** A computation over a state [St] that returns or raises; the state
    reached when the exception is raised is kept, as an [except] clause
    sees it. *)
Definition M (St A : Type) : Type := St -> outcome A * St.

Definition ret {St A} (a : A) : M St A := fun w => (Ret a, w).

Definition raise {St A} (e : exn) : M St A := fun w => (Raise e, w).

Definition bind {St A B} (c : M St A) (k : A -> M St B) : M St B :=
  fun w => match c w with
           | (Ret a, w') => k a w'
           | (Raise e, w') => (Raise e, w')
           end.

(** [try: c  except Exception as e: h e]. *)
Definition try_except {St A} (c : M St A) (h : exn -> M St A) : M St A :=
  fun w => match c w with
           | (Ret a, w') => (Ret a, w')
           | (Raise e, w') => h e w'
           end.

Definition modify {St} (f : St -> St) : M St unit := fun w => (Ret tt, f w).

Definition gets {St A} (f : St -> A) : M St A := fun w => (Ret (f w), w).

(** A call into a collaborator whose result is already determined. *)
Definition call {St A} (r : outcome A) : M St A := fun w => (r, w).

Declare Scope py_scope.
Delimit Scope py_scope with py.
Notation "'let*' x ':=' c 'in' k" := (bind c (fun x => k))
  (at level 10, x name, c at level 100, k at level 200) : py_scope.
Notation "'let*' ' p ':=' c 'in' k" :=
  (bind c (fun x => match x with p => k end))
  (at level 10, p pattern, c at level 100, k at level 200) : py_scope.
Notation "c ';;' k" := (bind c (fun _ => k))
  (at level 100, k at level 200, right associativity) : py_scope.
Local Open Scope py_scope.

(** [obj.attr] where [obj] may be [None]. *)
Definition attr {St A} (what : string) (o : option A) : M St A :=
  match o with
  | Some a => ret a
  | None => raise (AttributeError
      ("'NoneType' object has no attribute '" +:+ what +:+ "'"))
  end.

(** [for x in xs: body] over the local variables [s].  When the body
    raises, the loop stops and the locals are those the iteration started
    with: every body below raises, if at all, before it updates them. *)
Fixpoint for_each {St X S} (body : X -> S -> M St S) (xs : list X) (s : S)
  : St -> (S * option exn) * St :=
  match xs with
  | [] => fun w => ((s, None), w)
  | x :: xs' => fun w =>
      match body x s w with
      | (Ret s', w') => for_each body xs' s' w'
      | (Raise e, w') => ((s, Some e), w')
      end
  end.

(** The same loop outside any [try]: the exception propagates. *)
Definition for_each_raising {St X S} (body : X -> S -> M St S)
  (xs : list X) (s : S) : M St S :=
  fun w => match for_each body xs s w with
           | ((s', None), w') => (Ret s', w')
           | ((_, Some e), w') => (Raise e, w')
           end.

(** [logger.info / warning / error] inside a collector. *)
Definition logger (l : level) (msg : string) : M Log unit :=
  modify (fun lg => lg ++ [(l, msg)]).

(* ===================================================================== *)
(** * The Kubernetes client objects the collectors read                   *)
(* ===================================================================== *)

(** Only the attributes the program touches.  Attributes the client
    library types as optional are [option]s; an object's name and
    namespace are strings. *)

Record V1OwnerReference := {
  ref_kind : string;
  ref_name : string }.

Record V1ObjectMeta := {
  meta_name : string;
  meta_namespace : string;
  owner_references : option (list V1OwnerReference);
  labels : option (gmap string string) }.

Record V1DeploymentSpec := { dep_replicas : option Z }.
Record V1DeploymentStatus := {
  dep_available_replicas : option Z;
  dep_ready_replicas : option Z }.
Record V1Deployment := {
  dep_metadata : option V1ObjectMeta;
  dep_spec : option V1DeploymentSpec;
  dep_status : option V1DeploymentStatus }.

Record V1ReplicaSetSpec := { rs_replicas : option Z }.
Record V1ReplicaSetStatus := {
  rs_available_replicas : option Z;
  rs_ready_replicas : option Z }.
Record V1ReplicaSet := {
  rs_metadata : option V1ObjectMeta;
  rs_spec : option V1ReplicaSetSpec;
  rs_status : option V1ReplicaSetStatus }.

Record V1DaemonSetStatus := {
  desired_number_scheduled : option Z;
  current_number_scheduled : option Z;
  number_ready : option Z;
  updated_number_scheduled : option Z;
  number_misscheduled : option Z }.
Record V1DaemonSet := {
  ds_metadata : option V1ObjectMeta;
  ds_status : option V1DaemonSetStatus }.

Record V1StatefulSetSpec := { ss_replicas : option Z }.
Record V1StatefulSetStatus := {
  ss_ready_replicas : option Z;
  ss_current_replicas : option Z;
  ss_updated_replicas : option Z }.
Record V1StatefulSet := {
  ss_metadata : option V1ObjectMeta;
  ss_spec : option V1StatefulSetSpec;
  ss_status : option V1StatefulSetStatus }.

(** A [datetime] is carried as its [isoformat()] rendering; every
    [datetime] is truthy. *)
Record datetime := { isoformat : string }.

Record V1CronJobSpec := { suspend : option bool }.
Record V1CronJobStatus := { last_successful_time : option datetime }.
Record V1CronJob := {
  cj_metadata : option V1ObjectMeta;
  cj_spec : option V1CronJobSpec;
  cj_status : option V1CronJobStatus }.

Record V1JobStatus := { failed : option Z }.
Record V1Job := {
  job_metadata : option V1ObjectMeta;
  job_status : option V1JobStatus }.

Record V1PodStatus := { phase : option string }.
Record V1Pod := {
  pod_metadata : option V1ObjectMeta;
  pod_status : option V1PodStatus }.

(** The cluster as the three API clients present it: each listing call
    returns its items or raises.  The answers are fixed for the run, and
    so is the clock reading that stamps the records. *)
Record Cluster := {
  list_deployment_for_all_namespaces : outcome (list V1Deployment);
  list_replica_set_for_all_namespaces : outcome (list V1ReplicaSet);
  list_daemon_set_for_all_namespaces : outcome (list V1DaemonSet);
  list_stateful_set_for_all_namespaces : outcome (list V1StatefulSet);
  list_cron_job_for_all_namespaces : outcome (list V1CronJob);
  list_namespaced_job : string -> outcome (list V1Job);
  list_namespaced_pod : string -> outcome (list V1Pod);
  datetime_now : datetime }.

(** The three model constructors the collectors call without arguments.
    The client validates what it constructs (its configuration has
    client-side validation on unless told otherwise), so a constructor
    that leaves a required attribute at [None] raises [ValueError] at the
    first such attribute: [current_number_scheduled] for the status of a
    daemon set, [job_template] for the spec of a scheduled job.  The
    status of a scheduled job has no required attribute. *)
Definition new_V1DaemonSetStatus : outcome V1DaemonSetStatus :=
  Raise (ValueError
           "Invalid value for `current_number_scheduled`, must not be `None`").

Definition new_V1CronJobSpec : outcome V1CronJobSpec :=
  Raise (ValueError "Invalid value for `job_template`, must not be `None`").

Definition new_V1CronJobStatus : outcome V1CronJobStatus :=
  Ret {| last_successful_time := None |}.

(** [obj or make()] for an attribute [obj] that holds a model object or
    [None]: a model object is truthy, so [make()] is called exactly when
    the attribute is [None]. *)
Definition or_new {St A} (obj : option A) (make : outcome A) : M St A :=
  match obj with
  | Some a => ret a
  | None => call make
  end.

(* ===================================================================== *)
(** * The scraper object and its watch index ([__init__])                 *)
(* ===================================================================== *)

(** One item of the watch list: [kind] may be absent or null. *)
Record WatchEntry := {
  we_kind : option string;
  we_namespace : string;
  we_name : string }.

Record MetricsScraper := {
  pagerduty_token : string;
  pagerduty_routing_key : string;
  watch_json : list WatchEntry;
  watch_pairs_by_kind : gmap string (gset (string * string));
  watched_namespaces : gset string }.

(** [(item.get("kind") or "Deployment").lower()]. *)
Definition entry_kind (item : WatchEntry) : string :=
  PyStr.lower
    match we_kind item with
    | Some k => if String.eqb k "" then "Deployment" else k
    | None => "Deployment"
    end.

(** [pairs.setdefault(kind, set()).add((ns, name))]. *)
Definition add_watch_pair (pairs : gmap string (gset (string * string)))
  (item : WatchEntry) : gmap string (gset (string * string)) :=
  let kind := entry_kind item in
  <[kind := default ∅ (pairs !! kind) ∪ {[ (we_namespace item, we_name item) ]}]>
    pairs.

Definition build_watch_pairs (items : list WatchEntry)
  : gmap string (gset (string * string)) :=
  foldl add_watch_pair ∅ items.

Definition build_watched_namespaces (items : list WatchEntry) : gset string :=
  list_to_set (we_namespace <$> items).

(** [MetricsScraper.__init__], given the environment variables already
    read and the outcome of loading the cluster configuration. *)
Definition __init__ (token routing_key : option string)
  (items : list WatchEntry) (load_config : outcome unit)
  : outcome MetricsScraper :=
  match token, routing_key with
  | Some t, Some r =>
      if String.eqb t "" || String.eqb r "" then
        Raise (ValueError "PAGERDUTY_TOKEN and PAGERDUTY_ROUTING_KEY must be set")
      else
        match load_config with
        | Raise e => Raise e
        | Ret _ =>
            Ret {| pagerduty_token := t;
                   pagerduty_routing_key := r;
                   watch_json := items;
                   watch_pairs_by_kind := build_watch_pairs items;
                   watched_namespaces := build_watched_namespaces items |}
        end
  | _, _ =>
      Raise (ValueError "PAGERDUTY_TOKEN and PAGERDUTY_ROUTING_KEY must be set")
  end.

(** [MetricsScraper._is_watched]. *)
Definition _is_watched (self : MetricsScraper) (kind namespace name : string)
  : bool :=
  match watch_pairs_by_kind self !! PyStr.lower kind with
  | Some pairs =>
      if decide (pairs = ∅) then bool_decide (namespace ∈ watched_namespaces self)
      else bool_decide ((namespace, name) ∈ pairs)
  | None => bool_decide (namespace ∈ watched_namespaces self)
  end.

(* ===================================================================== *)
(** * The resource collectors                                             *)
(* ===================================================================== *)

(** The shape all five collectors share:
    [metrics = []; try: items = <list call>; for x in items: <body>
     except Exception as e: logger.error(...); return metrics].
    The list [metrics] is created before the [try], so whatever was
    appended before an exception is still returned. *)
Definition collect {X : Type} (what : string) (listing : outcome (list X))
  (body : X -> list dict -> M Log (list dict)) : M Log (list dict) :=
  fun lg =>
    let failure e := (ERROR, "Failed to get " +:+ what +:+ " metrics: "
                             +:+ exn_str e) in
    match listing with
    | Raise e => (Ret [], lg ++ [failure e])
    | Ret items =>
        match for_each body items [] lg with
        | ((metrics, None), lg') => (Ret metrics, lg')
        | ((metrics, Some e), lg') => (Ret metrics, lg' ++ [failure e])
        end
    end.

Section Collectors.

Variable self : MetricsScraper.
Variable k8s : Cluster.

Definition timestamp : value := VStr (isoformat (datetime_now k8s)).

(** ** Deployments *)

Definition deployment_metric (name namespace : string)
  (desired_replicas available_replicas ready_replicas : Z) : dict :=
  list_to_map
    [ ("name", VStr name); ("namespace", VStr namespace);
      ("type", VStr "deployment");
      ("desired_replicas", VInt desired_replicas);
      ("available_replicas", VInt available_replicas);
      ("ready_replicas", VInt ready_replicas);
      ("timestamp", timestamp) ].

Definition deployment_body (deployment : V1Deployment) (metrics : list dict)
  : M Log (list dict) :=
  let* md := attr "name" (dep_metadata deployment) in
  let name := meta_name md in
  let namespace := meta_namespace md in
  if negb (_is_watched self "deployment" namespace name) then ret metrics
  else
    let* spec := attr "replicas" (dep_spec deployment) in
    let desired_replicas := Py.or_zero (dep_replicas spec) in
    let* status := attr "available_replicas" (dep_status deployment) in
    let available_replicas := Py.or_zero (dep_available_replicas status) in
    let ready_replicas := Py.or_zero (dep_ready_replicas status) in
    let metrics := metrics ++ [deployment_metric name namespace
                      desired_replicas available_replicas ready_replicas] in
    logger INFO ("Deployment " +:+ namespace +:+ "/" +:+ name +:+ ": "
                 +:+ pretty available_replicas +:+ "/"
                 +:+ pretty desired_replicas +:+ " available") ;;
    ret metrics.

Definition get_deployment_metrics : M Log (list dict) :=
  collect "Deployment" (list_deployment_for_all_namespaces k8s) deployment_body.

(** ** ReplicaSets *)

Definition replicaset_metric (name namespace : string)
  (desired_replicas available_replicas ready_replicas : Z) : dict :=
  list_to_map
    [ ("name", VStr name); ("namespace", VStr namespace);
      ("type", VStr "replicaset");
      ("desired_replicas", VInt desired_replicas);
      ("available_replicas", VInt available_replicas);
      ("ready_replicas", VInt ready_replicas);
      ("timestamp", timestamp) ].

Definition replicaset_body (rs : V1ReplicaSet) (metrics : list dict)
  : M Log (list dict) :=
  let* md := attr "name" (rs_metadata rs) in
  let name := meta_name md in
  let namespace := meta_namespace md in
  if negb (_is_watched self "replicaset" namespace name)
     && negb (bool_decide (namespace ∈ watched_namespaces self))
  then ret metrics
  else
    let* spec := attr "replicas" (rs_spec rs) in
    let desired_replicas := Py.or_zero (rs_replicas spec) in
    let* status := attr "available_replicas" (rs_status rs) in
    let available_replicas := Py.or_zero (rs_available_replicas status) in
    let ready_replicas := Py.or_zero (rs_ready_replicas status) in
    if desired_replicas =? 0 then ret metrics
    else
      ret (metrics ++ [replicaset_metric name namespace
                         desired_replicas available_replicas ready_replicas]).

Definition get_replicaset_metrics : M Log (list dict) :=
  collect "ReplicaSet" (list_replica_set_for_all_namespaces k8s) replicaset_body.

(** ** DaemonSets *)

Definition daemonset_metric (name namespace : string)
  (desired available ready current updated misscheduled : Z) : dict :=
  list_to_map
    [ ("name", VStr name); ("namespace", VStr namespace);
      ("type", VStr "daemonset");
      ("desired_replicas", VInt desired);
      ("available_replicas", VInt available);
      ("ready_replicas", VInt ready);
      ("current_number_scheduled", VInt current);
      ("updated_number_scheduled", VInt updated);
      ("number_misscheduled", VInt misscheduled);
      ("timestamp", timestamp) ].

Definition daemonset_body (ds : V1DaemonSet) (metrics : list dict)
  : M Log (list dict) :=
  let* md := attr "name" (ds_metadata ds) in
  let name := meta_name md in
  let namespace := meta_namespace md in
  if negb (_is_watched self "daemonset" namespace name) then ret metrics
  else
    let* status := or_new (ds_status ds) new_V1DaemonSetStatus in
    let desired := Py.or_zero (desired_number_scheduled status) in
    let current := Py.or_zero (current_number_scheduled status) in
    let ready := Py.or_zero (number_ready status) in
    let updated := Py.or_zero (updated_number_scheduled status) in
    let available := ready in
    let misscheduled := Py.or_zero (number_misscheduled status) in
    let metrics := metrics ++ [daemonset_metric name namespace
                      desired available ready current updated misscheduled] in
    logger INFO ("DaemonSet " +:+ namespace +:+ "/" +:+ name +:+ ": ready "
                 +:+ pretty ready +:+ " / desired " +:+ pretty desired
                 +:+ " (current " +:+ pretty current +:+ ", updated "
                 +:+ pretty updated +:+ ", mis " +:+ pretty misscheduled
                 +:+ ")") ;;
    ret metrics.

Definition get_daemonset_metrics : M Log (list dict) :=
  collect "DaemonSet" (list_daemon_set_for_all_namespaces k8s) daemonset_body.

(** ** StatefulSets *)

Definition statefulset_metric (name namespace : string)
  (desired ready current updated : Z) : dict :=
  list_to_map
    [ ("name", VStr name); ("namespace", VStr namespace);
      ("type", VStr "statefulset");
      ("desired_replicas", VInt desired);
      ("available_replicas", VInt ready);
      ("ready_replicas", VInt ready);
      ("current_replicas", VInt current);
      ("updated_replicas", VInt updated);
      ("timestamp", timestamp) ].

Definition statefulset_body (ss : V1StatefulSet) (metrics : list dict)
  : M Log (list dict) :=
  let* md := attr "name" (ss_metadata ss) in
  let name := meta_name md in
  let namespace := meta_namespace md in
  if negb (_is_watched self "statefulset" namespace name) then ret metrics
  else
    let* spec := attr "replicas" (ss_spec ss) in
    let desired := Py.or_zero (ss_replicas spec) in
    let* status := attr "ready_replicas" (ss_status ss) in
    let ready := Py.or_zero (ss_ready_replicas status) in
    let current := Py.or_zero (ss_current_replicas status) in
    let updated := Py.or_zero (ss_updated_replicas status) in
    let metrics := metrics ++ [statefulset_metric name namespace
                      desired ready current updated] in
    logger INFO ("StatefulSet " +:+ namespace +:+ "/" +:+ name +:+ ": ready "
                 +:+ pretty ready +:+ " / desired " +:+ pretty desired
                 +:+ " (current " +:+ pretty current +:+ ", updated "
                 +:+ pretty updated +:+ ")") ;;
    ret metrics.

Definition get_statefulset_metrics : M Log (list dict) :=
  collect "StatefulSet" (list_stateful_set_for_all_namespaces k8s)
          statefulset_body.

(** ** CronJobs *)

(** [job.status and (job.status.failed or 0) > 0]. *)
Definition job_reports_failure (job : V1Job) : bool :=
  match job_status job with
  | Some st => 0 <? Py.or_zero (failed st)
  | None => false
  end.

(** The body of [for ref in job.metadata.owner_references]; the locals
    are [(failed_jobs, job_names)]. *)
Definition owner_ref_step (name : string) (job_name : string) (job : V1Job)
  (locals : Z * list string) (ref : V1OwnerReference) : Z * list string :=
  let '(failed_jobs, job_names) := locals in
  if String.eqb (ref_kind ref) "CronJob" && String.eqb (ref_name ref) name then
    let job_names := job_names ++ [job_name] in
    if job_reports_failure job then (failed_jobs + 1, job_names)
    else (failed_jobs, job_names)
  else (failed_jobs, job_names).

(** The body of [for job in jobs.items].  A job without metadata, or
    with no (or an empty list of) owner references, is passed over. *)
Definition job_body (name : string) (job : V1Job) (locals : Z * list string)
  : M Log (Z * list string) :=
  match job_metadata job with
  | Some md =>
      match owner_references md with
      | Some (ref :: refs) =>
          ret (foldl (owner_ref_step name (meta_name md) job) locals
                     (ref :: refs))
      | _ => ret locals
      end
  | None => ret locals
  end.

(** The first inner [try]: list the namespace's Jobs and tally those the
    CronJob owns.  Returns [(failed_jobs, job_names)]. *)
Definition check_jobs (namespace name : string) : M Log (Z * list string) :=
  fun lg =>
    match list_namespaced_job k8s namespace with
    | Raise je =>
        (Ret (0, []),
         lg ++ [(WARNING, "Failed to list Jobs for CronJob " +:+ namespace
                          +:+ "/" +:+ name +:+ ": " +:+ exn_str je)])
    | Ret jobs =>
        match for_each (job_body name) jobs (0, []) lg with
        | ((locals, None), lg') => (Ret locals, lg')
        | ((locals, Some je), lg') =>
            (Ret locals,
             lg' ++ [(WARNING, "Failed to list Jobs for CronJob " +:+ namespace
                               +:+ "/" +:+ name +:+ ": " +:+ exn_str je)])
        end
    end.

(** [phase in ("failed", "unknown")]. *)
Definition bad_phase (phase : string) : bool :=
  String.eqb phase "failed" || String.eqb phase "unknown".

(** The body of [for pod in pods.items]; the local is [failed_pods]. *)
Definition pod_body (job_name_set : gset string) (pod : V1Pod) (failed_pods : Z)
  : M Log Z :=
  let* md := attr "labels" (pod_metadata pod) in
  let labels : gmap string string := default ∅ (labels md) in
  match labels !! "job-name" with
  | Some job_name =>
      if bool_decide (job_name ∈ job_name_set) then
        let* st := attr "phase" (pod_status pod) in
        let phase := PyStr.lower (default "" (phase st)) in
        if bad_phase phase then ret (failed_pods + 1) else ret failed_pods
      else ret failed_pods
  | None => ret failed_pods
  end.

(** The second inner [try], entered only when [job_names] is non-empty. *)
Definition check_pods (namespace name : string) (job_names : list string)
  : M Log Z :=
  fun lg =>
    match job_names with
    | [] => (Ret 0, lg)
    | _ :: _ =>
        match list_namespaced_pod k8s namespace with
        | Raise pe =>
            (Ret 0,
             lg ++ [(WARNING, "Failed to list Pods for CronJob " +:+ namespace
                              +:+ "/" +:+ name +:+ ": " +:+ exn_str pe)])
        | Ret pods =>
            let job_name_set : gset string := list_to_set job_names in
            match for_each (pod_body job_name_set) pods 0 lg with
            | ((failed_pods, None), lg') => (Ret failed_pods, lg')
            | ((failed_pods, Some pe), lg') =>
                (Ret failed_pods,
                 lg' ++ [(WARNING, "Failed to list Pods for CronJob "
                                   +:+ namespace +:+ "/" +:+ name +:+ ": "
                                   +:+ exn_str pe)])
            end
        end
    end.

Definition cronjob_metric (name namespace : string) (desired available : Z)
  (suspended : bool) (last_success_iso : option string)
  (failed_jobs failed_pods : Z) : dict :=
  list_to_map
    [ ("name", VStr name); ("namespace", VStr namespace);
      ("type", VStr "cronjob");
      ("desired_replicas", VInt desired);
      ("available_replicas", VInt available);
      ("ready_replicas", VInt available);
      ("suspended", VBool suspended);
      ("last_successful_time", from_option VStr VNone last_success_iso);
      ("failed_jobs", VInt failed_jobs);
      ("failed_pods", VInt failed_pods);
      ("timestamp", timestamp) ].

Definition cronjob_body (cj : V1CronJob) (metrics : list dict)
  : M Log (list dict) :=
  let* md := attr "name" (cj_metadata cj) in
  let name := meta_name md in
  let namespace := meta_namespace md in
  if negb (_is_watched self "cronjob" namespace name) then ret metrics
  else
    let* spec := or_new (cj_spec cj) new_V1CronJobSpec in
    let* status := or_new (cj_status cj) new_V1CronJobStatus in
    let suspended := match suspend spec with Some b => b | None => false end in
    let desired := if suspended then 0 else 1 in
    let last_success := last_successful_time status in
    let last_success_iso := isoformat <$> last_success in
    let* '(failed_jobs, job_names) := check_jobs namespace name in
    let* failed_pods := check_pods namespace name job_names in
    let healthy := negb suspended && bool_decide (is_Some last_success_iso)
                   && (failed_jobs =? 0) && (failed_pods =? 0) in
    let available := if healthy then 1 else 0 in
    let metrics := metrics ++ [cronjob_metric name namespace desired available
                      suspended last_success_iso failed_jobs failed_pods] in
    logger INFO ("CronJob " +:+ namespace +:+ "/" +:+ name +:+ ": enabled="
                 +:+ Py.format (VBool (negb suspended)) +:+ ", last_success="
                 +:+ Py.format (from_option VStr VNone last_success_iso)
                 +:+ ", failed_jobs=" +:+ pretty failed_jobs
                 +:+ ", failed_pods=" +:+ pretty failed_pods
                 +:+ " -> available=" +:+ pretty available) ;;
    ret metrics.

Definition get_cronjob_metrics : M Log (list dict) :=
  collect "CronJob" (list_cron_job_for_all_namespaces k8s) cronjob_body.

End Collectors.

(* ===================================================================== *)
(** * The store, the outbound calls and the PagerDuty dispatcher          *)
(* ===================================================================== *)

(** The body of a trigger event (the nested ["payload"] object). *)
Record PagerDutyPayload := {
  pd_summary : string;
  pd_severity : string;
  pd_source : string;
  pd_component : string;
  pd_group : string;
  pd_class : string;
  pd_custom_details : dict }.

(** The JSON document of one [requests.post]. *)
Record Event := {
  routing_key : string;
  event_action : string;
  dedup_key : string;
  payload : option PagerDutyPayload }.

(** What the endpoint does with a call: it answers with a status code,
    or the transport fails (connection error, timeout). *)
Inductive post_result : Type :=
| Response (status_code : Z)
| TransportFailure (msg : string).

(** The network: the result of the [n]-th outbound call of the run. *)
Record Network := { http_post : nat -> Event -> post_result }.

(** A reference to a dict object: its address in the store. *)
Abbreviation ref := nat (only parsing).

Record World := {
  store : list dict;        (* the dict objects, by address *)
  outbound : list Event;    (* the calls made so far, oldest first *)
  log : Log }.

Definition set_store (f : list dict -> list dict) (w : World) : World :=
  {| store := f (store w); outbound := outbound w; log := log w |}.
Definition set_outbound (f : list Event -> list Event) (w : World) : World :=
  {| store := store w; outbound := f (outbound w); log := log w |}.
Definition set_log (f : Log -> Log) (w : World) : World :=
  {| store := store w; outbound := outbound w; log := f (log w) |}.

(** Run a collector against the log of the world. *)
Definition lift_log {A} (c : M Log A) : M World A :=
  fun w => let '(r, lg) := c (log w) in (r, set_log (fun _ => lg) w).

Definition wlogger (l : level) (msg : string) : M World unit :=
  lift_log (logger l msg).

(** The dict a reference denotes.  Python references always denote an
    object; an address outside the store reads as an empty dict. *)
Definition deref (r : ref) : M World dict :=
  gets (fun w => default ∅ (store w !! r)).

(** [metric[k]]. *)
Definition getitem (r : ref) (k : string) : M World value :=
  let* d := deref r in
  match d !! k with
  | Some v => ret v
  | None => raise (KeyError k)
  end.

(** [metric[k] = v], in place. *)
Definition setitem (r : ref) (k : string) (v : value) : M World unit :=
  modify (set_store (alter (insert k v) r)).

(** Fresh dict objects for the records a collector built. *)
Definition alloc_all (ds : list dict) : M World (list ref) :=
  fun w => (Ret (seq (length (store w)) (length ds)),
            set_store (fun st => st ++ ds) w).

(** The argument of [send_pagerduty_alert]; ['metric'] is the record
    itself, not a copy. *)
Record Alert := {
  alert_resource : string;
  alert_type : value;
  alert_duration : string;
  alert_metric : ref }.

Section Dispatcher.

Variable self : MetricsScraper.
Variable net : Network.

(** [requests.post(url, json=..., headers=..., timeout=30)]: the call is
    made (and recorded) and either a response comes back or the
    transport raises. *)
Definition requests_post (json : Event) : M World Z :=
  fun w =>
    let w' := set_outbound (fun o => o ++ [json]) w in
    match http_post net (length (outbound w)) json with
    | Response status_code => (Ret status_code, w')
    | TransportFailure msg => (Raise (RequestException msg), w')
    end.

(** [response.raise_for_status()]: 4xx and 5xx raise. *)
Definition raise_for_status (status_code : Z) : M World unit :=
  if (400 <=? status_code) && (status_code <? 600)
  then raise (HTTPError status_code) else ret tt.

Definition trigger_event (alert : Alert) (details : dict) : Event :=
  {| routing_key := pagerduty_routing_key self;
     event_action := "trigger";
     dedup_key := "k8s-zero-replicas-" +:+ alert_resource alert;
     payload := Some
       {| pd_summary := "Kubernetes " +:+ Py.format (alert_type alert) +:+ " "
                        +:+ alert_resource alert
                        +:+ " has 0 available replicas";
          pd_severity := "critical";
          pd_source := "k8s-metrics-scraper";
          pd_component := alert_resource alert;
          pd_group := "kubernetes";
          pd_class := "replica_failure";
          pd_custom_details := details |} |}.

Definition send_pagerduty_alert (alert : Alert) : M World bool :=
  try_except
    (let* details := deref (alert_metric alert) in
     let* response := requests_post (trigger_event alert details) in
     raise_for_status response ;;
     wlogger INFO ("Successfully sent PagerDuty alert for "
                   +:+ alert_resource alert) ;;
     ret true)
    (fun e =>
       wlogger ERROR ("Failed to send PagerDuty alert for "
                      +:+ alert_resource alert +:+ ": " +:+ exn_str e) ;;
       ret false).

Definition resolve_event (resource_key : string) : Event :=
  {| routing_key := pagerduty_routing_key self;
     event_action := "resolve";
     dedup_key := "k8s-zero-replicas-" +:+ resource_key;
     payload := None |}.

Definition send_pagerduty_resolve (resource_key : string)
  (resource_type : value) (metric : ref) : M World bool :=
  try_except
    (let* response := requests_post (resolve_event resource_key) in
     raise_for_status response ;;
     wlogger INFO ("Successfully sent PagerDuty resolve for " +:+ resource_key) ;;
     ret true)
    (fun e =>
       wlogger ERROR ("Failed to send PagerDuty resolve for " +:+ resource_key
                      +:+ ": " +:+ exn_str e) ;;
       ret false).

(* ===================================================================== *)
(** * The stateless evaluator                                             *)
(* ===================================================================== *)

(** [self.remove_replicaset_hash(v)] on a dynamically typed argument:
    [re.search] rejects anything but a string. *)
Definition remove_replicaset_hash_of (v : value) : M World string :=
  match v with
  | VStr s => ret (remove_replicaset_hash s)
  | _ => raise (TypeError "expected string or bytes-like object")
  end.

(** The body of [for metric in metrics]; the locals are
    [(triggers, resolves)]. *)
Definition evaluate_body (metric : ref) (counts : Z * Z) : M World (Z * Z) :=
  let '(triggers, resolves) := counts in
  let* d := deref metric in
  let desired := Py.or (Py.get d "desired_replicas" (VInt 0)) (VInt 0) in
  let available := Py.or (Py.get d "available_replicas" (VInt 0)) (VInt 0) in
  if Py.eq desired (VInt 0) then ret (triggers, resolves)
  else
    let* old_name := getitem metric "name" in
    let* new_name := remove_replicaset_hash_of old_name in
    setitem metric "name" (VStr new_name) ;;
    let* ns := getitem metric "namespace" in
    let* nm := getitem metric "name" in
    let resource_key := Py.format ns +:+ "/" +:+ Py.format nm in
    let unhealthy := Py.eq available (VInt 0) in
    if unhealthy then
      let* ty := getitem metric "type" in
      let alert := {| alert_resource := resource_key; alert_type := ty;
                      alert_duration := "unknown"; alert_metric := metric |} in
      wlogger INFO ("Sending PagerDuty alert with dedup key: k8s-zero-replicas-"
                    +:+ resource_key) ;;
      let* sent := send_pagerduty_alert alert in
      ret (if sent then (triggers + 1, resolves) else (triggers, resolves))
    else
      wlogger INFO ("Sending PagerDuty resolve with dedup key: k8s-zero-replicas-"
                    +:+ resource_key) ;;
      let* ty := getitem metric "type" in
      let* sent := send_pagerduty_resolve resource_key ty metric in
      ret (if sent then (triggers, resolves + 1) else (triggers, resolves)).

Definition evaluate_and_notify (metrics : list ref) : M World unit :=
  let* '(triggers, resolves) := for_each_raising evaluate_body metrics (0, 0) in
  wlogger INFO ("Stateless notify complete - triggers: " +:+ pretty triggers
                +:+ ", resolves: " +:+ pretty resolves).

(* ===================================================================== *)
(** * The run                                                             *)
(* ===================================================================== *)

Variable k8s : Cluster.

Definition run : M World unit :=
  wlogger INFO "Starting metrics scraping run" ;;
  let* deployments := lift_log (get_deployment_metrics self k8s) in
  let* replicasets := lift_log (get_replicaset_metrics self k8s) in
  let* daemonsets := lift_log (get_daemonset_metrics self k8s) in
  let* statefulsets := lift_log (get_statefulset_metrics self k8s) in
  let* cronjobs := lift_log (get_cronjob_metrics self k8s) in
  let* all_metrics :=
    alloc_all (deployments ++ replicasets ++ daemonsets ++ statefulsets
               ++ cronjobs) in
  wlogger INFO ("Collected " +:+ pretty (length all_metrics) +:+ " metrics") ;;
  evaluate_and_notify all_metrics ;;
  wlogger INFO "Completed metrics scraping run (stateless)".

End Dispatcher.

(* ===================================================================== *)
(** * Vocabulary of the specification                                     *)
(* ===================================================================== *)

(** The definitions below are not part of the program: they name the
    notions the specification speaks about (a selected replica set, an
    owned execution, the event due for a record, ...) so that the
    theorems can compare them with what the program computes. *)

(** ** Names *)

(** A string made of characters of [[a-zA-Z0-9]] only. *)
Fixpoint all_alnum (s : string) : bool :=
  match s with
  | EmptyString => true
  | String c t => PyStr.is_alnum c && all_alnum t
  end.

(** ** The watch list *)

(** The pairs the watch list gives for one (lowercased) kind. *)
Definition pairs_of_kind (kind : string) (items : list WatchEntry)
  : gset (string * string) :=
  list_to_set ((λ item, (we_namespace item, we_name item)) <$>
               filter (λ item, entry_kind item = kind) items).

(** ** Replica sets *)

Definition rs_ident (rs : V1ReplicaSet) : string * string :=
  from_option (λ md, (meta_namespace md, meta_name md)) ("", "") (rs_metadata rs).

Definition rs_desired (rs : V1ReplicaSet) : Z :=
  from_option (λ sp, default 0 (rs_replicas sp)) 0 (rs_spec rs).

Definition rs_available (rs : V1ReplicaSet) : Z :=
  from_option (λ st, default 0 (rs_available_replicas st)) 0 (rs_status rs).

Definition rs_ready (rs : V1ReplicaSet) : Z :=
  from_option (λ st, default 0 (rs_ready_replicas st)) 0 (rs_status rs).

(** The replica sets the specification keeps: watched as a replica set or
    living in a watched namespace, and with a positive desired count. *)
Definition rs_selected (self : MetricsScraper) (rs : V1ReplicaSet) : bool :=
  (_is_watched self "replicaset" (rs_ident rs).1 (rs_ident rs).2
   || bool_decide ((rs_ident rs).1 ∈ watched_namespaces self))
  && (0 <? rs_desired rs).

Definition rs_record (k8s : Cluster) (rs : V1ReplicaSet) : dict :=
  replicaset_metric k8s (rs_ident rs).2 (rs_ident rs).1
    (rs_desired rs) (rs_available rs) (rs_ready rs).

(** A replica set as the API server serves it: metadata, spec and status
    present, and a replica count that is not negative. *)
Definition rs_well_formed (rs : V1ReplicaSet) : Prop :=
  is_Some (rs_metadata rs) ∧ is_Some (rs_spec rs) ∧ is_Some (rs_status rs)
  ∧ 0 ≤ rs_desired rs.

#[global] Instance rs_well_formed_dec rs : Decision (rs_well_formed rs).
Proof. unfold rs_well_formed. apply _. Defined.

(** ** Scheduled jobs, their executions and pods *)

Definition cj_suspended (cj : V1CronJob) : bool :=
  match cj_spec cj with
  | Some spec => default false (suspend spec)
  | None => false
  end.

Definition cj_last_success (cj : V1CronJob) : option datetime :=
  match cj_status cj with
  | Some status => last_successful_time status
  | None => None
  end.

Definition is_owner (name : string) (ref : V1OwnerReference) : bool :=
  String.eqb (ref_kind ref) "CronJob" && String.eqb (ref_name ref) name.

(** The execution is owned by the schedule called [name]. *)
Definition owned_by (name : string) (job : V1Job) : bool :=
  match job_metadata job with
  | Some md =>
      match owner_references md with
      | Some refs => existsb (is_owner name) refs
      | None => false
      end
  | None => false
  end.

Definition job_name (job : V1Job) : option string :=
  meta_name <$> job_metadata job.

(** The failure count the execution reports, 0 when it reports none. *)
Definition job_failure_count (job : V1Job) : Z :=
  default 0 (job_status job ≫= failed).

(** The execution reports a failure count greater than zero. *)
Definition job_failed (job : V1Job) : bool :=
  bool_decide (0 < job_failure_count job).

(** The value of the pod's [job-name] label, if any. *)
Definition pod_job_name (pod : V1Pod) : option string :=
  match pod_metadata pod with
  | Some md => match labels md with
               | Some lbls => lbls !! "job-name"
               | None => None
               end
  | None => None
  end.

(** The phases that count against a schedule, in lower case. *)
Definition failing_phases : list string := ["failed"; "unknown"].

(** The phase the pod is served with, empty when it has none. *)
Definition pod_phase (pod : V1Pod) : string :=
  default "" (pod_status pod ≫= phase).

(** The pod is in the failed or the unknown phase, in whatever letter
    case the phase is served. *)
Definition pod_failed (pod : V1Pod) : bool :=
  bool_decide (PyStr.lower (pod_phase pod) ∈ failing_phases).

(** The pod belongs to one of the schedule's executions. *)
Definition pod_of_owned_job (name : string) (jobs : list V1Job) (pod : V1Pod)
  : Prop :=
  ∃ job, job ∈ jobs ∧ owned_by name job = true
         ∧ is_Some (job_name job) ∧ job_name job = pod_job_name pod.

(** What one iteration of the job loop does to [(failed_jobs, job_names)]
    ([job_body] without the monad). *)
Definition job_tally (name : string) (locals : Z * list string) (job : V1Job)
  : Z * list string :=
  match job_metadata job with
  | Some md =>
      match owner_references md with
      | Some refs => foldl (owner_ref_step name (meta_name md) job) locals refs
      | None => locals
      end
  | None => locals
  end.

(** The two tallies of a completed job scan. *)
Definition owned_failures (name : string) (jobs : list V1Job) : Z :=
  (foldl (job_tally name) (0, []) jobs).1.

Definition owned_job_names (name : string) (jobs : list V1Job) : list string :=
  (foldl (job_tally name) (0, []) jobs).2.

(** A pod the scan can read: metadata and status present. *)
Definition pod_well_formed (pod : V1Pod) : Prop :=
  is_Some (pod_metadata pod) ∧ is_Some (pod_status pod).

#[global] Instance pod_well_formed_dec pod : Decision (pod_well_formed pod).
Proof. unfold pod_well_formed. apply _. Defined.

Definition pod_counts (job_name_set : gset string) (pod : V1Pod) : bool :=
  match pod_job_name pod with
  | Some jn => bool_decide (jn ∈ job_name_set) && pod_failed pod
  | None => false
  end.

Definition count_pods (job_name_set : gset string) (pods : list V1Pod) : Z :=
  Z.of_nat (length (filter (λ pod, pod_counts job_name_set pod = true) pods)).

(** The pod on which the scan stops: no metadata, or a pod of an owned
    job without a status. *)
Definition pod_breaks (job_name_set : gset string) (pod : V1Pod) : Prop :=
  pod_metadata pod = None
  ∨ (∃ jn, pod_job_name pod = Some jn ∧ jn ∈ job_name_set)
    ∧ pod_status pod = None.

(** What [cronjob_body] appends, in terms of the two tallies. *)
Definition cj_record (k8s : Cluster) (cj : V1CronJob) (md : V1ObjectMeta)
  (failed_jobs failed_pods : Z) : dict :=
  cronjob_metric k8s (meta_name md) (meta_namespace md)
    (if cj_suspended cj then 0 else 1)
    (if negb (cj_suspended cj) && bool_decide (is_Some (cj_last_success cj))
        && (failed_jobs =? 0) && (failed_pods =? 0) then 1 else 0)
    (cj_suspended cj) (isoformat <$> cj_last_success cj) failed_jobs failed_pods.

(** ** Metric records and the events due for them *)

Definition desired_of (d : dict) : value := Py.get d "desired_replicas" (VInt 0).

Definition available_of (d : dict) : value :=
  Py.get d "available_replicas" (VInt 0).

(** Step 1 of the evaluator: the record is passed over. *)
Definition ignored (d : dict) : bool := negb (Py.truthy (desired_of d)).

(** Step 4: nothing is available. *)
Definition unhealthy (d : dict) : bool := negb (Py.truthy (available_of d)).

Definition name_of (d : dict) : string :=
  match d !! "name" with Some (VStr n) => n | _ => "" end.

(** The record with its name normalized. *)
Definition normalized (d : dict) : dict :=
  <["name" := VStr (remove_replicaset_hash (name_of d))]> d.

Definition resource_key_of (d : dict) : string :=
  Py.format (default VNone (d !! "namespace")) +:+ "/"
  +:+ remove_replicaset_hash (name_of d).

(** The event due for the record at address [r]. *)
Definition expected_event (self : MetricsScraper) (r : nat) (d : dict)
  : option Event :=
  if ignored d then None
  else if unhealthy d then
    Some (trigger_event self
            {| alert_resource := resource_key_of d;
               alert_type := default VNone (d !! "type");
               alert_duration := "unknown";
               alert_metric := r |}
            (normalized d))
  else Some (resolve_event self (resource_key_of d)).

(** The record as the evaluator leaves it. *)
Definition evaluated (d : dict) : dict := if ignored d then d else normalized d.

(** A record carries its identity: a string name, a namespace, a type. *)
Definition has_identity (d : dict) : Prop :=
  (∃ n, d !! "name" = Some (VStr n))
  ∧ is_Some (d !! "namespace") ∧ is_Some (d !! "type").

#[global] Instance has_identity_dec d : Decision (has_identity d).
Proof.
  unfold has_identity.
  refine (match d !! "name" as o
                return Decision ((∃ n, o = Some (VStr n)) ∧ _) with
          | Some (VStr n) => cast_if (decide (is_Some (d !! "namespace")
                                              ∧ is_Some (d !! "type")))
          | _ => right _
          end); try (intros [[? ?] _]; discriminate); eauto.
  intros [_ ?]. contradiction.
Defined.

(** The reference denotes a metric record the evaluator can process: one
    it passes over, or one that carries its identity. *)
Definition evaluable (st : list dict) (r : nat) : Prop :=
  ∃ d, st !! r = Some d ∧ (ignored d = false → has_identity d).

#[global] Instance evaluable_dec st r : Decision (evaluable st r).
Proof.
  unfold evaluable.
  refine (match st !! r as o
                return Decision (∃ d, o = Some d ∧ _) with
          | Some d => cast_if (decide (ignored d = false → has_identity d))
          | None => right _
          end); [eauto| |].
  - intros (? & [= <-] & ?). contradiction.
  - intros (? & ? & _). discriminate.
Defined.

Definition events_of (self : MetricsScraper) (st : list dict) (r : nat)
  : list Event :=
  option_list (st !! r ≫= expected_event self r).

Definition events_for (self : MetricsScraper) (st : list dict)
  (metrics : list nat) : list Event :=
  omap (λ r, st !! r ≫= expected_event self r) metrics.

Definition store_after (st : list dict) (metrics : list nat) : list dict :=
  foldl (λ st r, alter evaluated r st) st metrics.

(** A record that is not passed over: one outbound call is due. *)
Definition dispatches (st : list dict) (r : nat) : bool :=
  match st !! r with
  | Some d => negb (ignored d)
  | None => false
  end.

(** The log line was written with [logger.error]. *)
Definition is_error (entry : level * string) : bool :=
  match entry.1 with ERROR => true | _ => false end.

(** The outbound call succeeded: a response that is neither 4xx nor 5xx. *)
Definition post_ok (r : post_result) : bool :=
  match r with
  | Response status_code => negb ((400 <=? status_code) && (status_code <? 600))
  | TransportFailure _ => false
  end.

(* ===================================================================== *)
(** * A sample deployment of the monitor                                  *)
(* ===================================================================== *)

(** Concrete inputs on which the theorems are exercised. *)
Module Sample.

Definition watch : list WatchEntry :=
  [ {| we_kind := Some "daemonset"; we_namespace := "ns1"; we_name := "foo" |};
    {| we_kind := None; we_namespace := "prod"; we_name := "web" |};
    {| we_kind := Some "Deployment"; we_namespace := "prod"; we_name := "db" |};
    {| we_kind := Some "CronJob"; we_namespace := "batch";
       we_name := "nightly" |} ].

Definition self : MetricsScraper :=
  {| pagerduty_token := "token";
     pagerduty_routing_key := "routing-key";
     watch_json := watch;
     watch_pairs_by_kind := build_watch_pairs watch;
     watched_namespaces := build_watched_namespaces watch |}.

Definition meta (namespace name : string) : option V1ObjectMeta :=
  Some {| meta_name := name; meta_namespace := namespace;
          owner_references := None; labels := None |}.

Definition web : V1Deployment :=
  {| dep_metadata := meta "prod" "web";
     dep_spec := Some {| dep_replicas := Some 3 |};
     dep_status := Some {| dep_available_replicas := None;
                           dep_ready_replicas := None |} |}.

(** A deployment served without a status. *)
Definition db : V1Deployment :=
  {| dep_metadata := meta "prod" "db";
     dep_spec := Some {| dep_replicas := Some 1 |};
     dep_status := None |}.

Definition replica_set (namespace name : string) (desired available : Z)
  : V1ReplicaSet :=
  {| rs_metadata := meta namespace name;
     rs_spec := Some {| rs_replicas := Some desired |};
     rs_status := Some {| rs_available_replicas := Some available;
                          rs_ready_replicas := Some available |} |}.

Definition replica_sets : list V1ReplicaSet :=
  [ replica_set "prod" "web-7f8b9c" 3 3;
    replica_set "prod" "web-5d4f8" 0 0;
    replica_set "dev" "scratch-66c4d" 1 0 ].

Definition nightly : V1CronJob :=
  {| cj_metadata := meta "batch" "nightly";
     cj_spec := Some {| suspend := Some false |};
     cj_status := Some {| last_successful_time :=
                            Some {| isoformat := "2024-05-01T02:00:00" |} |} |}.

Definition owned_job (name : string) (failures : option Z) : V1Job :=
  {| job_metadata := Some
       {| meta_name := name; meta_namespace := "batch";
          owner_references := Some [ {| ref_kind := "CronJob";
                                        ref_name := "nightly" |} ];
          labels := None |};
     job_status := Some {| failed := failures |} |}.

Definition job_pod (job : string) (ph : string) : V1Pod :=
  {| pod_metadata := Some
       {| meta_name := job +:+ "-x2x9k"; meta_namespace := "batch";
          owner_references := None;
          labels := Some {[ "job-name" := job ]} |};
     pod_status := Some {| phase := Some ph |} |}.

(** A pod served without metadata. *)
Definition broken_pod : V1Pod :=
  {| pod_metadata := None; pod_status := None |}.

Definition jobs : list V1Job :=
  [ owned_job "nightly-28571040" None; owned_job "nightly-28572480" (Some 0) ].

Definition pods : list V1Pod :=
  [ job_pod "nightly-28571040" "Succeeded";
    job_pod "nightly-28572480" "Running" ].

Definition clock : datetime := {| isoformat := "2024-05-01T12:00:00" |}.

(** Every listing answers, except the DaemonSet one. *)
Definition cluster : Cluster :=
  {| list_deployment_for_all_namespaces := Ret [web];
     list_replica_set_for_all_namespaces := Ret replica_sets;
     list_daemon_set_for_all_namespaces := Raise (ApiException "(500) Reason: Internal Server Error");
     list_stateful_set_for_all_namespaces := Ret [];
     list_cron_job_for_all_namespaces := Ret [nightly];
     list_namespaced_job := fun _ => Ret jobs;
     list_namespaced_pod := fun _ => Ret pods;
     datetime_now := clock |}.

(** The second deployment of the listing has no status. *)
Definition partial_cluster : Cluster :=
  {| list_deployment_for_all_namespaces := Ret [web; db];
     list_replica_set_for_all_namespaces := Ret [];
     list_daemon_set_for_all_namespaces := Ret [];
     list_stateful_set_for_all_namespaces := Ret [];
     list_cron_job_for_all_namespaces := Ret [];
     list_namespaced_job := fun _ => Ret [];
     list_namespaced_pod := fun _ => Ret [];
     datetime_now := clock |}.

(** The Job listing is refused. *)
Definition flaky_cluster : Cluster :=
  {| list_deployment_for_all_namespaces := Ret [];
     list_replica_set_for_all_namespaces := Ret [];
     list_daemon_set_for_all_namespaces := Ret [];
     list_stateful_set_for_all_namespaces := Ret [];
     list_cron_job_for_all_namespaces := Ret [nightly];
     list_namespaced_job := fun _ => Raise (ApiException "(403) Reason: Forbidden");
     list_namespaced_pod := fun _ => Ret [job_pod "nightly-28571040" "Failed"];
     datetime_now := clock |}.

(** The endpoint rejects the first call and accepts the others. *)
Definition net : Network :=
  {| http_post := fun n _ => if (n =? 0)%nat then Response 500 else Response 202 |}.

(** The endpoint cannot be reached at all. *)
Definition dead_net : Network :=
  {| http_post := fun _ _ => TransportFailure "Connection refused" |}.

Definition record (name type : string) (counts : list (string * value)) : dict :=
  list_to_map ([ ("name", VStr name); ("namespace", VStr "prod");
                 ("type", VStr type) ] ++ counts).

Definition records : list dict :=
  [ record "api-7f8b9c" "deployment"
      [ ("desired_replicas", VInt 3); ("available_replicas", VInt 0) ];
    record "web" "deployment"
      [ ("desired_replicas", VInt 2); ("available_replicas", VInt 2) ];
    record "idle-5d4f8" "replicaset"
      [ ("desired_replicas", VInt 0); ("available_replicas", VInt 0) ];
    list_to_map [ ("available_replicas", VInt 1) ];
    record "cache" "statefulset"
      [ ("desired_replicas", VInt 1); ("available_replicas", VNone) ] ].

Definition world : World := {| store := records; outbound := []; log := [] |}.

Definition refs : list nat := seq 0 5.

(** What was sent, reduced to the action and the deduplication key. *)
Definition sent (r : outcome unit * World) : list (string * string) :=
  (λ e, (event_action e, dedup_key e)) <$> outbound r.2.

(** The specification's end-to-end scenario. *)
Definition e2e_self : MetricsScraper :=
  let items := [ {| we_kind := Some "deployment"; we_namespace := "prod";
                    we_name := "web" |} ] in
  {| pagerduty_token := "token"; pagerduty_routing_key := "routing-key";
     watch_json := items; watch_pairs_by_kind := build_watch_pairs items;
     watched_namespaces := build_watched_namespaces items |}.

Definition e2e_cluster : Cluster :=
  {| list_deployment_for_all_namespaces := Ret [web];
     list_replica_set_for_all_namespaces := Ret [];
     list_daemon_set_for_all_namespaces := Ret [];
     list_stateful_set_for_all_namespaces := Ret [];
     list_cron_job_for_all_namespaces := Ret [];
     list_namespaced_job := fun _ => Ret [];
     list_namespaced_pod := fun _ => Ret [];
     datetime_now := clock |}.

End Sample.

(* ===================================================================== *)
(** * Start-up: the constructor from the process environment, and main    *)
(* ===================================================================== *)

(** One object of the [WATCH_JSON] document.  The documents covered are
    the arrays of objects in which [kind] is absent, null or a string
    and in which [namespace] and [name] are absent or strings; [None]
    stands for an absent key (or, for [kind], null).  Documents of
    another shape (not an array, an item that is not an object, another
    type of value under one of the three keys) are outside this
    description of the environment. *)
Record WatchItem := {
  item_kind : option string;
  item_namespace : option string;
  item_name : option string }.

(** What the process finds when it starts: the environment variables,
    the outcome of [json.loads(os.getenv('WATCH_JSON'))], the outcome of
    each of the two ways of loading the cluster configuration, and the
    two renderings of [sys.version] that are logged. *)
Record Process := {
  PAGERDUTY_TOKEN : option string;
  PAGERDUTY_ROUTING_KEY : option string;
  TARGET_NAMESPACE : option string;
  WATCH_JSON : outcome (list WatchItem);
  load_incluster_config : outcome unit;
  load_kube_config : outcome unit;
  python_version : string;
  python_version_line : string }.

(** [not os.getenv(...)]: unset or empty. *)
Definition unset (v : option string) : bool :=
  match v with
  | Some s => String.eqb s ""
  | None => true
  end.

(** The reads of one iteration of the index loop:
    [item.get("kind")], [item["namespace"]], [item["name"]]. *)
Definition read_item (item : WatchItem) : outcome WatchEntry :=
  match item_namespace item with
  | None => Raise (KeyError "namespace")
  | Some ns =>
      match item_name item with
      | None => Raise (KeyError "name")
      | Some name =>
          Ret {| we_kind := item_kind item; we_namespace := ns;
                 we_name := name |}
      end
  end.

(** The index loop stops at the first item it cannot read. *)
Fixpoint read_items (items : list WatchItem) : outcome (list WatchEntry) :=
  match items with
  | [] => Ret []
  | item :: items' =>
      match read_item item with
      | Raise e => Raise e
      | Ret entry =>
          match read_items items' with
          | Raise e => Raise e
          | Ret entries => Ret (entry :: entries)
          end
      end
  end.

(** [config.load_incluster_config()], falling back to
    [config.load_kube_config()], whose failure is logged and re-raised. *)
Definition load_config (p : Process) : M Log unit :=
  try_except (call (load_incluster_config p))
    (fun _ =>
       try_except (call (load_kube_config p))
         (fun e =>
            logger ERROR ("Failed to load Kubernetes config: " +:+ exn_str e) ;;
            raise e)).

(** [MetricsScraper()]: the whole of [__init__], from the process
    environment. *)
Definition construct (p : Process) : M Log MetricsScraper :=
  let* items := call (WATCH_JSON p) in
  if unset (PAGERDUTY_TOKEN p) || unset (PAGERDUTY_ROUTING_KEY p) then
    raise (ValueError "PAGERDUTY_TOKEN and PAGERDUTY_ROUTING_KEY must be set")
  else
    load_config p ;;
    logger INFO (String PyStr.newline "--- Version Information ---") ;;
    logger INFO ("Python Version: " +:+ python_version p +:+ " (Full: "
                 +:+ python_version_line p +:+ ")") ;;
    let* entries := call (read_items items) in
    ret {| pagerduty_token := default "" (PAGERDUTY_TOKEN p);
           pagerduty_routing_key := default "" (PAGERDUTY_ROUTING_KEY p);
           watch_json := entries;
           watch_pairs_by_kind := build_watch_pairs entries;
           watched_namespaces := build_watched_namespaces entries |}.

(** The [__main__] block: build the scraper and run it; any exception is
    logged as fatal and the process exits with status 1, otherwise it
    ends with status 0. *)
Definition main (p : Process) (k8s : Cluster) (net : Network)
  : World -> Z * World :=
  fun w =>
    match (let* scraper := lift_log (construct p) in run scraper net k8s) w with
    | (Ret _, w') => (0, w')
    | (Raise e, w') =>
        (1, set_log (fun lg => lg ++ [(ERROR, "Fatal error: " +:+ exn_str e)]) w')
    end.

(* ===================================================================== *)
(** * Further vocabulary                                                  *)
(* ===================================================================== *)

(** ** Deployments, daemon sets, stateful sets *)

Definition dep_ident (d : V1Deployment) : string * string :=
  from_option (λ md, (meta_namespace md, meta_name md)) ("", "") (dep_metadata d).

Definition dep_selected (self : MetricsScraper) (d : V1Deployment) : bool :=
  _is_watched self "deployment" (dep_ident d).1 (dep_ident d).2.

Definition dep_record (k8s : Cluster) (d : V1Deployment) : dict :=
  deployment_metric k8s (dep_ident d).2 (dep_ident d).1
    (from_option (λ sp, default 0 (dep_replicas sp)) 0 (dep_spec d))
    (from_option (λ st, default 0 (dep_available_replicas st)) 0 (dep_status d))
    (from_option (λ st, default 0 (dep_ready_replicas st)) 0 (dep_status d)).

Definition dep_well_formed (d : V1Deployment) : Prop :=
  is_Some (dep_metadata d) ∧ is_Some (dep_spec d) ∧ is_Some (dep_status d).

#[global] Instance dep_well_formed_dec d : Decision (dep_well_formed d).
Proof. unfold dep_well_formed. apply _. Defined.

Definition ds_ident (ds : V1DaemonSet) : string * string :=
  from_option (λ md, (meta_namespace md, meta_name md)) ("", "") (ds_metadata ds).

Definition ds_selected (self : MetricsScraper) (ds : V1DaemonSet) : bool :=
  _is_watched self "daemonset" (ds_ident ds).1 (ds_ident ds).2.

(** A daemon set the collector can read: it has metadata and, when it
    is watched, a status. *)
Definition ds_readable (self : MetricsScraper) (ds : V1DaemonSet) : Prop :=
  is_Some (ds_metadata ds)
  ∧ (ds_selected self ds = true → is_Some (ds_status ds)).

#[global] Instance ds_readable_dec self ds : Decision (ds_readable self ds).
Proof. unfold ds_readable. apply _. Defined.

(** The count a daemon set reports in one field of its status, 0 when
    the field is not set. *)
Definition ds_count (field : V1DaemonSetStatus → option Z) (ds : V1DaemonSet)
  : Z :=
  from_option (λ st, default 0 (field st)) 0 (ds_status ds).

Definition ds_record (k8s : Cluster) (ds : V1DaemonSet) : dict :=
  daemonset_metric k8s (ds_ident ds).2 (ds_ident ds).1
    (ds_count desired_number_scheduled ds) (ds_count number_ready ds)
    (ds_count number_ready ds) (ds_count current_number_scheduled ds)
    (ds_count updated_number_scheduled ds) (ds_count number_misscheduled ds).

Definition ss_ident (ss : V1StatefulSet) : string * string :=
  from_option (λ md, (meta_namespace md, meta_name md)) ("", "") (ss_metadata ss).

Definition ss_selected (self : MetricsScraper) (ss : V1StatefulSet) : bool :=
  _is_watched self "statefulset" (ss_ident ss).1 (ss_ident ss).2.

Definition ss_record (k8s : Cluster) (ss : V1StatefulSet) : dict :=
  statefulset_metric k8s (ss_ident ss).2 (ss_ident ss).1
    (from_option (λ sp, default 0 (ss_replicas sp)) 0 (ss_spec ss))
    (from_option (λ st, default 0 (ss_ready_replicas st)) 0 (ss_status ss))
    (from_option (λ st, default 0 (ss_current_replicas st)) 0 (ss_status ss))
    (from_option (λ st, default 0 (ss_updated_replicas st)) 0 (ss_status ss)).

Definition ss_well_formed (ss : V1StatefulSet) : Prop :=
  is_Some (ss_metadata ss) ∧ is_Some (ss_spec ss) ∧ is_Some (ss_status ss).

#[global] Instance ss_well_formed_dec ss : Decision (ss_well_formed ss).
Proof. unfold ss_well_formed. apply _. Defined.

(** ** Scheduled jobs *)

Definition cj_ident (cj : V1CronJob) : string * string :=
  from_option (λ md, (meta_namespace md, meta_name md)) ("", "") (cj_metadata cj).

Definition cj_selected (self : MetricsScraper) (cj : V1CronJob) : bool :=
  _is_watched self "cronjob" (cj_ident cj).1 (cj_ident cj).2.

(** A scheduled job the collector can read: it has metadata and, when it
    is watched, a spec. *)
Definition cj_readable (self : MetricsScraper) (cj : V1CronJob) : Prop :=
  is_Some (cj_metadata cj)
  ∧ (cj_selected self cj = true → is_Some (cj_spec cj)).

#[global] Instance cj_readable_dec self cj : Decision (cj_readable self cj).
Proof. unfold cj_readable. apply _. Defined.

(** ** The shape of a metric record *)

(** A record of the given kind: string name and namespace, the kind as
    its type, integer replica counts and a timestamp. *)
Definition metric_of_kind (kind : string) (d : dict) : Prop :=
  (∃ name, d !! "name" = Some (VStr name))
  ∧ (∃ namespace, d !! "namespace" = Some (VStr namespace))
  ∧ d !! "type" = Some (VStr kind)
  ∧ (∃ desired, d !! "desired_replicas" = Some (VInt desired))
  ∧ (∃ available, d !! "available_replicas" = Some (VInt available))
  ∧ (∃ ready, d !! "ready_replicas" = Some (VInt ready))
  ∧ (∃ ts, d !! "timestamp" = Some (VStr ts)).

(** ** The counters of the evaluator *)

(** The two counters after the events [evs] were sent as the calls number
    [n], [n + 1], ...: a trigger or a resolve is counted when its call
    succeeded. *)
Fixpoint tally_sent (net : Network) (n : nat) (evs : list Event)
  (counts : Z * Z) : Z * Z :=
  match evs with
  | [] => counts
  | e :: evs' =>
      let '(triggers, resolves) := counts in
      tally_sent net (S n) evs'
        (if post_ok (http_post net n e) then
           if String.eqb (event_action e) "trigger" then (triggers + 1, resolves)
           else (triggers, resolves + 1)
         else (triggers, resolves))
  end.

(** ** Scheduled jobs, as reported *)

(** What the collector holds about the scheduled job in the record
    [m]. *)
Definition cj_reported (cj : V1CronJob) (m : dict) : Prop :=
  m !! "name" = Some (VStr (cj_ident cj).2)
  ∧ m !! "namespace" = Some (VStr (cj_ident cj).1)
  ∧ m !! "type" = Some (VStr "cronjob")
  ∧ m !! "desired_replicas" = Some (VInt (if cj_suspended cj then 0 else 1))
  ∧ ∃ available,
      (available = 0 ∨ available = 1)
      ∧ m !! "available_replicas" = Some (VInt available)
      ∧ m !! "ready_replicas" = Some (VInt available)
      ∧ (cj_suspended cj = true ∨ cj_last_success cj = None → available = 0).

(** What the collector returns for one scheduled job of the listing: the
    record of a watched job, nothing for another. *)
Definition cj_group (self : MetricsScraper) (cj : V1CronJob)
  (group : list dict) : Prop :=
  if cj_selected self cj then ∃ m, group = [m] ∧ cj_reported cj m
  else group = [].

(** ** The effects of the evaluator *)

(** An event of this program: sent under the scraper's routing key, with
    a deduplication key made of the fixed prefix and a resource key; a
    trigger carries a critical payload about that resource, a resolve
    carries none. *)
Definition pagerduty_event (self : MetricsScraper) (e : Event) : Prop :=
  routing_key e = pagerduty_routing_key self
  ∧ ∃ key, dedup_key e = "k8s-zero-replicas-" +:+ key
     ∧ ((event_action e = "trigger"
         ∧ ∃ p, payload e = Some p ∧ pd_severity p = "critical"
                ∧ pd_source p = "k8s-metrics-scraper" ∧ pd_component p = key)
        ∨ (event_action e = "resolve" ∧ payload e = None)).

(** One iteration: at most one event, log lines appended, and at most
    the ['name'] of the record rewritten. *)
Definition iterates (self : MetricsScraper) (r : ref) (w w' : World)
  : Prop :=
  ∃ new added (renamed : option string),
    outbound w' = outbound w ++ new
    ∧ (length new ≤ 1)%nat ∧ Forall (pagerduty_event self) new
    ∧ log w' = log w ++ added
    ∧ store w' = match renamed with
                 | Some n => alter (insert "name" (VStr n)) r (store w)
                 | None => store w
                 end.

(** What one pass of the evaluator over [metrics] may do to the world. *)
Definition evolves (self : MetricsScraper) (metrics : list ref) (w w' : World)
  : Prop :=
  (∃ new, outbound w' = outbound w ++ new
          ∧ (length new ≤ length metrics)%nat
          ∧ Forall (pagerduty_event self) new)
  ∧ (∃ added, log w' = log w ++ added)
  ∧ length (store w') = length (store w)
  ∧ (∀ r, r ∉ metrics → store w' !! r = store w !! r)
  ∧ (∀ r d', store w' !! r = Some d' →
       ∃ d, store w !! r = Some d ∧ ∀ k, k ≠ "name" → d' !! k = d !! k).

(* ===================================================================== *)
(** * Further sample inputs                                               *)
(* ===================================================================== *)

Module Fixture.

Definition items : list WatchItem :=
  [ {| item_kind := Some "daemonset"; item_namespace := Some "ns1";
       item_name := Some "foo" |};
    {| item_kind := None; item_namespace := Some "prod";
       item_name := Some "web" |};
    {| item_kind := Some "Deployment"; item_namespace := Some "prod";
       item_name := Some "db" |};
    {| item_kind := Some "CronJob"; item_namespace := Some "batch";
       item_name := Some "nightly" |} ].

(** A process with everything in place; the in-cluster configuration is
    not available, the kube configuration is. *)
Definition process : Process :=
  {| PAGERDUTY_TOKEN := Some "token";
     PAGERDUTY_ROUTING_KEY := Some "routing-key";
     TARGET_NAMESPACE := None;
     WATCH_JSON := Ret items;
     load_incluster_config := Raise (ApiException "Service host/port is not set.");
     load_kube_config := Ret tt;
     python_version := "3.11.4";
     python_version_line := "3.11.4 (main, Jun  7 2023, 00:00:00) [GCC 12.2.0]" |}.

(** The routing key was left empty. *)
Definition process_without_key : Process :=
  {| PAGERDUTY_TOKEN := Some "token";
     PAGERDUTY_ROUTING_KEY := Some "";
     TARGET_NAMESPACE := None;
     WATCH_JSON := Ret items;
     load_incluster_config := Ret tt;
     load_kube_config := Ret tt;
     python_version := "3.11.4";
     python_version_line := "3.11.4 (main, Jun  7 2023, 00:00:00) [GCC 12.2.0]" |}.

Definition empty_world : World := {| store := []; outbound := []; log := [] |}.

Definition daemon_set (namespace name : string)
  (status : option V1DaemonSetStatus) : V1DaemonSet :=
  {| ds_metadata := Sample.meta namespace name; ds_status := status |}.

(** The status of a daemon set wanted on three nodes. *)
Definition scheduled (ready : Z) : V1DaemonSetStatus :=
  {| desired_number_scheduled := Some 3;
     current_number_scheduled := Some 3;
     number_ready := Some ready;
     updated_number_scheduled := Some 3;
     number_misscheduled := Some 0 |}.

(** The second daemon set is not watched and is served without a
    status. *)
Definition daemon_sets : list V1DaemonSet :=
  [ daemon_set "ns1" "foo" (Some (scheduled 0)); daemon_set "ns1" "bar" None ].

Definition stateful_set (namespace name : string) (desired ready : Z)
  : V1StatefulSet :=
  {| ss_metadata := Sample.meta namespace name;
     ss_spec := Some {| ss_replicas := Some desired |};
     ss_status := Some {| ss_ready_replicas := Some ready;
                          ss_current_replicas := Some ready;
                          ss_updated_replicas := None |} |}.

Definition stateful_sets : list V1StatefulSet :=
  [ stateful_set "prod" "cache" 2 0; stateful_set "dev" "scratch" 1 1 ].

Definition suspended_job : V1CronJob :=
  {| cj_metadata := Sample.meta "batch" "nightly";
     cj_spec := Some {| suspend := Some true |};
     cj_status := None |}.

(** Every listing answers; the Job listing of a namespace does not. *)
Definition cluster : Cluster :=
  {| list_deployment_for_all_namespaces := Ret [Sample.web];
     list_replica_set_for_all_namespaces := Ret Sample.replica_sets;
     list_daemon_set_for_all_namespaces := Ret daemon_sets;
     list_stateful_set_for_all_namespaces := Ret stateful_sets;
     list_cron_job_for_all_namespaces := Ret [Sample.nightly; suspended_job];
     list_namespaced_job := fun _ => Raise (ApiException "(403) Reason: Forbidden");
     list_namespaced_pod := fun _ => Ret Sample.pods;
     datetime_now := Sample.clock |}.

(** Three daemon sets of a watched namespace; the second is served
    without a status. *)
Definition broken_daemon_sets : list V1DaemonSet :=
  [ daemon_set "prod" "node-exporter" (Some (scheduled 3));
    daemon_set "prod" "log-shipper" None;
    daemon_set "prod" "cni" (Some (scheduled 0)) ].

Definition cron_job (namespace name : string) (spec : option V1CronJobSpec)
  : V1CronJob :=
  {| cj_metadata := Sample.meta namespace name;
     cj_spec := spec;
     cj_status := None |}.

(** Three scheduled jobs of a watched namespace; the second is served
    without a spec. *)
Definition broken_cron_jobs : list V1CronJob :=
  [ cron_job "prod" "report" (Some {| suspend := None |});
    cron_job "prod" "cleanup" None;
    cron_job "prod" "backup" (Some {| suspend := Some true |}) ].

Definition degraded_cluster : Cluster :=
  {| list_deployment_for_all_namespaces := Ret [Sample.web];
     list_replica_set_for_all_namespaces := Ret [];
     list_daemon_set_for_all_namespaces := Ret broken_daemon_sets;
     list_stateful_set_for_all_namespaces := Ret [];
     list_cron_job_for_all_namespaces := Ret broken_cron_jobs;
     list_namespaced_job := fun _ => Ret [];
     list_namespaced_pod := fun _ => Ret [];
     datetime_now := Sample.clock |}.

(** A store whose second record has a positive desired count and no name. *)
Definition nameless_world : World :=
  {| store := [ Sample.record "api-7f8b9c" "deployment"
                  [ ("desired_replicas", VInt 3); ("available_replicas", VInt 0) ];
                list_to_map [ ("namespace", VStr "prod");
                              ("desired_replicas", VInt 1) ];
                Sample.record "web" "deployment"
                  [ ("desired_replicas", VInt 2); ("available_replicas", VInt 2) ] ];
     outbound := []; log := [] |}.

(** Two generations of the same replica set. *)
Definition generations : World :=
  {| store := [ Sample.record "web-7f8b9c" "replicaset"
                  [ ("desired_replicas", VInt 3); ("available_replicas", VInt 0) ];
                Sample.record "web-5d4f8" "replicaset"
                  [ ("desired_replicas", VInt 3); ("available_replicas", VInt 3) ] ];
     outbound := []; log := [] |}.

End Fixture.

(* ===================================================================== *)
(** * Theorems                                                            *)
(* ===================================================================== *)

Local Set Warnings "-clear-no-such-hyp".

(** ** Name normalization *)

Section Normalization.
Import PyStr.

Lemma append_nil (s : string) : "" +:+ s = s.
Proof. reflexivity. Qed.

Lemma append_cons c (p s : string) : String c p +:+ s = String c (p +:+ s).
Proof. reflexivity. Qed.

Lemma at_dollar_hyphen x y : at_dollar (x +:+ String hyphen y) = false.
Proof.
  destruct x as [|c [|d x]]; simpl.
  - destruct y; [|done]. vm_compute. done.
  - done.
  - done.
Qed.

Lemma match_alnum_hyphen x y :
  match_alnum_plus_dollar (x +:+ String hyphen y) = None.
Proof.
  induction x as [|c x IH]; simpl; [done|].
  destruct (is_alnum c); [|done].
  change (String.append x (String hyphen y)) with (x +:+ String hyphen y).
  by rewrite IH, at_dollar_hyphen.
Qed.

Lemma match_alnum_all a :
  a ≠ EmptyString → all_alnum a = true →
  match_alnum_plus_dollar a = Some (String.length a).
Proof.
  induction a as [|c a IH]; [done|]. intros _ [Hc Ha]%andb_prop. simpl.
  rewrite Hc. destruct a as [|d a]; [done|].
  rewrite IH; [done|done|done].
Qed.

Lemma re_sub_from_skip_all a : re_sub_from (String.length a) a = EmptyString.
Proof. induction a; simpl; [done|]. done. Qed.

Lemma re_sub_from_length k s :
  (String.length (re_sub_from k s) ≤ String.length s)%nat.
Proof.
  revert k. induction s as [|c s IH]; intros k; [simpl; lia|].
  cbn [re_sub_from]. destruct k as [|k].
  - destruct (match_here (String c s)) as [n|].
    + specialize (IH (Nat.pred n)). cbn [String.length]. lia.
    + cbn [String.length]. specialize (IH 0%nat). lia.
  - specialize (IH k). cbn [String.length]. lia.
Qed.

Lemma re_search_shrinks s :
  re_search s = true → (String.length (re_sub s) < String.length s)%nat.
Proof.
  unfold re_sub. induction s as [|c s IH]; [done|].
  intros H. cbn [re_search] in H. cbn [re_sub_from].
  destruct (match_here (String c s)) as [n|].
  - pose proof (re_sub_from_length (Nat.pred n) s). cbn [String.length]. lia.
  - cbn [String.length]. specialize (IH H). lia.
Qed.

Lemma re_search_segment p a :
  a ≠ EmptyString → all_alnum a = true →
  re_search (p +:+ String hyphen a) = true.
Proof.
  intros Hne Ha. induction p as [|c p IH].
  - rewrite append_nil. cbn [re_search match_here].
    destruct (ascii_dec hyphen hyphen); [|done].
    by rewrite match_alnum_all.
  - rewrite append_cons. cbn [re_search match_here].
    destruct (ascii_dec c hyphen); [|done].
    by rewrite match_alnum_hyphen.
Qed.

Lemma strip_one_segment p a :
  a ≠ EmptyString → all_alnum a = true →
  remove_replicaset_hash (p +:+ String hyphen a) = p.
Proof.
  intros Hne Ha. unfold remove_replicaset_hash, re_sub.
  rewrite re_search_segment by done.
  induction p as [|c p IH].
  - rewrite append_nil. cbn [re_sub_from match_here].
    destruct (ascii_dec hyphen hyphen); [|done].
    rewrite match_alnum_all by done. cbn [fmap option_fmap option_map Nat.pred].
    apply re_sub_from_skip_all.
  - rewrite append_cons. cbn [re_sub_from match_here].
    destruct (ascii_dec c hyphen).
    + rewrite match_alnum_hyphen. cbn [fmap option_fmap option_map].
      by rewrite IH.
    + by rewrite IH.
Qed.

Lemma unchanged_without_match s :
  re_search s = false → remove_replicaset_hash s = s.
Proof. unfold remove_replicaset_hash. by intros ->. Qed.

Lemma changed_with_match s :
  re_search s = true → remove_replicaset_hash s ≠ s.
Proof.
  intros H Heq. unfold remove_replicaset_hash in Heq. rewrite H in Heq.
  apply re_search_shrinks in H. rewrite Heq in H. lia.
Qed.

Lemma idempotent_iff_no_match name :
  remove_replicaset_hash (remove_replicaset_hash name)
    = remove_replicaset_hash name
  ↔ re_search (remove_replicaset_hash name) = false.
Proof.
  split.
  - intros Heq. destruct (re_search (remove_replicaset_hash name)) eqn:E; [|done].
    by apply changed_with_match in E.
  - apply unchanged_without_match.
Qed.

(** C4, as amended.  Normalization removes exactly one trailing
    [-<alphanumerics>] segment: a name of the form [p-a], with [a] a
    non-empty run of letters and digits, becomes [p], and a name in which
    the pattern does not match is returned unchanged.  Applying it twice
    gives the same result as applying it once exactly when the normalized
    name no longer matches the pattern.  In particular ["api-7f8b9c"]
    becomes ["api"] and ["api"] stays ["api"]. *)
Theorem remove_replicaset_hash_strips_one_segment name :
  (re_search name = false → remove_replicaset_hash name = name)
  ∧ (∀ p a, name = p +:+ String hyphen a → a ≠ EmptyString →
            all_alnum a = true → remove_replicaset_hash name = p)
  ∧ (remove_replicaset_hash (remove_replicaset_hash name)
       = remove_replicaset_hash name
     ↔ re_search (remove_replicaset_hash name) = false)
  ∧ remove_replicaset_hash "api-7f8b9c" = "api"
  ∧ remove_replicaset_hash "api" = "api".
Proof.
  split; [apply unchanged_without_match|].
  split; [intros p a -> ? ?; by apply strip_one_segment|].
  split; [apply idempotent_iff_no_match|].
  split; reflexivity.
Qed.

End Normalization.

Lemma remove_replicaset_hash_strips_one_segment_witness :
  remove_replicaset_hash "payments-api-7f8b9c" = "payments-api"
  ∧ remove_replicaset_hash "payments" = "payments".
Proof.
  split.
  - apply (proj1 (proj2 (remove_replicaset_hash_strips_one_segment
                           "payments-api-7f8b9c")) "payments-api" "7f8b9c");
      [reflexivity | discriminate | reflexivity].
  - apply (proj1 (remove_replicaset_hash_strips_one_segment "payments")).
    reflexivity.
Defined.

(** C4, as stated, fails: a name with two trailing segments loses one of
    them at each application, so normalizing an already-normalized name
    changes it again. *)
Lemma remove_replicaset_hash_not_idempotent :
  remove_replicaset_hash "payments-api-7f8b9c" = "payments-api"
  ∧ remove_replicaset_hash (remove_replicaset_hash "payments-api-7f8b9c")
    = "payments"
  ∧ ¬ (∀ name, remove_replicaset_hash (remove_replicaset_hash name)
               = remove_replicaset_hash name).
Proof.
  split; [reflexivity|]. split; [reflexivity|].
  intros H. specialize (H "payments-api-7f8b9c"). discriminate H.
Qed.

Example normalize_api_hash : remove_replicaset_hash "api-7f8b9c" = "api".
Proof. reflexivity. Qed.

Example normalize_api : remove_replicaset_hash "api" = "api".
Proof. reflexivity. Qed.

Example normalize_before_final_newline :
  remove_replicaset_hash ("api-7f8b9c" +:+ String PyStr.newline "")
  = "api" +:+ String PyStr.newline "".
Proof. reflexivity. Qed.

Example normalize_keeps_non_alphanumeric_tail :
  remove_replicaset_hash "api-v1.2" = "api-v1.2".
Proof. reflexivity. Qed.

(** ** The watch filter *)

Section WatchFilter.

Lemma foldl_add_watch_pair_lookup items pairs kind :
  foldl add_watch_pair pairs items !! kind =
    match filter (λ item, entry_kind item = kind) items with
    | [] => pairs !! kind
    | _ :: _ => Some (default ∅ (pairs !! kind) ∪ pairs_of_kind kind items)
    end.
Proof.
  revert pairs. induction items as [|item items IH]; intros pairs; [done|].
  cbn [foldl]. rewrite IH. unfold pairs_of_kind.
  rewrite filter_cons. unfold add_watch_pair.
  destruct (decide (entry_kind item = kind)) as [->|Hne].
  - rewrite lookup_insert_eq. cbn [default].
    destruct (filter _ items) as [|i l] eqn:E.
    + f_equal. cbn. set_solver.
    + f_equal. rewrite fmap_cons, list_to_set_cons. set_solver.
  - rewrite lookup_insert_ne by done. done.
Qed.

Lemma build_watch_pairs_lookup items kind :
  build_watch_pairs items !! kind =
    match filter (λ item, entry_kind item = kind) items with
    | [] => None
    | _ :: _ => Some (pairs_of_kind kind items)
    end.
Proof.
  unfold build_watch_pairs. rewrite foldl_add_watch_pair_lookup, lookup_empty.
  destruct (filter _ items); [done|]. f_equal. cbn [default]. set_solver.
Qed.

Lemma elem_of_pairs_of_kind kind items ns name :
  (ns, name) ∈ pairs_of_kind kind items ↔
  ∃ item, item ∈ items ∧ entry_kind item = kind
          ∧ we_namespace item = ns ∧ we_name item = name.
Proof.
  unfold pairs_of_kind. rewrite elem_of_list_to_set, list_elem_of_fmap.
  split.
  - intros (item & [= -> ->] & Hin). apply list_elem_of_filter in Hin as [? ?].
    eauto.
  - intros (item & Hin & Hk & <- & <-). exists item. split; [done|].
    by apply list_elem_of_filter.
Qed.

Lemma filter_kind_nonempty kind items :
  filter (λ item, entry_kind item = kind) items ≠ [] ↔
  ∃ item, item ∈ items ∧ entry_kind item = kind.
Proof.
  split.
  - destruct (filter _ items) as [|i l] eqn:E; [done|]. intros _.
    assert (Hi : i ∈ filter (λ item, entry_kind item = kind) items)
      by (rewrite E; left).
    apply list_elem_of_filter in Hi as [? ?]. eauto.
  - intros (item & Hin & Hk) E.
    assert (Hi : item ∈ filter (λ item, entry_kind item = kind) items)
      by (by apply list_elem_of_filter).
    rewrite E in Hi. by apply not_elem_of_nil in Hi.
Qed.

Lemma elem_of_build_watched_namespaces items ns :
  ns ∈ build_watched_namespaces items ↔
  ∃ item, item ∈ items ∧ we_namespace item = ns.
Proof.
  unfold build_watched_namespaces.
  rewrite elem_of_list_to_set, list_elem_of_fmap. naive_solver.
Qed.

Lemma build_watch_pairs_nonempty items kind pairs :
  build_watch_pairs items !! kind = Some pairs → pairs ≠ ∅.
Proof.
  rewrite build_watch_pairs_lookup.
  destruct (filter _ items) as [|i l] eqn:E; [done|]. intros [= <-].
  assert (Hi : i ∈ filter (λ item, entry_kind item = kind) items)
    by (rewrite E; left).
  apply list_elem_of_filter in Hi as [Hk Hin].
  assert ((we_namespace i, we_name i) ∈ pairs_of_kind kind items)
    by (apply elem_of_pairs_of_kind; eauto).
  set_solver.
Qed.

Lemma is_watched_exact self kind namespace name pairs :
  watch_pairs_by_kind self !! PyStr.lower kind = Some pairs → pairs ≠ ∅ →
  _is_watched self kind namespace name = bool_decide ((namespace, name) ∈ pairs).
Proof. unfold _is_watched. intros -> ?. by rewrite decide_False. Qed.

Lemma is_watched_fallback self kind namespace name :
  watch_pairs_by_kind self !! PyStr.lower kind = None →
  _is_watched self kind namespace name
  = bool_decide (namespace ∈ watched_namespaces self).
Proof. unfold _is_watched. by intros ->. Qed.

Lemma init_index token routing_key items cfg self :
  __init__ token routing_key items cfg = Ret self →
  watch_pairs_by_kind self = build_watch_pairs items
  ∧ watched_namespaces self = build_watched_namespaces items.
Proof.
  unfold __init__. intros H.
  destruct token, routing_key; try done.
  destruct (_ || _); [done|]. destruct cfg; [|done].
  by injection H as <-.
Qed.

(** C2.  [_is_watched] lowercases the kind and looks the pair set up.
    With a non-empty set for the kind the answer is membership of
    [(namespace, name)] in that set; with no set for the kind it is
    membership of the namespace in the set of all watched namespaces.
    For a scraper built by [__init__] from a watch list, no pair set is
    ever empty, so a kind with at least one entry is matched exactly and
    a kind with none is watched namespace-wide. *)
Theorem is_watched_spec self (kind namespace name : string) :
  (∀ pairs, watch_pairs_by_kind self !! PyStr.lower kind = Some pairs →
     pairs ≠ ∅ →
     _is_watched self kind namespace name
     = bool_decide ((namespace, name) ∈ pairs))
  ∧ (watch_pairs_by_kind self !! PyStr.lower kind = None →
     _is_watched self kind namespace name
     = bool_decide (namespace ∈ watched_namespaces self))
  ∧ (∀ token routing_key items cfg,
       __init__ token routing_key items cfg = Ret self →
       (∀ k pairs, watch_pairs_by_kind self !! k = Some pairs → pairs ≠ ∅)
       ∧ (∀ ns, ns ∈ watched_namespaces self ↔
                ∃ item, item ∈ items ∧ we_namespace item = ns)
       ∧ ((∃ item, item ∈ items ∧ entry_kind item = PyStr.lower kind) →
          (_is_watched self kind namespace name = true ↔
           ∃ item, item ∈ items ∧ entry_kind item = PyStr.lower kind
                   ∧ we_namespace item = namespace ∧ we_name item = name))
       ∧ (¬ (∃ item, item ∈ items ∧ entry_kind item = PyStr.lower kind) →
          (_is_watched self kind namespace name = true ↔
           ∃ item, item ∈ items ∧ we_namespace item = namespace))).
Proof.
  split; [intros; by apply is_watched_exact|].
  split; [apply is_watched_fallback|].
  intros token routing_key items cfg [Hp Hn]%init_index.
  split; [|split; [|split]].
  - intros k pairs. rewrite Hp. apply build_watch_pairs_nonempty.
  - intros ns. rewrite Hn. apply elem_of_build_watched_namespaces.
  - intros Hex. pose proof Hex as Hne%filter_kind_nonempty.
    pose proof (build_watch_pairs_lookup items (PyStr.lower kind)) as Hl.
    destruct (filter _ items) as [|i l] eqn:E; [done|].
    rewrite <- Hp in Hl.
    rewrite (is_watched_exact _ _ _ _ _ Hl).
    + rewrite bool_decide_eq_true. apply elem_of_pairs_of_kind.
    + rewrite Hp in Hl. by apply build_watch_pairs_nonempty in Hl.
  - intros Hnex.
    pose proof (build_watch_pairs_lookup items (PyStr.lower kind)) as Hl.
    destruct (filter _ items) as [|i l] eqn:E.
    + rewrite <- Hp in Hl. rewrite (is_watched_fallback _ _ _ _ Hl).
      rewrite bool_decide_eq_true, Hn.
      apply elem_of_build_watched_namespaces.
    + exfalso. apply Hnex. apply filter_kind_nonempty. by rewrite E.
Qed.

End WatchFilter.

Lemma is_watched_spec_witness :
  _is_watched Sample.self "DaemonSet" "ns1" "foo" = true
  ∧ _is_watched Sample.self "daemonset" "ns1" "bar" = false
  ∧ _is_watched Sample.self "statefulset" "ns1" "anything" = true.
Proof.
  assert (Hinit : __init__ (Some "token") (Some "routing-key") Sample.watch
                    (Ret tt) = Ret Sample.self) by reflexivity.
  split; [|split].
  - destruct (is_watched_spec Sample.self "DaemonSet" "ns1" "foo")
      as (_ & _ & H).
    destruct (H _ _ _ _ Hinit) as (_ & _ & Hexact & _).
    apply Hexact.
    + eexists. split; [apply list_elem_of_here|reflexivity].
    + eexists. split; [apply list_elem_of_here|]. repeat split.
  - destruct (is_watched_spec Sample.self "daemonset" "ns1" "bar")
      as (Hexact & _).
    rewrite (Hexact {[ ("ns1", "foo") ]}); [reflexivity|reflexivity|].
    intros Hempty. assert (Hin : ("ns1", "foo") ∈ (∅ : gset (string * string))).
    { rewrite <- Hempty. by apply elem_of_singleton. }
    by apply not_elem_of_empty in Hin.
  - destruct (is_watched_spec Sample.self "statefulset" "ns1" "anything")
      as (_ & Hfallback & _).
    rewrite Hfallback; reflexivity.
Defined.

(** The examples of the specification: one [daemonset] entry. *)
Example is_watched_examples :
  let items := [ {| we_kind := Some "daemonset"; we_namespace := "ns1";
                    we_name := "foo" |} ] in
  ∀ self, __init__ (Some "token") (Some "key") items (Ret tt) = Ret self →
    _is_watched self "daemonset" "ns1" "foo" = true
    ∧ _is_watched self "daemonset" "ns1" "bar" = false
    ∧ _is_watched self "deployment" "ns1" "anything" = true
    ∧ _is_watched self "deployment" "ns2" "anything" = false.
Proof. intros items self [= <-]. repeat split. Qed.

(** ** Loops and the collector boundary *)

Section Loops.
Context {St X S : Type}.
Implicit Types (body : X → S → M St S) (xs : list X) (s : S) (w : St).

Lemma for_each_app body xs ys s w :
  for_each body (xs ++ ys) s w =
    match for_each body xs s w with
    | ((s', None), w') => for_each body ys s' w'
    | r => r
    end.
Proof.
  revert s w. induction xs as [|x xs IH]; intros s w; [done|].
  cbn [app for_each]. destruct (body x s w) as [[s'|e] w']; [apply IH|done].
Qed.

Lemma for_each_pure (g : S → X → S) xs s w :
  for_each (λ x s, ret (g s x)) xs s w = ((foldl g s xs, None), w).
Proof. revert s. induction xs as [|x xs IH]; intros s; [done|]. apply IH. Qed.

Lemma for_each_ext body body' xs s w :
  (∀ x s w, x ∈ xs → body x s w = body' x s w) →
  for_each body xs s w = for_each body' xs s w.
Proof.
  revert s w. induction xs as [|x xs IH]; intros s w H; [done|].
  cbn [for_each]. rewrite H by left.
  destruct (body' x s w) as [[s'|e] w']; [|done].
  apply IH. intros. apply H. by right.
Qed.

End Loops.

Section Appending.
Context {St X A : Type}.

(** A loop whose body, on every item of the list, returns after
    appending [f x] to the accumulator, appends them all. *)
Lemma for_each_appends (body : X → list A → M St (list A)) (f : X → list A)
    (xs : list X) :
  (∀ x s w, x ∈ xs → ∃ w', body x s w = (Ret (s ++ f x), w')) →
  ∀ s w, ∃ w', for_each body xs s w = ((s ++ concat (f <$> xs), None), w').
Proof.
  induction xs as [|x xs IH]; intros H s w.
  - exists w. cbn. by rewrite app_nil_r.
  - cbn [for_each]. destruct (H x s w) as [w' ->]; [left|].
    destruct (IH (λ y s w Hy, H y s w (list_elem_of_further _ _ _ Hy))
                 (s ++ f x) w') as [w'' ->].
    exists w''. cbn. by rewrite app_assoc.
Qed.

End Appending.

Lemma filter_nil_iff {A} (P : A → Prop) `{!∀ x, Decision (P x)} (l : list A) :
  filter P l = [] ↔ Forall (λ x, ¬ P x) l.
Proof.
  induction l as [|x l IH]; [by split|]. rewrite filter_cons, Forall_cons.
  destruct (decide (P x)); [|by rewrite IH; tauto]. split; [done|tauto].
Qed.

Lemma concat_select {X A} (P : X → bool) (g : X → A) (xs : list X) :
  concat ((λ x, if P x then [g x] else []) <$> xs)
  = g <$> filter (λ x, P x = true) xs.
Proof.
  induction xs as [|x xs IH]; [done|].
  rewrite fmap_cons, filter_cons. cbn [concat]. rewrite IH.
  destruct (P x) eqn:E.
  - by rewrite decide_True.
  - by rewrite decide_False.
Qed.

Section Collect.
Context {X : Type}.
Implicit Types (body : X → list dict → M Log (list dict)).

Lemma collect_returns what listing body lg :
  ∃ metrics lg', collect what listing body lg = (Ret metrics, lg').
Proof.
  unfold collect. destruct listing as [items|e]; [|eauto].
  destruct (for_each body items [] lg) as [[metrics [e|]] lg']; eauto.
Qed.

Lemma collect_listing_error what e body lg :
  collect what (Raise e) body lg =
    (Ret [], lg ++ [(ERROR, "Failed to get " +:+ what +:+ " metrics: "
                            +:+ exn_str e)]).
Proof. done. Qed.

Lemma collect_item_error what pre x post body lg metrics lg1 e lg2 :
  for_each body pre [] lg = ((metrics, None), lg1) →
  body x metrics lg1 = (Raise e, lg2) →
  collect what (Ret (pre ++ x :: post)) body lg =
    (Ret metrics, lg2 ++ [(ERROR, "Failed to get " +:+ what +:+ " metrics: "
                                  +:+ exn_str e)]).
Proof.
  intros Hpre Hx. unfold collect. rewrite for_each_app, Hpre.
  cbn [for_each]. by rewrite Hx.
Qed.

Lemma collect_appends what items body (f : X → list dict) lg :
  (∀ x s w, x ∈ items → ∃ w', body x s w = (Ret (s ++ f x), w')) →
  ∃ lg', collect what (Ret items) body lg = (Ret (concat (f <$> items)), lg').
Proof.
  intros H. unfold collect.
  destruct (for_each_appends body f items H [] lg) as [lg' ->]. eauto.
Qed.

End Collect.

(** ** The ReplicaSet collector *)

(** Unfolds the monad operations of a collector body. *)
Ltac mstep :=
  cbv beta iota zeta delta
    [bind ret raise attr call gets modify try_except logger].

Lemma replicaset_body_spec self k8s rs metrics lg :
  rs_well_formed rs →
  replicaset_body self k8s rs metrics lg =
    (Ret (metrics ++ if rs_selected self rs then [rs_record k8s rs] else []), lg).
Proof.
  intros ([md Hmd] & [sp Hsp] & [st Hst] & Hnn).
  unfold replicaset_body, rs_selected, rs_record, rs_ident, rs_desired,
    rs_available, rs_ready, Py.or_zero in *.
  rewrite Hmd, Hsp, Hst in *. cbn [from_option fst snd] in *. mstep.
  destruct (default 0 (rs_replicas sp) =? 0) eqn:E.
  - assert ((0 <? default 0 (rs_replicas sp)) = false) as -> by lia.
    rewrite andb_false_r, app_nil_r. by destruct (negb _ && negb _).
  - assert ((0 <? default 0 (rs_replicas sp)) = true) as -> by lia.
    rewrite andb_true_r.
    destruct (_is_watched _ _ _ _), (bool_decide _); cbn [negb andb orb];
      by rewrite ?app_nil_r.
Qed.

(** C5.  When the replica-set listing answers with well-formed items,
    the collector returns, in listing order, one record for each replica
    set that is watched as a replica set or lives in a watched namespace
    and whose desired replica count is greater than zero, and nothing for
    any other: a replica set scaled to zero yields no record, hence
    neither a trigger nor a resolve. *)
Theorem replicaset_metrics_spec self k8s items lg :
  list_replica_set_for_all_namespaces k8s = Ret items →
  Forall rs_well_formed items →
  ∃ lg', get_replicaset_metrics self k8s lg =
    (Ret (rs_record k8s <$> filter (λ rs, rs_selected self rs = true) items), lg').
Proof.
  intros Hl Hwf. unfold get_replicaset_metrics. rewrite Hl.
  rewrite <- concat_select. apply collect_appends.
  intros rs s w Hin. exists w. apply replicaset_body_spec.
  by eapply Forall_forall in Hwf.
Qed.

Lemma replicaset_metrics_spec_witness :
  ∃ lg', get_replicaset_metrics Sample.self Sample.cluster [] =
    (Ret [rs_record Sample.cluster (Sample.replica_set "prod" "web-7f8b9c" 3 3)],
     lg').
Proof.
  apply (replicaset_metrics_spec Sample.self Sample.cluster
           Sample.replica_sets []).
  - reflexivity.
  - apply (bool_decide_unpack _). vm_compute. exact I.
Defined.

Example replicaset_negative_count_is_kept :
  ∃ metrics lg',
    replicaset_body Sample.self Sample.cluster
      (Sample.replica_set "prod" "web-7f8b9c" (-1) 0) [] []
    = (Ret metrics, lg') ∧ length metrics = 1%nat.
Proof. eexists _, _. split; reflexivity. Qed.


(** ** The CronJob collector *)

Lemma job_body_tally name job locals :
  job_body name job locals = ret (job_tally name locals job).
Proof.
  unfold job_body, job_tally. destruct (job_metadata job) as [md|]; [|done].
  by destruct (owner_references md) as [[|ref refs]|].
Qed.

Lemma check_jobs_ok k8s namespace name jobs lg :
  list_namespaced_job k8s namespace = Ret jobs →
  check_jobs k8s namespace name lg
  = (Ret (foldl (job_tally name) (0, []) jobs), lg).
Proof.
  intros Hl. unfold check_jobs. rewrite Hl.
  rewrite (for_each_ext _ (λ x s, ret (job_tally name s x))).
  - by rewrite for_each_pure.
  - intros. by rewrite job_body_tally.
Qed.

Lemma check_jobs_error k8s namespace name e lg :
  list_namespaced_job k8s namespace = Raise e →
  ∃ lg', check_jobs k8s namespace name lg = (Ret (0, []), lg').
Proof. intros Hl. unfold check_jobs. rewrite Hl. eauto. Qed.

Lemma owner_refs_fold name jn job refs fj names :
  foldl (owner_ref_step name jn job) (fj, names) refs =
    (fj + (if job_reports_failure job
           then Z.of_nat (length (filter (λ r, is_owner name r = true) refs))
           else 0),
     names ++ replicate (length (filter (λ r, is_owner name r = true) refs)) jn).
Proof.
  revert fj names. induction refs as [|ref refs IH]; intros fj names.
  - cbn. rewrite app_nil_r. f_equal. destruct (job_reports_failure job); lia.
  - cbn [foldl]. rewrite filter_cons. unfold owner_ref_step at 2.
    fold (is_owner name ref). destruct (is_owner name ref) eqn:E.
    + rewrite decide_True by done. cbn [length replicate].
      destruct (job_reports_failure job) eqn:F; rewrite IH;
        rewrite <- app_assoc; cbn [app]; f_equal; lia.
    + rewrite decide_False by (by intros ?). apply IH.
Qed.

Lemma existsb_filter_length {A} (P : A → bool) (l : list A) :
  existsb P l = true ↔ (0 < length (filter (λ x, P x = true) l))%nat.
Proof.
  induction l as [|x l IH]; cbn [existsb]; [cbn; split; [done|lia]|].
  rewrite filter_cons. destruct (P x) eqn:E.
  - rewrite decide_True by done. cbn. split; [lia|done].
  - rewrite decide_False by (by intros ?). cbn [orb]. apply IH.
Qed.

Lemma job_tally_spec name fj names job :
  ∃ n : nat,
    job_tally name (fj, names) job =
      (fj + (if job_reports_failure job then Z.of_nat n else 0),
       names ++ replicate n (default "" (job_name job)))
    ∧ (owned_by name job = true ↔ (0 < n)%nat).
Proof.
  unfold job_tally, owned_by, job_name.
  destruct (job_metadata job) as [md|]; cbn [fmap option_fmap option_map default].
  - destruct (owner_references md) as [refs|].
    + eexists. split; [apply owner_refs_fold|]. apply existsb_filter_length.
    + exists 0%nat. cbn. rewrite app_nil_r. split; [|split; [done|lia]].
      f_equal. destruct (job_reports_failure job); lia.
  - exists 0%nat. cbn. rewrite app_nil_r. split; [|split; [done|lia]].
    f_equal. destruct (job_reports_failure job); lia.
Qed.

(** The tally never decreases, stays put exactly when no owned job
    reports a failure, and collects exactly the names of the owned jobs. *)
Lemma jobs_tally_spec name jobs fj names :
  let r := foldl (job_tally name) (fj, names) jobs in
  fj ≤ r.1
  ∧ (r.1 = fj ↔ ∀ job, job ∈ jobs → owned_by name job = true →
                       job_reports_failure job = false)
  ∧ (∀ x, x ∈ r.2 ↔ x ∈ names ∨
        ∃ job, job ∈ jobs ∧ owned_by name job = true ∧ job_name job = Some x).
Proof.
  revert fj names. induction jobs as [|job jobs IH]; intros fj names; cbn zeta.
  - cbn. split; [lia|]. split; [split; [intros _ ? []%not_elem_of_nil|done]|].
    intros x. split; [auto|]. intros [?|(? & []%not_elem_of_nil & _)]; done.
  - cbn [foldl]. destruct (job_tally_spec name fj names job) as (n & -> & Hn).
    specialize (IH (fj + (if job_reports_failure job then Z.of_nat n else 0))
                   (names ++ replicate n (default "" (job_name job)))).
    cbn zeta in IH. destruct IH as (Hle & Heq & Hnames).
    set (r := foldl _ _ jobs) in *.
    assert (Hstep : 0 ≤ (if job_reports_failure job then Z.of_nat n else 0))
      by (destruct (job_reports_failure job); lia).
    split; [lia|]. split.
    + split.
      * intros Hr job' [->|Hin]%elem_of_cons Ho.
        -- apply Hn in Ho. destruct (job_reports_failure job); [lia|done].
        -- apply Heq; [lia|done..].
      * intros Hall. 
        assert ((if job_reports_failure job then Z.of_nat n else 0) = 0) as E.
        { destruct (job_reports_failure job) eqn:F; [|done].
          destruct (decide (0 < n)%nat) as [Hpos|]; [|lia].
          apply Hn in Hpos. rewrite (Hall job) in F; [done|left|done]. }
        rewrite E in *. rewrite Z.add_0_r in *. apply Heq.
        intros. apply Hall; [by right|done].
    + intros x. rewrite Hnames, elem_of_app. split.
      * intros [[?|Hrep]|(job' & ? & ? & ?)]; [by left| |].
        -- apply elem_of_replicate in Hrep as [-> Hpos]. right. exists job.
           split; [left|]. split; [apply Hn; lia|].
           unfold owned_by, job_name in *. assert (0 < n)%nat as Ho%Hn by lia.
           by destruct (job_metadata job).
        -- right. exists job'. split; [by right|done].
      * intros [?|(job' & [->|?]%elem_of_cons & Ho & Hname)]; [by left;left| |].
        -- left. right. apply elem_of_replicate. rewrite Hname. cbn.
           split; [done|]. apply Hn in Ho. lia.
        -- right. eauto.
Qed.

(** The two tests of the code against the words of the specification. *)
Lemma job_reports_failure_spec job : job_reports_failure job = job_failed job.
Proof.
  unfold job_reports_failure, job_failed, job_failure_count, Py.or_zero.
  destruct (job_status job) as [st|]; cbn [mbind option_bind from_option id].
  - destruct (Z.ltb_spec 0 (default 0 (failed st))).
    + by rewrite bool_decide_eq_true_2.
    + by rewrite bool_decide_eq_false_2 by lia.
  - by rewrite bool_decide_eq_false_2 by lia.
Qed.

Lemma bad_phase_spec phase :
  bad_phase phase = bool_decide (phase ∈ failing_phases).
Proof.
  unfold bad_phase, failing_phases.
  destruct (String.eqb_spec phase "failed") as [->|Hf]; [done|].
  destruct (String.eqb_spec phase "unknown") as [->|Hu]; [done|].
  rewrite bool_decide_eq_false_2; [done|].
  intros [?|[?|[]%not_elem_of_nil]%elem_of_cons]%elem_of_cons; done.
Qed.

Lemma pod_failed_code pod st :
  pod_status pod = Some st →
  bad_phase (PyStr.lower (default "" (phase st))) = pod_failed pod.
Proof.
  intros Hst. unfold pod_failed, pod_phase. rewrite Hst.
  apply bad_phase_spec.
Qed.

Lemma pod_body_ok job_name_set pod failed_pods lg :
  pod_well_formed pod →
  pod_body job_name_set pod failed_pods lg =
    (Ret (failed_pods + if pod_counts job_name_set pod then 1 else 0), lg).
Proof.
  intros [[md Hmd] [st Hst]].
  unfold pod_body, pod_counts, pod_job_name.
  rewrite <- (pod_failed_code pod st Hst).
  rewrite Hmd, Hst. mstep.
  destruct (labels md) as [lbls|]; cbn [from_option id].
  - destruct (lbls !! "job-name") as [jn|]; [|by rewrite Z.add_0_r].
    destruct (bool_decide _); cbn [andb]; [|by rewrite Z.add_0_r].
    destruct (bad_phase _); [done|by rewrite Z.add_0_r].
  - rewrite lookup_empty. by rewrite Z.add_0_r.
Qed.

Lemma pod_body_breaks job_name_set pod failed_pods lg :
  pod_breaks job_name_set pod →
  ∃ e, pod_body job_name_set pod failed_pods lg = (Raise e, lg).
Proof.
  unfold pod_body, pod_breaks, pod_job_name.
  intros [Hmd|[(jn & Hjn & Hin) Hst]].
  - rewrite Hmd. mstep. eauto.
  - destruct (pod_metadata pod) as [md|]; [|done]. mstep.
    destruct (labels md) as [lbls|]; [|done]. cbn [from_option id].
    rewrite Hjn, bool_decide_eq_true_2 by done. rewrite Hst. eauto.
Qed.

Lemma for_each_pods_ok job_name_set pods failed_pods lg :
  Forall pod_well_formed pods →
  for_each (pod_body job_name_set) pods failed_pods lg =
    ((failed_pods + count_pods job_name_set pods, None), lg).
Proof.
  unfold count_pods. intros H. revert failed_pods.
  induction H as [|pod pods Hpod _ IH]; intros failed_pods.
  - cbn. by rewrite Z.add_0_r.
  - cbn [for_each]. rewrite pod_body_ok by done. rewrite IH, filter_cons.
    destruct (pod_counts job_name_set pod).
    + rewrite decide_True by done. cbn [length]. do 2 f_equal. lia.
    + rewrite decide_False by (by intros ?). do 2 f_equal. lia.
Qed.

Lemma check_pods_no_jobs k8s namespace name lg :
  check_pods k8s namespace name [] lg = (Ret 0, lg).
Proof. done. Qed.

Lemma check_pods_ok k8s namespace name job_names pods lg :
  list_namespaced_pod k8s namespace = Ret pods →
  Forall pod_well_formed pods →
  check_pods k8s namespace name job_names lg =
    (Ret (count_pods (list_to_set job_names) pods), lg).
Proof.
  intros Hl Hwf. unfold check_pods. destruct job_names as [|jn job_names].
  - f_equal. f_equal. unfold count_pods.
    rewrite (proj2 (filter_nil_iff _ _)); [done|].
    apply Forall_forall. intros pod _. unfold pod_counts.
    destruct (pod_job_name pod); [|done].
    rewrite bool_decide_eq_false_2; [done|set_solver].
  - rewrite Hl, for_each_pods_ok by done. by rewrite Z.add_0_l.
Qed.

Lemma check_pods_listing_error k8s namespace name job_names e lg :
  list_namespaced_pod k8s namespace = Raise e →
  ∃ lg', check_pods k8s namespace name job_names lg = (Ret 0, lg').
Proof.
  intros Hl. unfold check_pods. destruct job_names; [eauto|].
  rewrite Hl. eauto.
Qed.

Lemma check_pods_item_error k8s namespace name job_names pre bad post lg :
  job_names ≠ [] →
  list_namespaced_pod k8s namespace = Ret (pre ++ bad :: post) →
  Forall pod_well_formed pre →
  pod_breaks (list_to_set job_names) bad →
  ∃ lg', check_pods k8s namespace name job_names lg =
    (Ret (count_pods (list_to_set job_names) pre), lg').
Proof.
  intros Hne Hl Hpre Hbad. unfold check_pods.
  destruct job_names as [|jn job_names]; [done|]. rewrite Hl.
  rewrite for_each_app, for_each_pods_ok by done. cbn [for_each].
  destruct (pod_body_breaks _ _ (0 + count_pods (list_to_set (jn :: job_names)) pre)
              lg Hbad) as [e ->].
  rewrite Z.add_0_l. eauto.
Qed.

Lemma check_jobs_returns k8s namespace name lg :
  ∃ locals lg', check_jobs k8s namespace name lg = (Ret locals, lg').
Proof.
  unfold check_jobs. destruct (list_namespaced_job _ _); [|eauto].
  destruct (for_each _ _ _ _) as [[? []] ?]; eauto.
Qed.

Lemma check_pods_returns k8s namespace name job_names lg :
  ∃ failed_pods lg',
    check_pods k8s namespace name job_names lg = (Ret failed_pods, lg').
Proof.
  unfold check_pods. destruct job_names; [eauto|].
  destruct (list_namespaced_pod _ _); [|eauto].
  destruct (for_each _ _ _ _) as [[? []] ?]; eauto.
Qed.

Lemma count_pods_nonneg job_name_set pods : 0 ≤ count_pods job_name_set pods.
Proof. unfold count_pods. lia. Qed.

Lemma count_pods_zero job_name_set pods :
  count_pods job_name_set pods = 0 ↔
  ∀ pod, pod ∈ pods → pod_counts job_name_set pod = false.
Proof.
  unfold count_pods. rewrite <- Nat2Z.inj_0, Nat2Z.inj_iff, length_zero_iff_nil.
  rewrite filter_nil_iff, Forall_forall.
  split; intros H pod Hin; specialize (H pod Hin);
    destruct (pod_counts job_name_set pod); done.
Qed.

Lemma cj_suspended_code cj spec :
  cj_spec cj = Some spec →
  match suspend spec with
  | Some b => b
  | None => false
  end = cj_suspended cj.
Proof. unfold cj_suspended. intros ->. by destruct (suspend spec). Qed.

Lemma cj_last_success_code cj :
  last_successful_time (default (Build_V1CronJobStatus None) (cj_status cj))
  = cj_last_success cj.
Proof. unfold cj_last_success. by destruct (cj_status cj). Qed.

Lemma bool_decide_is_Some_fmap {A B} (f : A → B) (o : option A) :
  bool_decide (is_Some (f <$> o)) = bool_decide (is_Some o).
Proof. apply bool_decide_ext. apply fmap_is_Some. Qed.

(** Without a spec the body raises when it constructs an empty one, and
    appends nothing. *)
Lemma cronjob_body_no_spec self k8s cj md metrics lg :
  cj_metadata cj = Some md →
  _is_watched self "cronjob" (meta_namespace md) (meta_name md) = true →
  cj_spec cj = None →
  ∃ msg, cronjob_body self k8s cj metrics lg = (Raise (ValueError msg), lg).
Proof.
  intros Hmd Hw Hsp. unfold cronjob_body, or_new, new_V1CronJobSpec.
  rewrite Hmd, Hsp. mstep. rewrite Hw. cbn [negb]. eauto.
Qed.

Lemma cronjob_body_tallies self k8s cj md metrics lg :
  cj_metadata cj = Some md →
  is_Some (cj_spec cj) →
  _is_watched self "cronjob" (meta_namespace md) (meta_name md) = true →
  ∃ failed_jobs job_names failed_pods lg1 lg2 lg3,
    check_jobs k8s (meta_namespace md) (meta_name md) lg
      = (Ret (failed_jobs, job_names), lg1)
    ∧ check_pods k8s (meta_namespace md) (meta_name md) job_names lg1
      = (Ret failed_pods, lg2)
    ∧ cronjob_body self k8s cj metrics lg =
        (Ret (metrics ++ [cj_record k8s cj md failed_jobs failed_pods]), lg3).
Proof.
  intros Hmd [spec Hsp] Hw.
  destruct (check_jobs_returns k8s (meta_namespace md) (meta_name md) lg)
    as ([fj names] & lg1 & Hj).
  destruct (check_pods_returns k8s (meta_namespace md) (meta_name md) names lg1)
    as (fp & lg2 & Hp).
  exists fj, names, fp, lg1, lg2.
  unfold cronjob_body, or_new, new_V1CronJobStatus, cj_record, cj_last_success.
  rewrite <- (cj_suspended_code cj spec Hsp), Hmd, Hsp. mstep.
  rewrite Hw. cbn [negb].
  destruct (cj_status cj) as [status|]; mstep;
    rewrite Hj, Hp, bool_decide_is_Some_fmap; eauto.
Qed.

Lemma cj_record_desired k8s cj md fj fp :
  cj_record k8s cj md fj fp !! "desired_replicas"
  = Some (VInt (if cj_suspended cj then 0 else 1)).
Proof. reflexivity. Qed.

Lemma cj_record_available k8s cj md fj fp :
  cj_record k8s cj md fj fp !! "available_replicas"
  = Some (VInt (if negb (cj_suspended cj)
                   && bool_decide (is_Some (cj_last_success cj))
                   && (fj =? 0) && (fp =? 0) then 1 else 0)).
Proof. reflexivity. Qed.

Lemma cj_record_failed_jobs k8s cj md fj fp :
  cj_record k8s cj md fj fp !! "failed_jobs" = Some (VInt fj).
Proof. reflexivity. Qed.

Lemma cj_record_failed_pods k8s cj md fj fp :
  cj_record k8s cj md fj fp !! "failed_pods" = Some (VInt fp).
Proof. reflexivity. Qed.

Lemma cj_record_healthy k8s cj md fj fp :
  cj_record k8s cj md fj fp !! "available_replicas" = Some (VInt 1) ↔
  cj_suspended cj = false ∧ is_Some (cj_last_success cj) ∧ fj = 0 ∧ fp = 0.
Proof.
  rewrite cj_record_available.
  destruct (cj_suspended cj); cbn [negb andb]; [naive_solver|].
  case_bool_decide; cbn [andb]; [|naive_solver].
  destruct (fj =? 0) eqn:Ej; cbn [andb].
  - destruct (fp =? 0) eqn:Ep; [|naive_solver lia]. naive_solver lia.
  - naive_solver lia.
Qed.

Lemma pod_counts_spec name jobs pod :
  pod_counts (list_to_set (foldl (job_tally name) (0, []) jobs).2) pod = true ↔
  pod_of_owned_job name jobs pod ∧ pod_failed pod = true.
Proof.
  unfold pod_counts, pod_of_owned_job.
  destruct (jobs_tally_spec name jobs 0 []) as (_ & _ & Hnames).
  cbn zeta in Hnames.
  destruct (pod_job_name pod) as [jn|].
  - rewrite andb_true_iff, bool_decide_eq_true, elem_of_list_to_set, Hnames.
    split.
    + intros [[[]%not_elem_of_nil|(job & ? & ? & Hn)] ?]. split; [|done].
      exists job. rewrite Hn. eauto.
    + intros [(job & ? & ? & _ & Hn) ?]. split; [|done]. right. eauto.
  - split; [done|]. intros [(job & _ & _ & [? Hs] & Hn) _]. congruence.
Qed.

Lemma no_failed_owned_pods name jobs pods :
  count_pods (list_to_set (foldl (job_tally name) (0, []) jobs).2) pods = 0 ↔
  ∀ pod, pod ∈ pods → pod_of_owned_job name jobs pod → pod_failed pod = false.
Proof.
  rewrite count_pods_zero. split; intros H pod Hin.
  - intros Ho. specialize (H pod Hin).
    destruct (pod_failed pod) eqn:F; [|done].
    rewrite (proj2 (pod_counts_spec name jobs pod)) in H; done.
  - destruct (pod_counts _ pod) eqn:E; [|done].
    apply pod_counts_spec in E as [Ho F]. rewrite (H pod Hin Ho) in F. done.
Qed.

Lemma no_failed_owned_jobs name jobs :
  (foldl (job_tally name) (0, []) jobs).1 = 0 ↔
  ∀ job, job ∈ jobs → owned_by name job = true → job_failed job = false.
Proof.
  destruct (jobs_tally_spec name jobs 0 []) as (_ & -> & _).
  split; intros H job Hin Ho.
  - rewrite <- job_reports_failure_spec. by apply H.
  - rewrite job_reports_failure_spec. by apply H.
Qed.

(** C3.  For a watched scheduled job that carries a spec and whose
    execution and pod listings answer, the loop body appends one record;
    its [desired_replicas] is 0 when the job is suspended and 1
    otherwise, and its [available_replicas] is 0 or 1, and is 1 exactly
    when the job is not suspended, a last successful time is recorded, no
    owned execution reports a failure count greater than zero, and no pod
    of an owned execution is in the failed or unknown phase. *)
Theorem cronjob_health_rule self k8s cj md jobs pods metrics lg :
  cj_metadata cj = Some md →
  is_Some (cj_spec cj) →
  _is_watched self "cronjob" (meta_namespace md) (meta_name md) = true →
  list_namespaced_job k8s (meta_namespace md) = Ret jobs →
  list_namespaced_pod k8s (meta_namespace md) = Ret pods →
  Forall pod_well_formed pods →
  ∃ m lg',
    cronjob_body self k8s cj metrics lg = (Ret (metrics ++ [m]), lg')
    ∧ m !! "desired_replicas" = Some (VInt (if cj_suspended cj then 0 else 1))
    ∧ ∃ available,
        m !! "available_replicas" = Some (VInt available)
        ∧ (available = 0 ∨ available = 1)
        ∧ (available = 1 ↔
             cj_suspended cj = false
             ∧ is_Some (cj_last_success cj)
             ∧ (∀ job, job ∈ jobs → owned_by (meta_name md) job = true →
                       job_failed job = false)
             ∧ (∀ pod, pod ∈ pods →
                       pod_of_owned_job (meta_name md) jobs pod →
                       pod_failed pod = false)).
Proof.
  intros Hmd Hsp Hw Hjobs Hpods Hwf.
  destruct (cronjob_body_tallies self k8s cj md metrics lg Hmd Hsp Hw)
    as (fj & names & fp & lg1 & lg2 & lg3 & Hj & Hp & Hbody).
  rewrite (check_jobs_ok _ _ _ _ _ Hjobs) in Hj. injection Hj as Hfj <-.
  rewrite (check_pods_ok _ _ _ _ _ _ Hpods Hwf) in Hp. injection Hp as Hfp _.
  exists (cj_record k8s cj md fj fp), lg3. split; [done|].
  split; [apply cj_record_desired|].
  eexists. split; [apply cj_record_available|].
  split; [by destruct (_ && _ && _ && _); auto|].
  pose proof (cj_record_healthy k8s cj md fj fp) as Hh.
  rewrite cj_record_available in Hh.
  assert (Hone : ∀ b : bool, (if b then 1 else 0) = 1 ↔
                             Some (VInt (if b then 1 else 0)) = Some (VInt 1))
    by (intros []; naive_solver).
  rewrite Hone, Hh.
  assert (fj = (foldl (job_tally (meta_name md)) (0, []) jobs).1) as ->
    by (by rewrite Hfj).
  rewrite no_failed_owned_jobs. subst fp.
  assert (names = (foldl (job_tally (meta_name md)) (0, []) jobs).2) as ->
    by (by rewrite Hfj).
  by rewrite no_failed_owned_pods.
Qed.

Lemma cronjob_health_rule_witness :
  ∃ m lg',
    cronjob_body Sample.self Sample.cluster Sample.nightly [] [] =
      (Ret ([] ++ [m]), lg')
    ∧ m !! "desired_replicas" = Some (VInt 1)
    ∧ m !! "available_replicas" = Some (VInt 1).
Proof.
  destruct (cronjob_health_rule Sample.self Sample.cluster Sample.nightly
              {| meta_name := "nightly"; meta_namespace := "batch";
                 owner_references := None; labels := None |}
              Sample.jobs Sample.pods [] [])
    as (m & lg' & Hbody & Hdesired & available & Havailable & _ & Hiff).
  - reflexivity.
  - eexists. reflexivity.
  - reflexivity.
  - reflexivity.
  - reflexivity.
  - apply (bool_decide_unpack _). vm_compute. exact I.
  - exists m, lg'. split; [exact Hbody|]. split; [exact Hdesired|].
    rewrite Havailable. assert (available = 1) as ->; [|reflexivity].
    apply Hiff. split; [reflexivity|]. split; [eexists; reflexivity|].
    split.
    + intros job Hin _.
      repeat (apply elem_of_cons in Hin as [->|Hin]; [reflexivity|]).
      by apply not_elem_of_nil in Hin.
    + intros pod Hin _.
      repeat (apply elem_of_cons in Hin as [->|Hin]; [reflexivity|]).
      by apply not_elem_of_nil in Hin.
Defined.


(** C6.  For a watched scheduled job that carries a spec the loop body
    returns and appends the job's record whatever the two sub-lookups do.
    When the execution
    listing raises, both failure tallies are zero and the record is
    healthy exactly when the job is not suspended and has a last
    successful time.  When the pod listing raises, the execution tally is
    the one already accumulated and the pod tally is zero.  When the pod
    scan raises at some pod, the pod tally is the count over the pods
    scanned before it.  In each case the record is healthy exactly when
    the job is not suspended, has a last successful time, and the tallies
    accumulated before the error are zero. *)
Theorem cronjob_sublookup_errors self k8s cj md metrics lg :
  cj_metadata cj = Some md →
  is_Some (cj_spec cj) →
  _is_watched self "cronjob" (meta_namespace md) (meta_name md) = true →
  ∃ m lg',
    cronjob_body self k8s cj metrics lg = (Ret (metrics ++ [m]), lg')
    ∧ m !! "desired_replicas" = Some (VInt (if cj_suspended cj then 0 else 1))
    ∧ (∀ e, list_namespaced_job k8s (meta_namespace md) = Raise e →
         m !! "failed_jobs" = Some (VInt 0)
         ∧ m !! "failed_pods" = Some (VInt 0)
         ∧ (m !! "available_replicas" = Some (VInt 1) ↔
              cj_suspended cj = false ∧ is_Some (cj_last_success cj)))
    ∧ (∀ jobs e,
         list_namespaced_job k8s (meta_namespace md) = Ret jobs →
         list_namespaced_pod k8s (meta_namespace md) = Raise e →
         m !! "failed_jobs" = Some (VInt (owned_failures (meta_name md) jobs))
         ∧ m !! "failed_pods" = Some (VInt 0)
         ∧ (m !! "available_replicas" = Some (VInt 1) ↔
              cj_suspended cj = false ∧ is_Some (cj_last_success cj)
              ∧ ∀ job, job ∈ jobs → owned_by (meta_name md) job = true →
                       job_failed job = false))
    ∧ (∀ jobs pre bad post,
         list_namespaced_job k8s (meta_namespace md) = Ret jobs →
         list_namespaced_pod k8s (meta_namespace md) = Ret (pre ++ bad :: post) →
         Forall pod_well_formed pre →
         owned_job_names (meta_name md) jobs ≠ [] →
         pod_breaks (list_to_set (owned_job_names (meta_name md) jobs)) bad →
         m !! "failed_jobs" = Some (VInt (owned_failures (meta_name md) jobs))
         ∧ m !! "failed_pods"
           = Some (VInt (count_pods
                           (list_to_set (owned_job_names (meta_name md) jobs))
                           pre))
         ∧ (m !! "available_replicas" = Some (VInt 1) ↔
              cj_suspended cj = false ∧ is_Some (cj_last_success cj)
              ∧ (∀ job, job ∈ jobs → owned_by (meta_name md) job = true →
                        job_failed job = false)
              ∧ (∀ pod, pod ∈ pre →
                        pod_of_owned_job (meta_name md) jobs pod →
                        pod_failed pod = false))).
Proof.
  intros Hmd Hsp Hw. unfold owned_failures, owned_job_names.
  destruct (cronjob_body_tallies self k8s cj md metrics lg Hmd Hsp Hw)
    as (fj & names & fp & lg1 & lg2 & lg3 & Hj & Hp & Hbody).
  exists (cj_record k8s cj md fj fp), lg3. split; [done|].
  split; [apply cj_record_desired|].
  split; [|split].
  - intros e He.
    rewrite cj_record_healthy, cj_record_failed_jobs, cj_record_failed_pods.
    destruct (check_jobs_error k8s _ (meta_name md) e lg He) as [lg0 Hj'].
    rewrite Hj' in Hj. injection Hj as <- <- <-.
    rewrite check_pods_no_jobs in Hp. injection Hp as <- _. naive_solver.
  - intros jobs e Hjobs He.
    rewrite cj_record_healthy, cj_record_failed_jobs, cj_record_failed_pods.
    rewrite (check_jobs_ok _ _ _ _ _ Hjobs) in Hj. injection Hj as Hfj <-.
    destruct (check_pods_listing_error k8s _ (meta_name md) names e lg He)
      as [lg0 Hp'].
    rewrite Hp' in Hp. injection Hp as <- _.
    assert (fj = (foldl (job_tally (meta_name md)) (0, []) jobs).1) as ->
      by (by rewrite Hfj).
    rewrite no_failed_owned_jobs. naive_solver.
  - intros jobs pre bad post Hjobs Hpods Hpre Hne Hbad.
    rewrite cj_record_healthy, cj_record_failed_jobs, cj_record_failed_pods.
    rewrite (check_jobs_ok _ _ _ _ _ Hjobs) in Hj. injection Hj as Hfj <-.
    assert (names = (foldl (job_tally (meta_name md)) (0, []) jobs).2) as ->
      by (by rewrite Hfj).
    assert (fj = (foldl (job_tally (meta_name md)) (0, []) jobs).1) as ->
      by (by rewrite Hfj).
    destruct (check_pods_item_error k8s _ (meta_name md) _ pre bad post lg
                Hne Hpods Hpre Hbad) as [lg0 Hp'].
    rewrite Hp' in Hp. injection Hp as <- _.
    by rewrite no_failed_owned_jobs, no_failed_owned_pods.
Qed.

Lemma cronjob_sublookup_errors_witness :
  ∃ m lg',
    cronjob_body Sample.self Sample.flaky_cluster Sample.nightly [] [] =
      (Ret ([] ++ [m]), lg')
    ∧ m !! "failed_jobs" = Some (VInt 0)
    ∧ m !! "failed_pods" = Some (VInt 0)
    ∧ m !! "available_replicas" = Some (VInt 1).
Proof.
  destruct (cronjob_sublookup_errors Sample.self Sample.flaky_cluster
              Sample.nightly
              {| meta_name := "nightly"; meta_namespace := "batch";
                 owner_references := None; labels := None |} [] [])
    as (m & lg' & Hbody & _ & Hjobs & _).
  - reflexivity.
  - eexists. reflexivity.
  - reflexivity.
  - destruct (Hjobs (ApiException "(403) Reason: Forbidden") eq_refl)
      as (Hfj & Hfp & Hiff).
    exists m, lg'. split; [exact Hbody|]. split; [exact Hfj|].
    split; [exact Hfp|]. apply Hiff. split; [reflexivity|eexists; reflexivity].
Defined.

(** The pod scan stops at a pod without metadata: the failed pod after
    it is not counted, the one before it is. *)
Example pod_scan_stops_at_broken_pod :
  let pods_of l := {| list_deployment_for_all_namespaces := Ret [];
                      list_replica_set_for_all_namespaces := Ret [];
                      list_daemon_set_for_all_namespaces := Ret [];
                      list_stateful_set_for_all_namespaces := Ret [];
                      list_cron_job_for_all_namespaces := Ret [];
                      list_namespaced_job := fun _ => Ret Sample.jobs;
                      list_namespaced_pod := fun _ => Ret l;
                      datetime_now := Sample.clock |} in
  (check_pods (pods_of [Sample.broken_pod;
                        Sample.job_pod "nightly-28571040" "Failed"])
     "batch" "nightly" ["nightly-28571040"] []).1 = Ret 0
  ∧ (check_pods (pods_of [Sample.job_pod "nightly-28571040" "Failed";
                          Sample.broken_pod])
       "batch" "nightly" ["nightly-28571040"] []).1 = Ret 1.
Proof. split; reflexivity. Qed.

(** Unfolds the monad operations over the world. *)
Ltac wstep :=
  cbv beta iota zeta delta
    [bind ret raise attr call gets modify try_except logger wlogger lift_log
     deref getitem setitem set_store set_outbound set_log
     requests_post raise_for_status];
  cbn [store outbound log].

(** ** The dispatcher and the evaluator *)

Lemma or_zero_eq_zero (v : value) :
  Py.eq (Py.or v (VInt 0)) (VInt 0) = negb (Py.truthy v).
Proof.
  unfold Py.or. destruct (Py.truthy v) eqn:E; [|done].
  destruct v as [|[]|z|s]; cbn in *; try done.
  by destruct (z =? 0).
Qed.

Section Dispatch.
Variable self : MetricsScraper.
Variable net : Network.

Lemma send_pagerduty_alert_spec alert w :
  let ev := trigger_event self alert (default ∅ (store w !! alert_metric alert)) in
  let ok := post_ok (http_post net (length (outbound w)) ev) in
  ∃ entry,
    send_pagerduty_alert self net alert w =
      (Ret ok, {| store := store w; outbound := outbound w ++ [ev];
                  log := log w ++ [entry] |})
    ∧ entry.1 = (if ok then INFO else ERROR).
Proof.
  cbn zeta. unfold send_pagerduty_alert. wstep.
  destruct (http_post net _ _) as [st|msg]; cbn [post_ok].
  - destruct ((400 <=? st) && (st <? 600)); cbn [negb]; eauto.
  - eauto.
Qed.

Lemma send_pagerduty_resolve_spec resource_key resource_type metric w :
  let ev := resolve_event self resource_key in
  let ok := post_ok (http_post net (length (outbound w)) ev) in
  ∃ entry,
    send_pagerduty_resolve self net resource_key resource_type metric w =
      (Ret ok, {| store := store w; outbound := outbound w ++ [ev];
                  log := log w ++ [entry] |})
    ∧ entry.1 = (if ok then INFO else ERROR).
Proof.
  cbn zeta. unfold send_pagerduty_resolve. wstep.
  destruct (http_post net _ _) as [st|msg]; cbn [post_ok].
  - destruct ((400 <=? st) && (st <? 600)); cbn [negb]; eauto.
  - eauto.
Qed.

Lemma evaluate_body_ignored r d counts w :
  store w !! r = Some d → ignored d = true →
  evaluate_body self net r counts w = (Ret counts, w).
Proof.
  intros Hr Hi. unfold evaluate_body. destruct counts as [t s]. wstep.
  rewrite Hr. cbn [from_option id]. rewrite or_zero_eq_zero.
  fold (desired_of d). fold (ignored d). by rewrite Hi.
Qed.

Lemma alter_name_store r d n w :
  store w !! r = Some d → d !! "name" = Some (VStr n) →
  alter (insert "name" (VStr (remove_replicaset_hash n))) r (store w)
  = <[r := normalized d]> (store w).
Proof.
  intros Hr Hn. unfold normalized, name_of. rewrite Hn.
  apply list_eq. intros i. destruct (decide (i = r)) as [->|].
  - rewrite list_lookup_alter_eq, Hr, list_lookup_insert_eq; [done|].
    by eapply lookup_lt_Some.
  - by rewrite list_lookup_alter_ne, list_lookup_insert_ne.
Qed.

Ltac wred :=
  repeat progress
    (cbn [store outbound log from_option id fmap option_fmap option_map
          remove_replicaset_hash_of negb option_list alert_metric];
     cbv beta iota zeta delta [ret raise]).

Lemma evaluate_body_spec r d counts w :
  store w !! r = Some d → ignored d = false → has_identity d →
  ∃ counts' lg',
    evaluate_body self net r counts w =
      (Ret counts',
       {| store := <[r := normalized d]> (store w);
          outbound := outbound w ++ option_list (expected_event self r d);
          log := lg' |}).
Proof.
  intros Hr Hi ([n Hn] & [ns Hns] & [ty Hty]).
  assert (Hr' : <[r := normalized d]> (store w) !! r = Some (normalized d)).
  { apply list_lookup_insert_eq. by eapply lookup_lt_Some. }
  assert (Hkey : Py.format ns +:+ "/"
                   +:+ Py.format (VStr (remove_replicaset_hash (name_of d)))
                 = resource_key_of d).
  { unfold resource_key_of. by rewrite Hns. }
  unfold evaluate_body. destruct counts as [t s]. wstep.
  rewrite Hr. wred. rewrite or_zero_eq_zero.
  fold (desired_of d). fold (ignored d). rewrite Hi. wred.
  rewrite Hr. wred. rewrite Hn. wred.
  rewrite (alter_name_store r d n w Hr Hn), Hr'. wred.
  unfold normalized at 1. rewrite lookup_insert_ne by done. rewrite Hns. wred.
  rewrite Hr'. wred.
  unfold normalized at 1. rewrite lookup_insert_eq. wred.
  rewrite or_zero_eq_zero. fold (available_of d). fold (unhealthy d).
  unfold expected_event. rewrite Hi, Hkey.
  destruct (unhealthy d) eqn:Hu; wred.
  - rewrite Hr'. wred. unfold normalized at 1.
    rewrite lookup_insert_ne by done. rewrite Hty. wred.
    match goal with |- context [send_pagerduty_alert self net ?a ?w0] =>
      destruct (send_pagerduty_alert_spec a w0) as (entry & -> & _) end.
    wred. rewrite Hr'. wred. eauto.
  - rewrite Hr'. wred. unfold normalized at 1.
    rewrite lookup_insert_ne by done. rewrite Hty. wred.
    match goal with |- context [send_pagerduty_resolve self net ?k ?t0 ?m ?w0] =>
      destruct (send_pagerduty_resolve_spec k t0 m w0) as (entry & -> & _) end.
    wred. eauto.
Qed.

Lemma evaluate_body_step r counts w :
  evaluable (store w) r →
  ∃ counts' lg',
    evaluate_body self net r counts w =
      (Ret counts',
       {| store := alter evaluated r (store w);
          outbound := outbound w ++ events_for self (store w) [r];
          log := lg' |}).
Proof.
  intros (d & Hr & Hid). unfold events_for. cbn [omap list_omap]. rewrite Hr.
  cbn [mbind option_bind].
  assert (Halt : alter evaluated r (store w) = <[r := evaluated d]> (store w)).
  { apply list_eq. intros i. destruct (decide (i = r)) as [->|].
    - rewrite list_lookup_alter_eq, Hr, list_lookup_insert_eq; [done|].
      by eapply lookup_lt_Some.
    - by rewrite list_lookup_alter_ne, list_lookup_insert_ne. }
  rewrite Halt. unfold evaluated.
  destruct (ignored d) eqn:Hi.
  - rewrite (evaluate_body_ignored r d counts w Hr Hi).
    unfold expected_event. rewrite Hi. cbn [option_list].
    rewrite app_nil_r, list_insert_id by done. exists counts, (log w).
    by destruct w.
  - destruct (evaluate_body_spec r d counts w Hr Hi (Hid eq_refl))
      as (counts' & lg' & ->).
    destruct (expected_event self r d); cbn [option_list app]; eauto.
Qed.

Lemma store_after_lookup_notin st metrics r :
  r ∉ metrics → store_after st metrics !! r = st !! r.
Proof.
  revert st. induction metrics as [|r' metrics IH]; intros st Hr; [done|].
  apply not_elem_of_cons in Hr as [? ?]. cbn [store_after foldl].
  fold (store_after (alter evaluated r' st) metrics).
  rewrite IH by done. by apply list_lookup_alter_ne.
Qed.

Lemma store_after_lookup_in st metrics r :
  NoDup metrics → r ∈ metrics →
  store_after st metrics !! r = evaluated <$> st !! r.
Proof.
  revert st. induction metrics as [|r' metrics IH]; intros st Hnd Hr.
  - by apply not_elem_of_nil in Hr.
  - apply NoDup_cons in Hnd as [Hnotin Hnd]. cbn [store_after foldl].
    fold (store_after (alter evaluated r' st) metrics).
    apply elem_of_cons in Hr as [->|Hr].
    + rewrite store_after_lookup_notin by done. apply list_lookup_alter_eq.
    + rewrite IH by done. rewrite list_lookup_alter_ne; [done|].
      intros ->. done.
Qed.

Lemma length_store_after st metrics :
  length (store_after st metrics) = length st.
Proof.
  revert st. induction metrics as [|r metrics IH]; intros st; [done|].
  cbn [store_after foldl]. fold (store_after (alter evaluated r st) metrics).
  by rewrite IH, length_alter.
Qed.

Lemma events_for_ext st st' metrics :
  (∀ r, r ∈ metrics → st !! r = st' !! r) →
  events_for self st metrics = events_for self st' metrics.
Proof.
  unfold events_for. induction metrics as [|r metrics IH]; intros H; [done|].
  cbn [omap list_omap]. rewrite (H r) by left. rewrite IH; [done|].
  intros. apply H. by right.
Qed.

Lemma events_for_cons st r metrics :
  events_for self st (r :: metrics) = events_for self st [r] ++ events_for self st metrics.
Proof.
  unfold events_for. cbn [omap list_omap].
  by destruct (st !! r ≫= expected_event self r).
Qed.

Lemma evaluate_loop_spec metrics counts w :
  NoDup metrics → Forall (evaluable (store w)) metrics →
  ∃ counts' lg',
    for_each (evaluate_body self net) metrics counts w =
      ((counts', None),
       {| store := store_after (store w) metrics;
          outbound := outbound w ++ events_for self (store w) metrics;
          log := lg' |}).
Proof.
  revert counts w. induction metrics as [|r metrics IH]; intros counts w Hnd Hev.
  - exists counts, (log w). cbn. rewrite app_nil_r. by destruct w.
  - apply NoDup_cons in Hnd as [Hnotin Hnd].
    apply Forall_cons in Hev as [Hr Hev].
    cbn [for_each].
    destruct (evaluate_body_step r counts w Hr) as (c1 & lg1 & ->).
    set (w1 := {| store := alter evaluated r (store w);
                  outbound := outbound w ++ events_for self (store w) [r];
                  log := lg1 |}).
    assert (Hsame : ∀ r', r' ∈ metrics → store w1 !! r' = store w !! r').
    { intros r' Hin. cbn. apply list_lookup_alter_ne. by intros ->. }
    destruct (IH c1 w1 Hnd) as (c2 & lg2 & ->).
    { apply Forall_forall. intros r' Hin.
      eapply Forall_forall in Hev; [|done].
      destruct Hev as (d & ? & ?). exists d. by rewrite Hsame. }
    exists c2, lg2. f_equal. subst w1. cbn [store outbound store_after foldl].
    rewrite (events_for_ext _ (store w) metrics) by done.
    rewrite <- app_assoc, <- events_for_cons. done.
Qed.

Lemma evaluate_and_notify_spec metrics w :
  NoDup metrics → Forall (evaluable (store w)) metrics →
  ∃ lg',
    evaluate_and_notify self net metrics w =
      (Ret tt,
       {| store := store_after (store w) metrics;
          outbound := outbound w ++ events_for self (store w) metrics;
          log := lg' |}).
Proof.
  intros Hnd Hev. unfold evaluate_and_notify, for_each_raising.
  cbv beta iota zeta delta [bind].
  destruct (evaluate_loop_spec metrics (0, 0) w Hnd Hev) as ([t s] & lg' & ->).
  wstep. eauto.
Qed.

End Dispatch.

Lemma concat_option_list {A B} (f : A → option B) (l : list A) :
  concat ((λ x, option_list (f x)) <$> l) = omap f l.
Proof.
  induction l as [|x l IH]; [done|]. cbn [fmap list_fmap concat omap list_omap].
  fold (omap f l). rewrite <- IH. by destruct (f x).
Qed.

Lemma ignored_zero d :
  d !! "desired_replicas" = Some (VInt 0) → ignored d = true.
Proof. unfold ignored, desired_of, Py.get. by intros ->. Qed.

Lemma ignored_absent d :
  d !! "desired_replicas" = None ∨ d !! "desired_replicas" = Some VNone →
  ignored d = true.
Proof. unfold ignored, desired_of, Py.get. by intros [-> | ->]. Qed.

Lemma ignored_nonzero d desired :
  d !! "desired_replicas" = Some (VInt desired) → desired ≠ 0 →
  ignored d = false.
Proof.
  unfold ignored, desired_of, Py.get. intros -> ?. cbn.
  by rewrite (proj2 (Z.eqb_neq _ _)).
Qed.

Lemma unhealthy_zero d :
  d !! "available_replicas" = Some (VInt 0) → unhealthy d = true.
Proof. unfold unhealthy, available_of, Py.get. by intros ->. Qed.

Lemma unhealthy_absent d :
  d !! "available_replicas" = None ∨ d !! "available_replicas" = Some VNone →
  unhealthy d = true.
Proof. unfold unhealthy, available_of, Py.get. by intros [-> | ->]. Qed.

Lemma unhealthy_nonzero d available :
  d !! "available_replicas" = Some (VInt available) → available ≠ 0 →
  unhealthy d = false.
Proof.
  unfold unhealthy, available_of, Py.get. intros -> ?. cbn.
  by rewrite (proj2 (Z.eqb_neq _ _)).
Qed.

Lemma resource_key_strings d ns name :
  d !! "namespace" = Some (VStr ns) → d !! "name" = Some (VStr name) →
  resource_key_of d = ns +:+ "/" +:+ remove_replicaset_hash name.
Proof. unfold resource_key_of, name_of. by intros -> ->. Qed.

Lemma normalized_name d name :
  d !! "name" = Some (VStr name) →
  normalized d = <["name" := VStr (remove_replicaset_hash name)]> d.
Proof. unfold normalized, name_of. by intros ->. Qed.

Lemma expected_event_trigger self r d :
  ignored d = false → unhealthy d = true →
  ∃ e p, expected_event self r d = Some e
         ∧ event_action e = "trigger"
         ∧ dedup_key e = "k8s-zero-replicas-" +:+ resource_key_of d
         ∧ payload e = Some p
         ∧ pd_custom_details p = normalized d.
Proof. unfold expected_event. intros -> ->. eauto 10. Qed.

Lemma expected_event_resolve self r d :
  ignored d = false → unhealthy d = false →
  ∃ e, expected_event self r d = Some e
       ∧ event_action e = "resolve"
       ∧ dedup_key e = "k8s-zero-replicas-" +:+ resource_key_of d
       ∧ payload e = None.
Proof. unfold expected_event. intros -> ->. eauto 10. Qed.

Lemma expected_event_ignored self r d :
  ignored d = true → expected_event self r d = None.
Proof. unfold expected_event. by intros ->. Qed.

Lemma events_for_concat self st metrics :
  events_for self st metrics = concat (events_of self st <$> metrics).
Proof. unfold events_for, events_of. by rewrite concat_option_list. Qed.

(** C1.  Over a list of distinct, evaluable metric records the evaluator
    returns, and what it sends is the concatenation, in list order, of
    one group of events per record: no event when [desired_replicas] is
    0; exactly one trigger when it is positive and [available_replicas]
    is 0; exactly one resolve when both are positive.  The trigger and
    the resolve of a record carry the same deduplication key,
    ["k8s-zero-replicas-<namespace>/<normalized name>"]. *)
Theorem evaluate_and_notify_classifies self net metrics w :
  NoDup metrics →
  Forall (evaluable (store w)) metrics →
  ∃ w' (events : list (list Event)),
    evaluate_and_notify self net metrics w = (Ret tt, w')
    ∧ outbound w' = outbound w ++ concat events
    ∧ Forall2 (λ r evs,
        ∀ d ns name desired available,
          store w !! r = Some d →
          d !! "namespace" = Some (VStr ns) →
          d !! "name" = Some (VStr name) →
          d !! "desired_replicas" = Some (VInt desired) →
          d !! "available_replicas" = Some (VInt available) →
          (desired = 0 → evs = [])
          ∧ (0 < desired → available = 0 →
             ∃ e, evs = [e] ∧ event_action e = "trigger"
                  ∧ dedup_key e = "k8s-zero-replicas-" +:+ ns +:+ "/"
                                  +:+ remove_replicaset_hash name)
          ∧ (0 < desired → 0 < available →
             ∃ e, evs = [e] ∧ event_action e = "resolve"
                  ∧ dedup_key e = "k8s-zero-replicas-" +:+ ns +:+ "/"
                                  +:+ remove_replicaset_hash name))
        metrics events.
Proof.
  intros Hnd Hev.
  destruct (evaluate_and_notify_spec self net metrics w Hnd Hev) as [lg' ->].
  eexists _, (events_of self (store w) <$> metrics). split; [done|].
  cbn [outbound]. split; [by rewrite events_for_concat|].
  apply Forall2_fmap_r, Forall_Forall2_diag, Forall_forall.
  intros r _ d ns name desired available Hr Hns Hname Hd Ha.
  unfold events_of. rewrite Hr. cbn [mbind option_bind].
  rewrite <- (resource_key_strings d ns name) by done.
  split; [|split].
  - intros ->. by rewrite expected_event_ignored by by apply ignored_zero.
  - intros Hpos ->.
    destruct (expected_event_trigger self r d) as (e & p & -> & ? & ? & _);
      [eapply ignored_nonzero; [done|lia]|by apply unhealthy_zero|].
    cbn. eauto.
  - intros Hpos Hpos'.
    destruct (expected_event_resolve self r d) as (e & -> & ? & ? & _);
      [eapply ignored_nonzero; [done|lia]|eapply unhealthy_nonzero; [done|lia]|].
    cbn. eauto.
Qed.

(** Discharges a decidable hypothesis about the sample by evaluation. *)
Ltac by_evaluation := apply (bool_decide_unpack _); vm_compute; exact I.

Lemma evaluate_and_notify_classifies_witness :
  ∃ w' (events : list (list Event)),
    evaluate_and_notify Sample.self Sample.net Sample.refs Sample.world
      = (Ret tt, w')
    ∧ outbound w' = concat events
    ∧ length events = 5%nat.
Proof.
  destruct (evaluate_and_notify_classifies Sample.self Sample.net Sample.refs
              Sample.world)
    as (w' & events & Hrun & Hout & Hall); [by_evaluation|by_evaluation|].
  exists w', events. split; [exact Hrun|]. split; [exact Hout|].
  apply Forall2_length in Hall. rewrite <- Hall. reflexivity.
Defined.

(** What the sample run sends. *)
Example sample_evaluation :
  Sample.sent (evaluate_and_notify Sample.self Sample.net Sample.refs
                 Sample.world)
  = [ ("trigger", "k8s-zero-replicas-prod/api");
      ("resolve", "k8s-zero-replicas-prod/web");
      ("trigger", "k8s-zero-replicas-prod/cache") ].
Proof. reflexivity. Qed.

(** C9.  Over a list of distinct, evaluable metric records the evaluator
    rewrites the store in place: a record whose [desired_replicas] is
    positive ends with its ['name'] replaced by the normalized name, and
    the trigger sent for it carries that rewritten record, normalized
    name included, as its structured detail; a record whose
    [desired_replicas] is 0 is left as it was, and so is every object the
    list does not mention. *)
Theorem evaluate_and_notify_renames_in_place self net metrics w :
  NoDup metrics →
  Forall (evaluable (store w)) metrics →
  ∃ w' (events : list (list Event)),
    evaluate_and_notify self net metrics w = (Ret tt, w')
    ∧ outbound w' = outbound w ++ concat events
    ∧ length (store w') = length (store w)
    ∧ (∀ r, r ∉ metrics → store w' !! r = store w !! r)
    ∧ Forall2 (λ r evs,
        ∀ d name desired,
          store w !! r = Some d →
          d !! "name" = Some (VStr name) →
          d !! "desired_replicas" = Some (VInt desired) →
          (desired = 0 → store w' !! r = Some d)
          ∧ (0 < desired →
             store w' !! r
               = Some (<["name" := VStr (remove_replicaset_hash name)]> d)
             ∧ (d !! "available_replicas" = Some (VInt 0) →
                ∃ e p, evs = [e] ∧ event_action e = "trigger"
                       ∧ payload e = Some p
                       ∧ pd_custom_details p
                         = <["name" := VStr (remove_replicaset_hash name)]> d
                       ∧ pd_custom_details p !! "name"
                         = Some (VStr (remove_replicaset_hash name)))))
        metrics events.
Proof.
  intros Hnd Hev.
  destruct (evaluate_and_notify_spec self net metrics w Hnd Hev) as [lg' ->].
  eexists _, (events_of self (store w) <$> metrics). split; [done|].
  cbn [outbound store]. split; [by rewrite events_for_concat|].
  split; [apply length_store_after|].
  split; [intros; by apply store_after_lookup_notin|].
  apply Forall2_fmap_r, Forall_Forall2_diag, Forall_forall.
  intros r Hin d name desired Hr Hname Hd.
  rewrite store_after_lookup_in, Hr by done.
  cbn [fmap option_fmap option_map]. unfold evaluated. split.
  - intros ->. by rewrite ignored_zero.
  - intros Hpos. rewrite (ignored_nonzero d desired) by (done || lia).
    rewrite (normalized_name d name) by done. split; [done|].
    intros Ha. unfold events_of. rewrite Hr. cbn [mbind option_bind].
    destruct (expected_event_trigger self r d) as (e & p & -> & ? & ? & ? & Hp);
      [eapply ignored_nonzero; [done|lia]|by apply unhealthy_zero|].
    rewrite (normalized_name d name) in Hp by done.
    exists e, p. cbn [option_list]. rewrite Hp, lookup_insert_eq. done.
Qed.

Lemma evaluate_and_notify_renames_in_place_witness :
  ∃ w' (events : list (list Event)),
    evaluate_and_notify Sample.self Sample.net Sample.refs Sample.world
      = (Ret tt, w')
    ∧ length (store w') = 5%nat
    ∧ length events = 5%nat.
Proof.
  destruct (evaluate_and_notify_renames_in_place Sample.self Sample.net
              Sample.refs Sample.world)
    as (w' & events & Hrun & _ & Hlen & _ & Hall);
    [by_evaluation|by_evaluation|].
  exists w', events. split; [exact Hrun|]. split; [exact Hlen|].
  apply Forall2_length in Hall. rewrite <- Hall. reflexivity.
Defined.

(** The names in the store after the sample run: the records that were
    dispatched are renamed, the others are not. *)
Example sample_names_after :
  (λ d, d !! "name") <$>
    store (evaluate_and_notify Sample.self Sample.net Sample.refs
             Sample.world).2
  = [ Some (VStr "api"); Some (VStr "web"); Some (VStr "idle-5d4f8"); None;
      Some (VStr "cache") ].
Proof. reflexivity. Qed.

(** The same record listed twice is normalized twice. *)
Example aliased_record_is_renamed_twice :
  let w := {| store := [ Sample.record "payments-api-7f8b9c" "deployment"
                           [ ("desired_replicas", VInt 1) ] ];
              outbound := []; log := [] |} in
  (λ d, d !! "name") <$>
    store (evaluate_and_notify Sample.self Sample.net [0; 0]%nat w).2
  = [ Some (VStr "payments") ].
Proof. reflexivity. Qed.

(** C10.  Over a list of distinct, evaluable metric records the evaluator
    returns without raising.  A record whose ['desired_replicas'] is
    absent or [None] has 0 substituted for it, produces no event and is
    left untouched.  A record whose ['available_replicas'] is absent or
    [None] has 0 substituted for it and, when its desired count is
    present and positive, produces exactly one trigger. *)
Theorem evaluate_missing_counts self net metrics w :
  NoDup metrics →
  Forall (evaluable (store w)) metrics →
  ∃ w' (events : list (list Event)),
    evaluate_and_notify self net metrics w = (Ret tt, w')
    ∧ outbound w' = outbound w ++ concat events
    ∧ Forall2 (λ r evs,
        ∀ d, store w !! r = Some d →
          ((d !! "desired_replicas" = None
            ∨ d !! "desired_replicas" = Some VNone) →
           Py.or (Py.get d "desired_replicas" (VInt 0)) (VInt 0) = VInt 0
           ∧ evs = [] ∧ store w' !! r = Some d)
          ∧ ((d !! "available_replicas" = None
              ∨ d !! "available_replicas" = Some VNone) →
             Py.or (Py.get d "available_replicas" (VInt 0)) (VInt 0) = VInt 0
             ∧ ∀ desired,
                 d !! "desired_replicas" = Some (VInt desired) →
                 0 < desired →
                 ∃ e, evs = [e] ∧ event_action e = "trigger"))
        metrics events.
Proof.
  intros Hnd Hev.
  destruct (evaluate_and_notify_spec self net metrics w Hnd Hev) as [lg' ->].
  eexists _, (events_of self (store w) <$> metrics). split; [done|].
  cbn [outbound store]. split; [by rewrite events_for_concat|].
  apply Forall2_fmap_r, Forall_Forall2_diag, Forall_forall.
  intros r Hin d Hr. unfold events_of.
  rewrite store_after_lookup_in, Hr by done.
  cbn [mbind option_bind fmap option_fmap option_map]. split.
  - intros Habs. split; [by destruct Habs as [H|H]; unfold Py.get; rewrite H|].
    unfold evaluated. apply ignored_absent in Habs.
    by rewrite expected_event_ignored, Habs.
  - intros Habs. split; [by destruct Habs as [H|H]; unfold Py.get; rewrite H|].
    intros desired Hd Hpos.
    destruct (expected_event_trigger self r d) as (e & p & -> & ? & _);
      [eapply ignored_nonzero; [done|lia]|by apply unhealthy_absent|].
    cbn. eauto.
Qed.

Lemma evaluate_missing_counts_witness :
  ∃ w' (events : list (list Event)),
    evaluate_and_notify Sample.self Sample.dead_net Sample.refs Sample.world
      = (Ret tt, w')
    ∧ outbound w' = concat events
    ∧ length events = 5%nat.
Proof.
  destruct (evaluate_missing_counts Sample.self Sample.dead_net Sample.refs
              Sample.world)
    as (w' & events & Hrun & Hout & Hall); [by_evaluation|by_evaluation|].
  exists w', events. split; [exact Hrun|]. split; [exact Hout|].
  apply Forall2_length in Hall. rewrite <- Hall. reflexivity.
Defined.

(** A record with a positive desired count and no name makes the
    evaluator raise: the identity of a record is not optional. *)
Example nameless_record_raises :
  let w := {| store := [ list_to_map [ ("desired_replicas", VInt 1) ] ];
              outbound := []; log := [] |} in
  (evaluate_and_notify Sample.self Sample.net [0%nat] w).1
  = Raise (KeyError "name").
Proof. reflexivity. Qed.

Lemma length_events_for self st metrics :
  Forall (evaluable st) metrics →
  length (events_for self st metrics)
  = length (filter (λ r, dispatches st r = true) metrics).
Proof.
  induction 1 as [|r metrics (d & Hr & _) _ IH]; [done|].
  rewrite events_for_cons, length_app, IH, filter_cons.
  assert (Hd : dispatches st r = negb (ignored d))
    by (unfold dispatches; by rewrite Hr).
  unfold events_for at 1. cbn [omap list_omap]. rewrite Hr.
  cbn [mbind option_bind].
  destruct (decide (dispatches st r = true)) as [Hy|Hn]; rewrite Hd in *.
  - destruct (ignored d) eqn:Hi; [done|].
    destruct (unhealthy d) eqn:Hu.
    + by destruct (expected_event_trigger self r d Hi Hu) as (e & p & -> & _).
    + by destruct (expected_event_resolve self r d Hi Hu) as (e & -> & _).
  - destruct (ignored d) eqn:Hi; [|done].
    by rewrite expected_event_ignored.
Qed.

Lemma post_ok_spec r :
  post_ok r = true ↔
  ∃ status_code, r = Response status_code
                 ∧ ¬ (400 ≤ status_code < 600).
Proof.
  destruct r as [st|msg]; cbn [post_ok].
  - rewrite negb_true_iff, andb_false_iff, Z.leb_gt, Z.ltb_ge.
    split; [intros ?; exists st; split; [done|lia]|].
    intros (? & [= <-] & ?). lia.
  - split; [done|]. by intros (? & ? & _).
Qed.

(** C8.  Both dispatch operations return a boolean and never raise: the
    call is made once, the store is untouched, the result is [true]
    exactly when a response came back that is neither 4xx nor 5xx, and
    one line is logged, at ERROR level when the result is [false].
    Whatever the network answers, the evaluator returns and makes the
    same outbound calls, one for every record that is not passed over:
    a failed call does not stop the processing of the records after it. *)
Theorem dispatch_contains_failures self net :
  (∀ alert w,
     let ev := trigger_event self alert
                 (default ∅ (store w !! alert_metric alert)) in
     ∃ ok w' msg,
       send_pagerduty_alert self net alert w = (Ret ok, w')
       ∧ ok = post_ok (http_post net (length (outbound w)) ev)
       ∧ outbound w' = outbound w ++ [ev]
       ∧ store w' = store w
       ∧ log w' = log w ++ [(if ok then INFO else ERROR, msg)])
  ∧ (∀ resource_key resource_type metric w,
     let ev := resolve_event self resource_key in
     ∃ ok w' msg,
       send_pagerduty_resolve self net resource_key resource_type metric w
         = (Ret ok, w')
       ∧ ok = post_ok (http_post net (length (outbound w)) ev)
       ∧ outbound w' = outbound w ++ [ev]
       ∧ store w' = store w
       ∧ log w' = log w ++ [(if ok then INFO else ERROR, msg)])
  ∧ (∀ r, post_ok r = true ↔
          ∃ status_code, r = Response status_code
                         ∧ ¬ (400 ≤ status_code < 600))
  ∧ (∀ net' metrics w,
       NoDup metrics → Forall (evaluable (store w)) metrics →
       ∃ w1 w2,
         evaluate_and_notify self net metrics w = (Ret tt, w1)
         ∧ evaluate_and_notify self net' metrics w = (Ret tt, w2)
         ∧ outbound w1 = outbound w2
         ∧ store w1 = store w2
         ∧ length (outbound w1) =
             (length (outbound w)
              + length (filter (λ r, dispatches (store w) r = true)
                               metrics))%nat).
Proof.
  split; [|split; [|split]].
  - intros alert w ev.
    destruct (send_pagerduty_alert_spec self net alert w) as ([l msg] & -> & Hl).
    cbn in Hl. subst l. eauto 10.
  - intros resource_key resource_type metric w ev.
    destruct (send_pagerduty_resolve_spec self net resource_key resource_type
                metric w) as ([l msg] & -> & Hl).
    cbn in Hl. subst l. eauto 10.
  - apply post_ok_spec.
  - intros net' metrics w Hnd Hev.
    destruct (evaluate_and_notify_spec self net metrics w Hnd Hev) as [lg1 ->].
    destruct (evaluate_and_notify_spec self net' metrics w Hnd Hev) as [lg2 ->].
    eexists _, _. split; [done|]. split; [done|]. cbn [outbound store].
    split; [done|]. split; [done|]. rewrite length_app. f_equal.
    by apply length_events_for.
Qed.

Lemma dispatch_contains_failures_witness :
  ∃ w1 w2,
    evaluate_and_notify Sample.self Sample.net Sample.refs Sample.world
      = (Ret tt, w1)
    ∧ evaluate_and_notify Sample.self Sample.dead_net Sample.refs Sample.world
      = (Ret tt, w2)
    ∧ outbound w1 = outbound w2
    ∧ length (outbound w1) = 3%nat.
Proof.
  destruct (dispatch_contains_failures Sample.self Sample.net)
    as (_ & _ & _ & Hloop).
  destruct (Hloop Sample.dead_net Sample.refs Sample.world)
    as (w1 & w2 & H1 & H2 & Hout & _ & Hlen); [by_evaluation|by_evaluation|].
  exists w1, w2. split; [exact H1|]. split; [exact H2|].
  split; [exact Hout|]. rewrite Hlen. reflexivity.
Defined.

(** With the endpoint unreachable every call fails, is logged, and the
    run still reaches its end. *)
Example unreachable_endpoint :
  let r := evaluate_and_notify Sample.self Sample.dead_net Sample.refs
             Sample.world in
  r.1 = Ret tt
  ∧ length (outbound r.2) = 3%nat
  ∧ length (filter (λ entry, is_error entry = true) (log r.2)) = 3%nat
  ∧ last (log r.2)
    = Some (INFO, "Stateless notify complete - triggers: 0, resolves: 0").
Proof. repeat split. Qed.

(** ** The collectors and the run *)

Ltac mstep_in H :=
  cbv beta iota zeta delta
    [bind ret raise attr call gets modify try_except logger] in H.

Section Invariant.
Context {St X A : Type} (P : A → Prop).

Lemma for_each_preserves (body : X → list A → M St (list A)) xs :
  (∀ x s w s' w', body x s w = (Ret s', w') → Forall P s → Forall P s') →
  ∀ s w s' oe w',
    for_each body xs s w = ((s', oe), w') → Forall P s → Forall P s'.
Proof.
  intros Hbody. induction xs as [|x xs IH]; intros s w s' oe w' H Hs.
  - by injection H as <- _ _.
  - cbn [for_each] in H. destruct (body x s w) as [[s1|e] w1] eqn:E.
    + eapply IH; [done|]. by eapply Hbody.
    + by injection H as <- _ _.
Qed.

End Invariant.

Lemma collect_preserves {X} (P : dict → Prop) what listing
    (body : X → list dict → M Log (list dict)) :
  (∀ x s w s' w', body x s w = (Ret s', w') → Forall P s → Forall P s') →
  ∀ lg metrics lg', collect what listing body lg = (Ret metrics, lg') →
                    Forall P metrics.
Proof.
  intros Hbody lg metrics lg'. unfold collect.
  destruct listing as [items|e]; [|by intros [= <- _]].
  destruct (for_each body items [] lg) as [[ms oe] lg1] eqn:E.
  assert (Forall P ms) by (by eapply for_each_preserves).
  destruct oe; by intros [= <- _].
Qed.

Ltac identity := split; [eexists; reflexivity|split; eexists; reflexivity].

Ltac body_preserves :=
  let H := fresh in
  intros ? ? ? ? ? H ?; mstep_in H;
  repeat match type of H with
         | context [match ?o with _ => _ end] =>
             destruct o eqn:?; mstep_in H; try discriminate H
         end;
  injection H as <- _; try done;
  apply Forall_app; split; [done|]; apply Forall_singleton; identity.

Lemma deployment_body_identity self k8s x s w s' w' :
  deployment_body self k8s x s w = (Ret s', w') →
  Forall has_identity s → Forall has_identity s'.
Proof. revert x s w s' w'. unfold deployment_body. body_preserves. Qed.

Lemma replicaset_body_identity self k8s x s w s' w' :
  replicaset_body self k8s x s w = (Ret s', w') →
  Forall has_identity s → Forall has_identity s'.
Proof. revert x s w s' w'. unfold replicaset_body. body_preserves. Qed.

Lemma daemonset_body_identity self k8s x s w s' w' :
  daemonset_body self k8s x s w = (Ret s', w') →
  Forall has_identity s → Forall has_identity s'.
Proof. revert x s w s' w'. unfold daemonset_body. body_preserves. Qed.

Lemma statefulset_body_identity self k8s x s w s' w' :
  statefulset_body self k8s x s w = (Ret s', w') →
  Forall has_identity s → Forall has_identity s'.
Proof. revert x s w s' w'. unfold statefulset_body. body_preserves. Qed.

Lemma cronjob_body_identity self k8s x s w s' w' :
  cronjob_body self k8s x s w = (Ret s', w') →
  Forall has_identity s → Forall has_identity s'.
Proof.
  intros H Hs. unfold cronjob_body, or_new, new_V1CronJobStatus in H.
  destruct (cj_metadata x) as [md|]; mstep_in H; [|done].
  destruct (_is_watched _ _ _ _); cbn [negb] in H; [|by injection H as <- _].
  destruct (cj_spec x) as [spec|]; mstep_in H; [|done].
  destruct (check_jobs_returns k8s (meta_namespace md) (meta_name md) w)
    as ([fj names] & lg1 & Hj).
  destruct (check_pods_returns k8s (meta_namespace md) (meta_name md) names lg1)
    as (fp & lg2 & Hp).
  destruct (cj_status x) as [status|]; mstep_in H;
    rewrite Hj, Hp in H; injection H as <- _;
    (apply Forall_app; split; [done|]; apply Forall_singleton; identity).
Qed.

Section Run.
Variable self : MetricsScraper.
Variable net : Network.
Variable k8s : Cluster.

Lemma collectors_have_identity lg metrics lg' :
  (get_deployment_metrics self k8s lg = (Ret metrics, lg')
   ∨ get_replicaset_metrics self k8s lg = (Ret metrics, lg')
   ∨ get_daemonset_metrics self k8s lg = (Ret metrics, lg')
   ∨ get_statefulset_metrics self k8s lg = (Ret metrics, lg')
   ∨ get_cronjob_metrics self k8s lg = (Ret metrics, lg')) →
  Forall has_identity metrics.
Proof.
  intros [H|[H|[H|[H|H]]]]; revert H; apply collect_preserves.
  - apply deployment_body_identity.
  - apply replicaset_body_identity.
  - apply daemonset_body_identity.
  - apply statefulset_body_identity.
  - apply cronjob_body_identity.
Qed.

Lemma lift_log_returns {A} (c : M Log A) (a : A) lg' w :
  c (log w) = (Ret a, lg') →
  lift_log c w = (Ret a, {| store := store w; outbound := outbound w;
                            log := lg' |}).
Proof. unfold lift_log, set_log. by intros ->. Qed.

Lemma fresh_records_evaluable st records :
  Forall has_identity records →
  Forall (evaluable (st ++ records)) (seq (length st) (length records)).
Proof.
  intros Hid. apply Forall_forall. intros r [Hge Hlt]%elem_of_seq.
  destruct (lookup_lt_is_Some_2 records (r - length st)) as [d Hd]; [lia|].
  exists d. split.
  - rewrite lookup_app_r by lia. done.
  - intros _. eapply Forall_forall in Hid; [done|].
    by eapply list_elem_of_lookup_2.
Qed.

Lemma run_spec w :
  ∃ lg0 deployments lg1 replicasets lg2 daemonsets lg3 statefulsets lg4
    cronjobs lg5 lg',
    get_deployment_metrics self k8s lg0 = (Ret deployments, lg1)
    ∧ get_replicaset_metrics self k8s lg1 = (Ret replicasets, lg2)
    ∧ get_daemonset_metrics self k8s lg2 = (Ret daemonsets, lg3)
    ∧ get_statefulset_metrics self k8s lg3 = (Ret statefulsets, lg4)
    ∧ get_cronjob_metrics self k8s lg4 = (Ret cronjobs, lg5)
    ∧ let all_metrics := deployments ++ replicasets ++ daemonsets
                         ++ statefulsets ++ cronjobs in
      let refs := seq (length (store w)) (length all_metrics) in
      run self net k8s w =
        (Ret tt,
         {| store := store_after (store w ++ all_metrics) refs;
            outbound := outbound w
                        ++ events_for self (store w ++ all_metrics) refs;
            log := lg' |}).
Proof.
  set (lg0 := log w ++ [(INFO, "Starting metrics scraping run")]).
  destruct (collect_returns "Deployment" (list_deployment_for_all_namespaces k8s)
              (deployment_body self k8s) lg0) as (dep & lg1 & Hdep).
  destruct (collect_returns "ReplicaSet" (list_replica_set_for_all_namespaces k8s)
              (replicaset_body self k8s) lg1) as (rs & lg2 & Hrs).
  destruct (collect_returns "DaemonSet" (list_daemon_set_for_all_namespaces k8s)
              (daemonset_body self k8s) lg2) as (ds & lg3 & Hds).
  destruct (collect_returns "StatefulSet" (list_stateful_set_for_all_namespaces k8s)
              (statefulset_body self k8s) lg3) as (ss & lg4 & Hss).
  destruct (collect_returns "CronJob" (list_cron_job_for_all_namespaces k8s)
              (cronjob_body self k8s) lg4) as (cj & lg5 & Hcj).
  exists lg0, dep, lg1, rs, lg2, ds, lg3, ss, lg4, cj, lg5.
  set (all_metrics := dep ++ rs ++ ds ++ ss ++ cj).
  assert (Hid : Forall has_identity all_metrics).
  { unfold all_metrics. repeat (apply Forall_app; split);
      eapply collectors_have_identity; eauto 10. }
  set (w1 := {| store := store w ++ all_metrics; outbound := outbound w;
                log := lg5 ++ [(INFO, "Collected "
                                      +:+ pretty (length (seq (length (store w)) (length all_metrics)))
                                      +:+ " metrics")] |}).
  destruct (evaluate_and_notify_spec self net
              (seq (length (store w)) (length all_metrics)) w1) as [lg6 Hev].
  { apply NoDup_seq. }
  { by apply fresh_records_evaluable. }
  eexists. repeat (split; [done|]). cbn zeta.
  unfold run. unfold wlogger at 1. unfold bind at 1.
  rewrite (lift_log_returns _ tt lg0) by done.
  unfold bind at 1. erewrite lift_log_returns by exact Hdep.
  unfold bind at 1. erewrite lift_log_returns by exact Hrs.
  unfold bind at 1. erewrite lift_log_returns by exact Hds.
  unfold bind at 1. erewrite lift_log_returns by exact Hss.
  unfold bind at 1. erewrite lift_log_returns by exact Hcj.
  unfold bind at 1. unfold alloc_all, set_store. cbn [store outbound log].
  fold all_metrics.
  unfold bind at 1. unfold wlogger at 1.
  erewrite lift_log_returns by done. cbn [store outbound log].
  unfold bind at 1. fold w1. rewrite Hev.
  unfold wlogger. erewrite lift_log_returns by done. done.
Qed.

End Run.

(** C7, as amended.  No collector ever raises.  When the listing call of
    a collector raises, the collector returns the empty list.  When an
    item of the listing makes the loop body raise, the collector returns
    the records it had accumulated from the items before it.  A run calls
    the five collectors in turn, each returning its list, evaluates the
    concatenation of the five lists and returns; when the DaemonSet
    listing raises, the DaemonSet list is empty and the records of the
    four other collectors are evaluated all the same. *)
Theorem collectors_contain_errors self k8s :
  (∀ lg, (∃ ms lg', get_deployment_metrics self k8s lg = (Ret ms, lg'))
       ∧ (∃ ms lg', get_replicaset_metrics self k8s lg = (Ret ms, lg'))
       ∧ (∃ ms lg', get_daemonset_metrics self k8s lg = (Ret ms, lg'))
       ∧ (∃ ms lg', get_statefulset_metrics self k8s lg = (Ret ms, lg'))
       ∧ (∃ ms lg', get_cronjob_metrics self k8s lg = (Ret ms, lg')))
  ∧ (∀ lg e,
       (list_deployment_for_all_namespaces k8s = Raise e →
        ∃ lg', get_deployment_metrics self k8s lg = (Ret [], lg'))
       ∧ (list_replica_set_for_all_namespaces k8s = Raise e →
          ∃ lg', get_replicaset_metrics self k8s lg = (Ret [], lg'))
       ∧ (list_daemon_set_for_all_namespaces k8s = Raise e →
          ∃ lg', get_daemonset_metrics self k8s lg = (Ret [], lg'))
       ∧ (list_stateful_set_for_all_namespaces k8s = Raise e →
          ∃ lg', get_statefulset_metrics self k8s lg = (Ret [], lg'))
       ∧ (list_cron_job_for_all_namespaces k8s = Raise e →
          ∃ lg', get_cronjob_metrics self k8s lg = (Ret [], lg')))
  ∧ (∀ (X : Type) what (body : X → list dict → M Log (list dict))
       pre x post lg metrics lg1 e lg2,
       for_each body pre [] lg = ((metrics, None), lg1) →
       body x metrics lg1 = (Raise e, lg2) →
       ∃ lg', collect what (Ret (pre ++ x :: post)) body lg = (Ret metrics, lg'))
  ∧ (∀ net w,
       ∃ lg0 deployments lg1 replicasets lg2 daemonsets lg3 statefulsets lg4
         cronjobs lg5 w',
         get_deployment_metrics self k8s lg0 = (Ret deployments, lg1)
         ∧ get_replicaset_metrics self k8s lg1 = (Ret replicasets, lg2)
         ∧ get_daemonset_metrics self k8s lg2 = (Ret daemonsets, lg3)
         ∧ get_statefulset_metrics self k8s lg3 = (Ret statefulsets, lg4)
         ∧ get_cronjob_metrics self k8s lg4 = (Ret cronjobs, lg5)
         ∧ (∀ e, list_daemon_set_for_all_namespaces k8s = Raise e →
                 daemonsets = [])
         ∧ run self net k8s w = (Ret tt, w')
         ∧ let all_metrics := deployments ++ replicasets ++ daemonsets
                              ++ statefulsets ++ cronjobs in
           let refs := seq (length (store w)) (length all_metrics) in
           store w' = store_after (store w ++ all_metrics) refs
           ∧ outbound w'
             = outbound w ++ events_for self (store w ++ all_metrics) refs).
Proof.
  split; [|split; [|split]].
  - intros lg. repeat split; apply collect_returns.
  - intros lg e.
    unfold get_deployment_metrics, get_replicaset_metrics,
      get_daemonset_metrics, get_statefulset_metrics, get_cronjob_metrics.
    repeat split; intros ->; rewrite collect_listing_error; eauto.
  - intros X what body pre x post lg metrics lg1 e lg2 Hpre Hx.
    rewrite (collect_item_error what pre x post body lg metrics lg1 e lg2)
      by done. eauto.
  - intros net w.
    destruct (run_spec self net k8s w)
      as (lg0 & dep & lg1 & rs & lg2 & ds & lg3 & ss & lg4 & cj & lg5 & lg'
          & Hdep & Hrs & Hds & Hss & Hcj & Hrun).
    cbn zeta in Hrun.
    exists lg0, dep, lg1, rs, lg2, ds, lg3, ss, lg4, cj, lg5. eexists.
    repeat (split; [done|]). split; [|split; [exact Hrun|done]].
    intros e He. unfold get_daemonset_metrics in Hds.
    rewrite He, collect_listing_error in Hds. by injection Hds as <- _.
Qed.

Lemma collectors_contain_errors_witness :
  (∃ lg', get_daemonset_metrics Sample.self Sample.cluster [] = (Ret [], lg'))
  ∧ ∃ metrics lg',
      get_deployment_metrics Sample.self Sample.cluster [] = (Ret metrics, lg').
Proof.
  destruct (collectors_contain_errors Sample.self Sample.cluster)
    as (Hreturns & Hlisting & _).
  split.
  - destruct (Hlisting [] (ApiException "(500) Reason: Internal Server Error"))
      as (_ & _ & Hds & _).
    apply Hds. reflexivity.
  - destruct (Hreturns []) as (Hdep & _). exact Hdep.
Defined.

(** C7, as stated, fails: the second deployment of the listing has no
    status, reading it raises inside the collector, the error is logged,
    and the collector returns the record of the first deployment, not the
    empty list. *)
Lemma partial_collection_is_not_empty :
  ∃ record lg',
    get_deployment_metrics Sample.self Sample.partial_cluster []
      = (Ret [record], lg')
    ∧ record !! "name" = Some (VStr "web")
    ∧ last lg'
      = Some (ERROR, "Failed to get Deployment metrics: 'NoneType' object has no attribute 'available_replicas'")
    ∧ ¬ (∀ self k8s lg metrics lg',
           get_deployment_metrics self k8s lg = (Ret metrics, lg') →
           (∃ msg, last lg' = Some (ERROR, msg)) → metrics = []).
Proof.
  eexists _, _. split; [reflexivity|]. split; [reflexivity|].
  split; [reflexivity|]. intros H.
  specialize (H Sample.self Sample.partial_cluster [] _ _ eq_refl).
  discriminate H. eexists. reflexivity.
Qed.

(** The run over the sample cluster: the DaemonSet listing fails, the
    other kinds are collected and evaluated. *)
Example sample_run :
  let r := run Sample.self Sample.net Sample.cluster
             {| store := []; outbound := []; log := [] |} in
  r.1 = Ret tt
  ∧ Sample.sent r = [ ("trigger", "k8s-zero-replicas-prod/web");
                      ("resolve", "k8s-zero-replicas-prod/web");
                      ("resolve", "k8s-zero-replicas-batch/nightly") ]
  ∧ (ERROR, "Failed to get DaemonSet metrics: (500) Reason: Internal Server Error")
    ∈ log r.2.
Proof.
  split; [reflexivity|]. split; [reflexivity|].
  apply list_elem_of_In. vm_compute. tauto.
Qed.

(** The end-to-end scenario of the specification: one watched deployment
    with three desired and no available replicas gives one trigger and no
    resolve. *)
Example end_to_end :
  Sample.sent (run Sample.e2e_self Sample.dead_net Sample.e2e_cluster
                 {| store := []; outbound := []; log := [] |})
  = [ ("trigger", "k8s-zero-replicas-prod/web") ].
Proof. reflexivity. Qed.

(* ===================================================================== *)
(** * Further properties of the code                                      *)
(* ===================================================================== *)

(** ** More on name normalization *)

Section NormalizationShape.
Import PyStr.

Lemma at_dollar_tail tail :
  at_dollar tail = true → tail = EmptyString ∨ tail = String newline EmptyString.
Proof.
  destruct tail as [|c [|d tail]]; cbn; [auto| |done].
  destruct (ascii_dec c newline) as [->|]; [auto|done].
Qed.

Lemma re_sub_tail tail :
  at_dollar tail = true → re_sub_from 0 tail = tail.
Proof. intros [-> | ->]%at_dollar_tail; reflexivity. Qed.

Lemma re_sub_from_skip a tail :
  re_sub_from (String.length a) (a +:+ tail) = re_sub_from 0 tail.
Proof.
  induction a as [|c a IH]; [done|]. rewrite append_cons. cbn. apply IH.
Qed.

Lemma match_alnum_decompose t n :
  match_alnum_plus_dollar t = Some n →
  ∃ a tail, t = a +:+ tail ∧ String.length a = n ∧ a ≠ EmptyString
            ∧ all_alnum a = true ∧ at_dollar tail = true.
Proof.
  revert n. induction t as [|c t IH]; intros n; [done|].
  cbn [match_alnum_plus_dollar]. destruct (is_alnum c) eqn:Hc; [|done].
  destruct (match_alnum_plus_dollar t) as [m|] eqn:Hm.
  - intros [= <-]. destruct (IH m eq_refl) as (a & tail & -> & <- & _ & Ha & Hd).
    exists (String c a), tail. rewrite append_cons. cbn [all_alnum String.length].
    rewrite Hc, Ha. done.
  - destruct (at_dollar t) eqn:Hd; [|done]. intros [= <-].
    exists (String c EmptyString), t. cbn [all_alnum]. rewrite Hc. done.
Qed.

Lemma re_search_decompose s :
  re_search s = true →
  ∃ p a tail,
    s = p +:+ String hyphen (a +:+ tail)
    ∧ a ≠ EmptyString ∧ all_alnum a = true
    ∧ (tail = EmptyString ∨ tail = String newline EmptyString)
    ∧ re_sub s = p +:+ tail.
Proof.
  unfold re_sub. induction s as [|c s IH]; [done|].
  cbn [re_search re_sub_from]. unfold match_here.
  destruct (ascii_dec c hyphen) as [->|Hc].
  - destruct (match_alnum_plus_dollar s) as [n|] eqn:Hm;
      cbn [fmap option_fmap option_map Nat.pred].
    + intros _. destruct (match_alnum_decompose s n Hm)
        as (a & tail & -> & <- & Hne & Ha & Hd).
      exists EmptyString, a, tail. rewrite !append_nil.
      rewrite re_sub_from_skip, re_sub_tail by done.
      repeat split; try done. by apply at_dollar_tail.
    + intros (p & a & tail & -> & ? & ? & ? & ->)%IH.
      exists (String hyphen p), a, tail. by rewrite !append_cons.
  - intros (p & a & tail & -> & ? & ? & ? & ->)%IH.
    exists (String c p), a, tail. by rewrite !append_cons.
Qed.

(** X1.  The shape of a normalization.  Either the pattern does not
    match and the name is returned as it is, or the name is a prefix, a
    hyphen, a non-empty run of ASCII letters and digits and then nothing
    or a single final newline; the result is the prefix followed by that
    newline, if any, and it is strictly shorter than the name.  So a
    normalization never lengthens a name and removes at most one
    segment. *)
Theorem remove_replicaset_hash_shape name :
  (re_search name = false ∧ remove_replicaset_hash name = name)
  ∨ (∃ p a tail,
       name = p +:+ String hyphen (a +:+ tail)
       ∧ a ≠ EmptyString ∧ all_alnum a = true
       ∧ (tail = EmptyString ∨ tail = String newline EmptyString)
       ∧ remove_replicaset_hash name = p +:+ tail
       ∧ (String.length (remove_replicaset_hash name)
          < String.length name)%nat).
Proof.
  destruct (re_search name) eqn:Hs.
  - right. destruct (re_search_decompose name Hs)
      as (p & a & tail & Hn & ? & ? & ? & Hsub).
    exists p, a, tail. unfold remove_replicaset_hash. rewrite Hs.
    repeat split; try done. by apply re_search_shrinks.
  - left. split; [done|]. by apply unchanged_without_match.
Qed.

End NormalizationShape.

(** ** More on the watch filter *)

Lemma lower_char_idem c :
  PyStr.lower_char (PyStr.lower_char c) = PyStr.lower_char c.
Proof. by destruct c as [[] [] [] [] [] [] [] []]. Qed.

Lemma lower_idem s : PyStr.lower (PyStr.lower s) = PyStr.lower s.
Proof.
  induction s as [|c s IH]; [done|]. cbn. by rewrite lower_char_idem, IH.
Qed.

Lemma entry_kind_lower item : PyStr.lower (entry_kind item) = entry_kind item.
Proof. unfold entry_kind. apply lower_idem. Qed.

(** X2.  Every entry of the watch list is watched: on a scraper built
    by the constructor, the filter accepts the namespace and name of each
    entry under the entry's kind ([Deployment] when the entry has none),
    in whatever letter case the kind is asked. *)
Theorem watch_entries_are_watched token routing_key items cfg self :
  __init__ token routing_key items cfg = Ret self →
  ∀ item kind,
    item ∈ items → PyStr.lower kind = entry_kind item →
    _is_watched self kind (we_namespace item) (we_name item) = true.
Proof.
  intros [Hp _]%init_index item kind Hin Hk.
  pose proof (build_watch_pairs_lookup items (PyStr.lower kind)) as Hl.
  assert (Hne : filter (λ i, entry_kind i = PyStr.lower kind) items ≠ []).
  { apply filter_kind_nonempty. eauto. }
  destruct (filter _ items) as [|i l] eqn:E; [done|]. rewrite <- Hp in Hl.
  rewrite (is_watched_exact _ _ _ _ _ Hl).
  - apply bool_decide_eq_true, elem_of_pairs_of_kind. eauto.
  - rewrite Hp in Hl. by apply build_watch_pairs_nonempty in Hl.
Qed.

Lemma watch_entries_are_watched_witness :
  _is_watched Sample.self "CRONJOB" "batch" "nightly" = true
  ∧ _is_watched Sample.self "Deployment" "prod" "web" = true.
Proof.
  assert (Hinit : __init__ (Some "token") (Some "routing-key") Sample.watch
                    (Ret tt) = Ret Sample.self) by reflexivity.
  split.
  - apply (watch_entries_are_watched _ _ _ _ _ Hinit
             {| we_kind := Some "CronJob"; we_namespace := "batch";
                we_name := "nightly" |} "CRONJOB"); [|reflexivity].
    do 3 apply list_elem_of_further. apply list_elem_of_here.
  - apply (watch_entries_are_watched _ _ _ _ _ Hinit
             {| we_kind := None; we_namespace := "prod"; we_name := "web" |}
             "Deployment"); [|reflexivity].
    apply list_elem_of_further, list_elem_of_here.
Defined.

Lemma watched_in_watched_namespace token routing_key items cfg self
    kind namespace name :
  __init__ token routing_key items cfg = Ret self →
  _is_watched self kind namespace name = true →
  namespace ∈ watched_namespaces self.
Proof.
  intros Hinit. pose proof Hinit as [Hp Hn]%init_index. unfold _is_watched.
  destruct (watch_pairs_by_kind self !! PyStr.lower kind) as [pairs|] eqn:El.
  - destruct (decide (pairs = ∅)); [by intros ?%bool_decide_eq_true|].
    intros Hin%bool_decide_eq_true. rewrite Hp, build_watch_pairs_lookup in El.
    destruct (filter _ items); [done|]. injection El as <-.
    apply elem_of_pairs_of_kind in Hin as (item & ? & _ & ? & _).
    rewrite Hn. apply elem_of_build_watched_namespaces. eauto.
  - by intros ?%bool_decide_eq_true.
Qed.

(** X3.  On a scraper built by the constructor the filter accepts only
    namespaces that the watch list mentions, for every kind.  Hence the
    test of the replica-set collector, "not watched and namespace not in
    the watched namespaces", is the test "namespace not in the watched
    namespaces": the replica sets of a watched namespace are all kept,
    entry or no entry. *)
Theorem replicaset_filter_is_namespace_filter token routing_key items cfg self :
  __init__ token routing_key items cfg = Ret self →
  ∀ kind namespace name,
    (_is_watched self kind namespace name = true →
     namespace ∈ watched_namespaces self)
    ∧ negb (_is_watched self "replicaset" namespace name)
      && negb (bool_decide (namespace ∈ watched_namespaces self))
      = negb (bool_decide (namespace ∈ watched_namespaces self)).
Proof.
  intros Hinit kind namespace name.
  split; [by eapply watched_in_watched_namespace|].
  destruct (_is_watched self "replicaset" namespace name) eqn:E; [|done].
  eapply watched_in_watched_namespace in E; [|done].
  by rewrite bool_decide_eq_true_2.
Qed.

Lemma replicaset_filter_is_namespace_filter_witness :
  _is_watched Sample.self "deployment" "prod" "db" = true
  ∧ "prod" ∈ watched_namespaces Sample.self.
Proof.
  assert (Hinit : __init__ (Some "token") (Some "routing-key") Sample.watch
                    (Ret tt) = Ret Sample.self) by reflexivity.
  split; [reflexivity|].
  apply (proj1 (replicaset_filter_is_namespace_filter _ _ _ _ _ Hinit
                  "deployment" "prod" "db")).
  reflexivity.
Defined.

(** ** Start-up *)

Lemma load_config_spec p lg :
  (load_incluster_config p = Ret tt ∨ load_kube_config p = Ret tt →
   load_config p lg = (Ret tt, lg))
  ∧ (∀ e1 e2, load_incluster_config p = Raise e1 →
              load_kube_config p = Raise e2 →
              load_config p lg =
                (Raise e2, lg ++ [(ERROR, "Failed to load Kubernetes config: "
                                          +:+ exn_str e2)])).
Proof.
  unfold load_config. mstep. split.
  - destruct (load_incluster_config p) as [[]|e1]; [done|].
    intros [? | ->]; done.
  - by intros e1 e2 -> ->.
Qed.

(** X4.  The order of the constructor's checks.  A failure to parse
    [WATCH_JSON] is raised before anything else is looked at.  With the
    document parsed, a credential that is missing or empty raises
    [ValueError] before the cluster configuration is touched, and nothing
    is logged.  With the credentials in place, when neither cluster
    configuration loads, the exception of the second attempt is logged
    and raised.  Hence the constructor returns only if [WATCH_JSON]
    parsed, both credentials are set and non-empty, one of the two
    configurations loaded and every item of the watch list has a
    namespace and a name; the scraper is then the one built from the
    entries read. *)
Theorem construct_spec p lg :
  (∀ e, WATCH_JSON p = Raise e → construct p lg = (Raise e, lg))
  ∧ (∀ items, WATCH_JSON p = Ret items →
       unset (PAGERDUTY_TOKEN p) || unset (PAGERDUTY_ROUTING_KEY p) = true →
       construct p lg =
         (Raise (ValueError
                   "PAGERDUTY_TOKEN and PAGERDUTY_ROUTING_KEY must be set"),
          lg))
  ∧ (∀ items e1 e2, WATCH_JSON p = Ret items →
       unset (PAGERDUTY_TOKEN p) || unset (PAGERDUTY_ROUTING_KEY p) = false →
       load_incluster_config p = Raise e1 → load_kube_config p = Raise e2 →
       construct p lg =
         (Raise e2, lg ++ [(ERROR, "Failed to load Kubernetes config: "
                                   +:+ exn_str e2)]))
  ∧ (∀ self lg', construct p lg = (Ret self, lg') →
       ∃ items entries token routing_key,
         WATCH_JSON p = Ret items
         ∧ PAGERDUTY_TOKEN p = Some token ∧ token ≠ ""
         ∧ PAGERDUTY_ROUTING_KEY p = Some routing_key ∧ routing_key ≠ ""
         ∧ (load_incluster_config p = Ret tt ∨ load_kube_config p = Ret tt)
         ∧ read_items items = Ret entries
         ∧ __init__ (Some token) (Some routing_key) entries (Ret tt)
           = Ret self).
Proof.
  split; [|split; [|split]].
  - intros e He. unfold construct. by rewrite He.
  - intros items Hw Hu. unfold construct. rewrite Hw. mstep. by rewrite Hu.
  - intros items e1 e2 Hw Hu H1 H2. unfold construct. rewrite Hw. mstep.
    rewrite Hu. fold (load_config p).
    by rewrite (proj2 (load_config_spec p lg) e1 e2 H1 H2).
  - intros self lg'. unfold construct, __init__.
    destruct (WATCH_JSON p) as [items|e] eqn:Hw; mstep; [|done].
    destruct (PAGERDUTY_TOKEN p) as [t|] eqn:Ht; cbn [unset orb]; [|done].
    destruct (PAGERDUTY_ROUTING_KEY p) as [r|] eqn:Hr; cbn [unset];
      [|by rewrite orb_true_r].
    destruct (String.eqb_spec t ""), (String.eqb_spec r ""); cbn [orb];
      try done.
    destruct (load_config_spec p lg) as [Hok Hfail]. fold (load_config p).
    assert (Hcfg : load_incluster_config p = Ret tt ∨ load_kube_config p = Ret tt
                   ∨ ∃ e1 e2, load_incluster_config p = Raise e1
                              ∧ load_kube_config p = Raise e2).
    { destruct (load_incluster_config p) as [[]|e1]; [by left|].
      destruct (load_kube_config p) as [[]|e2]; [by right; left|].
      right. right. eauto. }
    destruct Hcfg as [Hc|[Hc|(e1 & e2 & H1 & H2)]];
      [| |by rewrite (Hfail e1 e2 H1 H2)].
    all: rewrite Hok by auto.
    all: destruct (read_items items) as [entries|e] eqn:Hread; [|done].
    all: intros [= <- _]; exists items, entries, t, r.
    all: rewrite (proj2 (String.eqb_neq t "")), (proj2 (String.eqb_neq r ""))
           by done.
    all: repeat split; auto.
Qed.

Lemma construct_spec_witness :
  (∃ entries,
     read_items Fixture.items = Ret entries
     ∧ __init__ (Some "token") (Some "routing-key") entries (Ret tt)
       = Ret Sample.self)
  ∧ construct Fixture.process_without_key [] =
      (Raise (ValueError "PAGERDUTY_TOKEN and PAGERDUTY_ROUTING_KEY must be set"),
       []).
Proof.
  split.
  - destruct (proj2 (proj2 (proj2 (construct_spec Fixture.process [])))
                Sample.self (construct Fixture.process []).2 eq_refl)
      as (items & entries & token & key & Hitems & Ht & _ & Hk & _ & _ & Hread
          & Hinit).
    injection Hitems as <-. injection Ht as <-. injection Hk as <-.
    exists entries. split; [exact Hread|exact Hinit].
  - apply (proj1 (proj2 (construct_spec Fixture.process_without_key []))
             Fixture.items); reflexivity.
Defined.

Lemma read_items_incomplete pre bad post :
  item_namespace bad = None ∨ item_name bad = None →
  ∀ entries, read_items (pre ++ bad :: post) ≠ Ret entries.
Proof.
  intros Hbad. induction pre as [|item pre IH]; intros entries; cbn.
  - unfold read_item. destruct Hbad as [-> | Hn].
    + done.
    + rewrite Hn. by destruct (item_namespace bad).
  - destruct (read_item item); [|done].
    destruct (read_items (pre ++ bad :: post)) as [l|] eqn:E; [|done].
    by specialize (IH l).
Qed.

Lemma construct_reads_items p lg self lg' :
  construct p lg = (Ret self, lg') →
  ∃ items entries, WATCH_JSON p = Ret items ∧ read_items items = Ret entries.
Proof.
  unfold construct.
  destruct (WATCH_JSON p) as [items|e]; mstep; [|done].
  destruct (unset _ || unset _); [done|].
  destruct (load_config p lg) as [[[]|e] lg1]; [|done].
  destruct (read_items items) as [entries|e] eqn:Hread; [eauto|done].
Qed.

(** X5.  The exit status of the program.  When the constructor returns,
    the run returns and the status is 0; when the constructor raises,
    the status is 1, one [Fatal error] line is logged and nothing is
    sent.  In particular a watch item without a namespace or a name
    makes the program exit with status 1 without contacting the event
    endpoint. *)
Theorem main_exit_status p k8s net w :
  (∀ self lg',
     construct p (log w) = (Ret self, lg') →
     ∃ w', run self net k8s {| store := store w; outbound := outbound w;
                               log := lg' |} = (Ret tt, w')
           ∧ main p k8s net w = (0, w'))
  ∧ (∀ e lg',
       construct p (log w) = (Raise e, lg') →
       main p k8s net w =
         (1, {| store := store w; outbound := outbound w;
                log := lg' ++ [(ERROR, "Fatal error: " +:+ exn_str e)] |}))
  ∧ (∀ pre bad post,
       WATCH_JSON p = Ret (pre ++ bad :: post) →
       item_namespace bad = None ∨ item_name bad = None →
       (main p k8s net w).1 = 1
       ∧ outbound (main p k8s net w).2 = outbound w).
Proof.
  assert (Hok : ∀ self lg',
     construct p (log w) = (Ret self, lg') →
     ∃ w', run self net k8s {| store := store w; outbound := outbound w;
                               log := lg' |} = (Ret tt, w')
           ∧ main p k8s net w = (0, w')).
  { intros self lg' Hc.
    destruct (run_spec self net k8s
                {| store := store w; outbound := outbound w; log := lg' |})
      as (? & ? & ? & ? & ? & ? & ? & ? & ? & ? & ? & ? & _ & _ & _ & _ & _ & Hrun).
    cbn zeta in Hrun. eexists. split; [exact Hrun|].
    unfold main, bind, lift_log. rewrite Hc. unfold set_log. cbn [store outbound].
    by rewrite Hrun. }
  assert (Hfail : ∀ e lg',
       construct p (log w) = (Raise e, lg') →
       main p k8s net w =
         (1, {| store := store w; outbound := outbound w;
                log := lg' ++ [(ERROR, "Fatal error: " +:+ exn_str e)] |})).
  { intros e lg' Hc. unfold main, bind, lift_log. rewrite Hc. done. }
  split; [done|]. split; [done|].
  intros pre bad post Hw Hbad.
  destruct (construct p (log w)) as [[self|e] lg'] eqn:Hc.
  - exfalso. destruct (construct_reads_items p (log w) self lg' Hc)
      as (items & entries & Hw' & Hread).
    rewrite Hw in Hw'. injection Hw' as <-.
    by eapply read_items_incomplete.
  - by rewrite (Hfail e lg' eq_refl).
Qed.

Lemma main_exit_status_witness :
  (∃ w', main Fixture.process Fixture.cluster Sample.net Fixture.empty_world
         = (0, w'))
  ∧ (main Fixture.process_without_key Fixture.cluster Sample.net
       Fixture.empty_world).1 = 1.
Proof.
  split.
  - destruct (proj1 (main_exit_status Fixture.process Fixture.cluster Sample.net
                       Fixture.empty_world)
                Sample.self
                (construct Fixture.process []).2 eq_refl) as (w' & _ & Hmain).
    by exists w'.
  - rewrite (proj1 (proj2 (main_exit_status Fixture.process_without_key
                             Fixture.cluster Sample.net Fixture.empty_world))
               (ValueError "PAGERDUTY_TOKEN and PAGERDUTY_ROUTING_KEY must be set")
               [] eq_refl).
    reflexivity.
Defined.

(** ** More on the collectors *)

Lemma deployment_body_spec self k8s d metrics lg :
  dep_well_formed d →
  ∃ lg', deployment_body self k8s d metrics lg =
    (Ret (metrics ++ if dep_selected self d then [dep_record k8s d] else []), lg').
Proof.
  intros ([md Hmd] & [sp Hsp] & [st Hst]).
  unfold deployment_body, dep_selected, dep_record, dep_ident, Py.or_zero.
  rewrite Hmd, Hsp, Hst. cbn [from_option fst snd]. mstep.
  destruct (_is_watched _ _ _ _); cbn [negb]; [eauto|].
  rewrite app_nil_r. eauto.
Qed.

(** X6.  When the listing returns deployments that all carry metadata,
    a spec and a status, the deployment collector returns, in the order
    of the listing, the record of exactly the watched ones; a deployment
    scaled to zero is reported too. *)
Theorem deployment_metrics_spec self k8s items lg :
  list_deployment_for_all_namespaces k8s = Ret items →
  Forall dep_well_formed items →
  ∃ lg', get_deployment_metrics self k8s lg =
    (Ret (dep_record k8s <$> filter (λ d, dep_selected self d = true) items),
     lg').
Proof.
  intros Hl Hwf. unfold get_deployment_metrics. rewrite Hl.
  rewrite <- concat_select. apply collect_appends.
  intros d s w Hin. apply deployment_body_spec.
  by eapply Forall_forall in Hwf.
Qed.

Lemma deployment_metrics_spec_witness :
  ∃ lg', get_deployment_metrics Sample.self Fixture.cluster [] =
    (Ret [dep_record Fixture.cluster Sample.web], lg').
Proof.
  destruct (deployment_metrics_spec Sample.self Fixture.cluster [Sample.web] []
              eq_refl) as [lg' H]; [by_evaluation|].
  exists lg'. exact H.
Defined.

Lemma daemonset_body_spec self k8s ds metrics lg :
  ds_readable self ds →
  ∃ lg', daemonset_body self k8s ds metrics lg =
    (Ret (metrics ++ if ds_selected self ds then [ds_record k8s ds] else []), lg').
Proof.
  intros [[md Hmd] Hst]. revert Hst.
  unfold daemonset_body, ds_selected, ds_record, ds_ident, ds_count, Py.or_zero,
    or_new.
  rewrite Hmd. cbn [from_option fst snd]. mstep.
  destruct (_is_watched _ _ _ _); cbn [negb]; [|rewrite app_nil_r; eauto].
  intros [st ->]; [done|]. mstep. cbn [from_option id]. eauto.
Qed.

(** Without a status a watched daemon set makes the body raise when it
    constructs an empty one, and nothing is appended. *)
Lemma daemonset_body_no_status self k8s ds metrics lg :
  is_Some (ds_metadata ds) → ds_selected self ds = true → ds_status ds = None →
  ∃ msg, daemonset_body self k8s ds metrics lg = (Raise (ValueError msg), lg).
Proof.
  intros [md Hmd]. unfold ds_selected, ds_ident. rewrite Hmd.
  cbn [from_option fst snd]. intros Hw Hst.
  unfold daemonset_body, or_new, new_V1DaemonSetStatus.
  rewrite Hmd, Hst. mstep. rewrite Hw. cbn [negb]. eauto.
Qed.

(** X7.  When the listing returns daemon sets that all carry metadata
    and, if watched, a status, the daemon-set collector returns, in
    order, the record of exactly the watched ones.  When a watched daemon
    set of the listing carries no status, the collector returns the
    records of the watched ones before it only and logs the error: the
    loop is abandoned there.  The available count of a record is
    [number_ready] and its desired count is [desired_number_scheduled]. *)
Theorem daemonset_metrics_spec self k8s lg :
  (∀ items,
     list_daemon_set_for_all_namespaces k8s = Ret items →
     Forall (ds_readable self) items →
     ∃ lg', get_daemonset_metrics self k8s lg =
       (Ret (ds_record k8s <$> filter (λ ds, ds_selected self ds = true) items),
        lg'))
  ∧ (∀ pre bad post,
       list_daemon_set_for_all_namespaces k8s = Ret (pre ++ bad :: post) →
       Forall (ds_readable self) pre →
       is_Some (ds_metadata bad) → ds_selected self bad = true →
       ds_status bad = None →
       ∃ lg' msg, get_daemonset_metrics self k8s lg =
         (Ret (ds_record k8s <$> filter (λ ds, ds_selected self ds = true) pre),
          lg' ++ [(ERROR, "Failed to get DaemonSet metrics: " +:+ msg)]))
  ∧ ∀ ds, ds_record k8s ds !! "available_replicas"
          = Some (VInt (ds_count number_ready ds))
          ∧ ds_record k8s ds !! "desired_replicas"
            = Some (VInt (ds_count desired_number_scheduled ds)).
Proof.
  assert (Hloop : ∀ items lg0, Forall (ds_readable self) items →
            ∃ lg', for_each (daemonset_body self k8s) items [] lg0 =
              ((ds_record k8s <$> filter (λ ds, ds_selected self ds = true) items,
                None), lg')).
  { intros items lg0 Hwf. rewrite <- concat_select.
    apply (for_each_appends (daemonset_body self k8s)
             (λ ds, if ds_selected self ds then [ds_record k8s ds] else [])).
    intros ds s w Hin. apply daemonset_body_spec.
    by eapply Forall_forall in Hwf. }
  split; [|split].
  - intros items Hl Hwf. unfold get_daemonset_metrics, collect. rewrite Hl.
    destruct (Hloop items lg Hwf) as [lg' ->]. eauto.
  - intros pre bad post Hl Hwf Hmd Hsel Hst.
    unfold get_daemonset_metrics. rewrite Hl.
    destruct (Hloop pre lg Hwf) as [lg1 Hpre].
    destruct (daemonset_body_no_status self k8s bad
                (ds_record k8s <$> filter (λ ds, ds_selected self ds = true) pre)
                lg1 Hmd Hsel Hst) as [msg Hbad].
    exists lg1, msg. by rewrite (collect_item_error _ _ _ _ _ _ _ _ _ _ Hpre Hbad).
  - intros ds. split; reflexivity.
Qed.

Lemma daemonset_metrics_spec_witness :
  (∃ lg', get_daemonset_metrics Sample.self Fixture.cluster [] =
     (Ret [ds_record Fixture.cluster
             (Fixture.daemon_set "ns1" "foo" (Some (Fixture.scheduled 0)))],
      lg'))
  ∧ (∃ lg' msg,
       get_daemonset_metrics Sample.e2e_self Fixture.degraded_cluster [] =
         (Ret [ds_record Fixture.degraded_cluster
                 (Fixture.daemon_set "prod" "node-exporter"
                    (Some (Fixture.scheduled 3)))],
          lg' ++ [(ERROR, "Failed to get DaemonSet metrics: " +:+ msg)])).
Proof.
  split.
  - destruct (proj1 (daemonset_metrics_spec Sample.self Fixture.cluster [])
                Fixture.daemon_sets eq_refl) as [lg' H]; [by_evaluation|].
    exists lg'. exact H.
  - destruct (proj1 (proj2 (daemonset_metrics_spec Sample.e2e_self
                              Fixture.degraded_cluster []))
                [Fixture.daemon_set "prod" "node-exporter"
                   (Some (Fixture.scheduled 3))]
                (Fixture.daemon_set "prod" "log-shipper" None)
                [Fixture.daemon_set "prod" "cni" (Some (Fixture.scheduled 0))]
                eq_refl) as (lg' & msg & H);
      [by_evaluation|eexists; reflexivity|reflexivity|reflexivity|].
    exists lg', msg. exact H.
Defined.

Lemma statefulset_body_spec self k8s ss metrics lg :
  ss_well_formed ss →
  ∃ lg', statefulset_body self k8s ss metrics lg =
    (Ret (metrics ++ if ss_selected self ss then [ss_record k8s ss] else []), lg').
Proof.
  intros ([md Hmd] & [sp Hsp] & [st Hst]).
  unfold statefulset_body, ss_selected, ss_record, ss_ident, Py.or_zero.
  rewrite Hmd, Hsp, Hst. cbn [from_option fst snd]. mstep.
  destruct (_is_watched _ _ _ _); cbn [negb]; [eauto|].
  rewrite app_nil_r. eauto.
Qed.

(** X8.  When the listing returns stateful sets that all carry
    metadata, a spec and a status, the stateful-set collector returns, in
    order, the record of exactly the watched ones; the available count of
    a record is its ready count. *)
Theorem statefulset_metrics_spec self k8s items lg :
  list_stateful_set_for_all_namespaces k8s = Ret items →
  Forall ss_well_formed items →
  (∃ lg', get_statefulset_metrics self k8s lg =
     (Ret (ss_record k8s <$> filter (λ ss, ss_selected self ss = true) items),
      lg'))
  ∧ ∀ ss, ss_record k8s ss !! "available_replicas"
          = ss_record k8s ss !! "ready_replicas".
Proof.
  intros Hl Hwf. split.
  - unfold get_statefulset_metrics. rewrite Hl.
    rewrite <- concat_select. apply collect_appends.
    intros ss s w Hin. apply statefulset_body_spec.
    by eapply Forall_forall in Hwf.
  - intros ss. reflexivity.
Qed.

Lemma statefulset_metrics_spec_witness :
  ∃ lg', get_statefulset_metrics Sample.self Fixture.cluster [] =
    (Ret [ss_record Fixture.cluster (Fixture.stateful_set "prod" "cache" 2 0)],
     lg').
Proof.
  destruct (statefulset_metrics_spec Sample.self Fixture.cluster
              Fixture.stateful_sets [] eq_refl) as [[lg' H] _]; [by_evaluation|].
  exists lg'. exact H.
Defined.

Lemma for_each_groups {St X A : Type} (R : X → list A → Prop)
    (body : X → list A → M St (list A)) (xs : list X) :
  (∀ x s w, x ∈ xs → ∃ l w', body x s w = (Ret (s ++ l), w') ∧ R x l) →
  ∀ s w, ∃ ls w',
    for_each body xs s w = ((s ++ concat ls, None), w') ∧ Forall2 R xs ls.
Proof.
  induction xs as [|x xs IH]; intros H s w.
  - exists [], w. cbn. by rewrite app_nil_r.
  - cbn [for_each]. destruct (H x s w) as (l & w' & -> & HR); [left|].
    destruct (IH (λ y s w Hy, H y s w (list_elem_of_further _ _ _ Hy))
                 (s ++ l) w') as (ls & w'' & -> & HRs).
    exists (l :: ls), w''. cbn [concat]. rewrite app_assoc. by split; [|constructor].
Qed.

Lemma cj_record_reported k8s cj md fj fp :
  cj_metadata cj = Some md → cj_reported cj (cj_record k8s cj md fj fp).
Proof.
  intros Hmd. unfold cj_reported, cj_ident. rewrite Hmd. cbn [from_option fst snd].
  split; [reflexivity|]. split; [reflexivity|]. split; [reflexivity|].
  split; [reflexivity|]. eexists. split; [|split; [reflexivity|split; [reflexivity|]]].
  - destruct (_ && _ && _ && _); auto.
  - intros [-> | ->]; [reflexivity|].
    rewrite bool_decide_eq_false_2 by (by intros [? ?]).
    by rewrite andb_false_r.
Qed.

(** X9.  When the listing returns scheduled jobs that all carry
    metadata and, if watched, a spec, the scheduled-job collector
    returns, whatever the Job and Pod listings answer, one record for
    each watched scheduled job and none for the others, in the order of
    the listing.  The record has the job's name and namespace, a desired
    count of 0 when suspended and 1 otherwise, and an available count of
    0 or 1 which is 0 when the job is suspended or has never succeeded.
    When a watched scheduled job of the listing carries no spec, the
    collector returns such records for the jobs before it only and logs
    the error: the loop is abandoned there. *)
Theorem cronjob_metrics_spec self k8s lg :
  (∀ items,
     list_cron_job_for_all_namespaces k8s = Ret items →
     Forall (cj_readable self) items →
     ∃ (groups : list (list dict)) lg',
       get_cronjob_metrics self k8s lg = (Ret (concat groups), lg')
       ∧ Forall2 (cj_group self) items groups)
  ∧ (∀ pre bad post,
       list_cron_job_for_all_namespaces k8s = Ret (pre ++ bad :: post) →
       Forall (cj_readable self) pre →
       is_Some (cj_metadata bad) → cj_selected self bad = true →
       cj_spec bad = None →
       ∃ (groups : list (list dict)) lg' msg,
         get_cronjob_metrics self k8s lg =
           (Ret (concat groups),
            lg' ++ [(ERROR, "Failed to get CronJob metrics: " +:+ msg)])
         ∧ Forall2 (cj_group self) pre groups).
Proof.
  assert (Hloop : ∀ items lg0, Forall (cj_readable self) items →
            ∃ (groups : list (list dict)) lg',
              for_each (cronjob_body self k8s) items [] lg0 =
                ((concat groups, None), lg')
              ∧ Forall2 (cj_group self) items groups).
  { intros items lg0 Hwf.
    destruct (for_each_groups (cj_group self) (cronjob_body self k8s) items)
      with (s := @nil dict) (w := lg0) as (groups & lg' & ? & ?); [|by eauto].
    intros cj s w Hin. eapply Forall_forall in Hwf as [[md Hmd] Hsp]; [|done].
    revert Hsp. unfold cj_group, cj_selected, cj_ident. rewrite Hmd.
    cbn [from_option fst snd].
    destruct (_is_watched self "cronjob" (meta_namespace md) (meta_name md))
      eqn:Hw; intros Hsp.
    - destruct (cronjob_body_tallies self k8s cj md s w Hmd (Hsp eq_refl) Hw)
        as (fj & names & fp & lg1 & lg2 & lg3 & _ & _ & ->).
      eexists _, _. split; [done|]. eexists. split; [done|].
      by apply cj_record_reported.
    - exists [], w. split; [|done]. unfold cronjob_body. rewrite Hmd. mstep.
      rewrite Hw. cbn [negb]. by rewrite app_nil_r. }
  split.
  - intros items Hl Hwf. unfold get_cronjob_metrics, collect. rewrite Hl.
    destruct (Hloop items lg Hwf) as (groups & lg' & -> & HR). eauto.
  - intros pre bad post Hl Hwf [md Hmd] Hsel Hsp.
    unfold get_cronjob_metrics. rewrite Hl.
    destruct (Hloop pre lg Hwf) as (groups & lg1 & Hpre & HR).
    revert Hsel. unfold cj_selected, cj_ident. rewrite Hmd.
    cbn [from_option fst snd]. intros Hw.
    destruct (cronjob_body_no_spec self k8s bad md (concat groups) lg1
                Hmd Hw Hsp) as [msg Hbad].
    exists groups, lg1, msg.
    by rewrite (collect_item_error _ _ _ _ _ _ _ _ _ _ Hpre Hbad).
Qed.

Lemma cronjob_metrics_spec_witness :
  (∃ (groups : list (list dict)) lg',
     get_cronjob_metrics Sample.self Fixture.cluster [] = (Ret (concat groups), lg')
     ∧ length groups = 2%nat)
  ∧ (∃ (groups : list (list dict)) lg' msg,
       get_cronjob_metrics Sample.e2e_self Fixture.degraded_cluster [] =
         (Ret (concat groups),
          lg' ++ [(ERROR, "Failed to get CronJob metrics: " +:+ msg)])
       ∧ length groups = 1%nat).
Proof.
  split.
  - destruct (proj1 (cronjob_metrics_spec Sample.self Fixture.cluster [])
                [Sample.nightly; Fixture.suspended_job] eq_refl)
      as (groups & lg' & H & Hall); [by_evaluation|].
    exists groups, lg'. split; [exact H|].
    apply Forall2_length in Hall. rewrite <- Hall. reflexivity.
  - destruct (proj2 (cronjob_metrics_spec Sample.e2e_self
                       Fixture.degraded_cluster [])
                [Fixture.cron_job "prod" "report" (Some {| suspend := None |})]
                (Fixture.cron_job "prod" "cleanup" None)
                [Fixture.cron_job "prod" "backup"
                   (Some {| suspend := Some true |})]
                eq_refl) as (groups & lg' & msg & H & Hall);
      [by_evaluation|eexists; reflexivity|reflexivity|reflexivity|].
    exists groups, lg', msg. split; [exact H|].
    apply Forall2_length in Hall. rewrite <- Hall. reflexivity.
Defined.

(** ** The shape of every collected record *)

Ltac shape :=
  repeat split; try reflexivity; try (eexists; reflexivity).

Ltac body_keeps_shape :=
  let H := fresh in
  intros ? ? ? ? ? H ?; mstep_in H;
  repeat match type of H with
         | context [match ?o with _ => _ end] =>
             destruct o eqn:?; mstep_in H; try discriminate H
         end;
  injection H as <- _; try done;
  apply Forall_app; split; [done|]; apply Forall_singleton; shape.

Lemma deployment_body_shape self k8s x s w s' w' :
  deployment_body self k8s x s w = (Ret s', w') →
  Forall (metric_of_kind "deployment") s → Forall (metric_of_kind "deployment") s'.
Proof. revert x s w s' w'. unfold deployment_body. body_keeps_shape. Qed.

Lemma replicaset_body_shape self k8s x s w s' w' :
  replicaset_body self k8s x s w = (Ret s', w') →
  Forall (metric_of_kind "replicaset") s → Forall (metric_of_kind "replicaset") s'.
Proof. revert x s w s' w'. unfold replicaset_body. body_keeps_shape. Qed.

Lemma daemonset_body_shape self k8s x s w s' w' :
  daemonset_body self k8s x s w = (Ret s', w') →
  Forall (metric_of_kind "daemonset") s → Forall (metric_of_kind "daemonset") s'.
Proof. revert x s w s' w'. unfold daemonset_body. body_keeps_shape. Qed.

Lemma statefulset_body_shape self k8s x s w s' w' :
  statefulset_body self k8s x s w = (Ret s', w') →
  Forall (metric_of_kind "statefulset") s →
  Forall (metric_of_kind "statefulset") s'.
Proof. revert x s w s' w'. unfold statefulset_body. body_keeps_shape. Qed.

Lemma cronjob_body_shape self k8s x s w s' w' :
  cronjob_body self k8s x s w = (Ret s', w') →
  Forall (metric_of_kind "cronjob") s → Forall (metric_of_kind "cronjob") s'.
Proof.
  intros H Hs. unfold cronjob_body, or_new, new_V1CronJobStatus in H.
  destruct (cj_metadata x) as [md|]; mstep_in H; [|done].
  destruct (_is_watched _ _ _ _); cbn [negb] in H; [|by injection H as <- _].
  destruct (cj_spec x) as [spec|]; mstep_in H; [|done].
  destruct (check_jobs_returns k8s (meta_namespace md) (meta_name md) w)
    as ([fj names] & lg1 & Hj).
  destruct (check_pods_returns k8s (meta_namespace md) (meta_name md) names lg1)
    as (fp & lg2 & Hp).
  destruct (cj_status x) as [status|]; mstep_in H;
    rewrite Hj, Hp in H; injection H as <- _;
    (apply Forall_app; split; [done|]; apply Forall_singleton; shape).
Qed.

(** X10.  Whatever the cluster answers, every record a collector
    returns has a string name and namespace, the collector's kind as its
    type, integer desired, available and ready counts and a timestamp;
    and no record of the replica-set collector has a desired count of
    0. *)
Theorem collected_records_shape self k8s lg metrics lg' :
  (get_deployment_metrics self k8s lg = (Ret metrics, lg') →
   Forall (metric_of_kind "deployment") metrics)
  ∧ (get_replicaset_metrics self k8s lg = (Ret metrics, lg') →
     Forall (metric_of_kind "replicaset") metrics
     ∧ Forall (λ m, m !! "desired_replicas" ≠ Some (VInt 0)) metrics)
  ∧ (get_daemonset_metrics self k8s lg = (Ret metrics, lg') →
     Forall (metric_of_kind "daemonset") metrics)
  ∧ (get_statefulset_metrics self k8s lg = (Ret metrics, lg') →
     Forall (metric_of_kind "statefulset") metrics)
  ∧ (get_cronjob_metrics self k8s lg = (Ret metrics, lg') →
     Forall (metric_of_kind "cronjob") metrics).
Proof.
  split; [apply collect_preserves, deployment_body_shape|].
  split.
  - intros H. split; [revert H; apply collect_preserves, replicaset_body_shape|].
    revert H. apply collect_preserves. clear.
    intros x s w s' w' H Hs. unfold replicaset_body in H. mstep_in H.
    repeat match type of H with
           | context [match ?o with _ => _ end] =>
               destruct o eqn:?; mstep_in H; try discriminate H
           end;
    injection H as <- _; try done.
    apply Forall_app; split; [done|]. apply Forall_singleton.
    match goal with
    | Hz : (?d =? 0) = false |- replicaset_metric ?k ?n ?ns ?d ?a ?r !! _ ≠ _ =>
        change (replicaset_metric k n ns d a r !! "desired_replicas")
          with (Some (VInt d));
        intros [= E]; rewrite E in Hz; discriminate Hz
    end.
  - split; [apply collect_preserves, daemonset_body_shape|].
    split; [apply collect_preserves, statefulset_body_shape|].
    apply collect_preserves, cronjob_body_shape.
Qed.

Lemma collected_records_shape_witness :
  ∃ metrics lg',
    get_replicaset_metrics Sample.self Fixture.cluster [] = (Ret metrics, lg')
    ∧ Forall (metric_of_kind "replicaset") metrics
    ∧ Forall (λ m, m !! "desired_replicas" ≠ Some (VInt 0)) metrics.
Proof.
  destruct (get_replicaset_metrics Sample.self Fixture.cluster [])
    as [[metrics|e] lg'] eqn:E.
  - exists metrics, lg'. split; [reflexivity|].
    exact (proj1 (proj2 (collected_records_shape Sample.self Fixture.cluster []
                           metrics lg')) E).
  - vm_compute in E. discriminate E.
Defined.

(** ** More on the evaluator *)

Ltac wreduce :=
  repeat progress
    (cbn [store outbound log from_option id fmap option_fmap option_map
          remove_replicaset_hash_of negb option_list alert_metric];
     cbv beta iota zeta delta [ret raise]).

Section EvaluatorEdges.
Variable self : MetricsScraper.
Variable net : Network.

Lemma evaluate_body_no_name r d counts w :
  store w !! r = Some d → ignored d = false → d !! "name" = None →
  evaluate_body self net r counts w = (Raise (KeyError "name"), w).
Proof.
  intros Hr Hi Hn. unfold evaluate_body. destruct counts as [t s]. wstep.
  rewrite Hr. wreduce. rewrite or_zero_eq_zero.
  fold (desired_of d). fold (ignored d). rewrite Hi. wreduce.
  rewrite Hr. wreduce. by rewrite Hn.
Qed.

Lemma evaluate_body_bad_name r d v counts w :
  store w !! r = Some d → ignored d = false → d !! "name" = Some v →
  (∀ n, v ≠ VStr n) →
  evaluate_body self net r counts w
  = (Raise (TypeError "expected string or bytes-like object"), w).
Proof.
  intros Hr Hi Hn Hv. unfold evaluate_body. destruct counts as [t s]. wstep.
  rewrite Hr. wreduce. rewrite or_zero_eq_zero.
  fold (desired_of d). fold (ignored d). rewrite Hi. wreduce.
  rewrite Hr. wreduce. rewrite Hn. wreduce.
  destruct v as [| | |n]; try done. by specialize (Hv n).
Qed.

Lemma evaluate_body_no_namespace r d n counts w :
  store w !! r = Some d → ignored d = false → d !! "name" = Some (VStr n) →
  d !! "namespace" = None →
  evaluate_body self net r counts w
  = (Raise (KeyError "namespace"),
     {| store := <[r := normalized d]> (store w); outbound := outbound w;
        log := log w |}).
Proof.
  intros Hr Hi Hn Hns.
  assert (Hr' : <[r := normalized d]> (store w) !! r = Some (normalized d)).
  { apply list_lookup_insert_eq. by eapply lookup_lt_Some. }
  unfold evaluate_body. destruct counts as [t s]. wstep.
  rewrite Hr. wreduce. rewrite or_zero_eq_zero.
  fold (desired_of d). fold (ignored d). rewrite Hi. wreduce.
  rewrite Hr. wreduce. rewrite Hn. wreduce.
  rewrite (alter_name_store r d n w Hr Hn), Hr'. wreduce.
  unfold normalized at 1. rewrite lookup_insert_ne by done. by rewrite Hns.
Qed.

(** X11.  The evaluator outside its domain.  After distinct evaluable
    records, a record with a positive desired count and no ['name']
    makes the evaluator raise [KeyError], one whose ['name'] is not a
    string makes it raise [TypeError], and one with a name and no
    ['namespace'] makes it raise [KeyError] after the record was renamed.
    In each case the events of the records before it were sent and
    nothing is sent for the record or for those after it. *)
Theorem evaluate_and_notify_aborts pre r post d w :
  NoDup pre → r ∉ pre → Forall (evaluable (store w)) pre →
  store w !! r = Some d → ignored d = false →
  (d !! "name" = None →
   ∃ lg', evaluate_and_notify self net (pre ++ r :: post) w =
     (Raise (KeyError "name"),
      {| store := store_after (store w) pre;
         outbound := outbound w ++ events_for self (store w) pre;
         log := lg' |}))
  ∧ (∀ v, d !! "name" = Some v → (∀ n, v ≠ VStr n) →
     ∃ lg', evaluate_and_notify self net (pre ++ r :: post) w =
       (Raise (TypeError "expected string or bytes-like object"),
        {| store := store_after (store w) pre;
           outbound := outbound w ++ events_for self (store w) pre;
           log := lg' |}))
  ∧ (∀ n, d !! "name" = Some (VStr n) → d !! "namespace" = None →
     ∃ lg', evaluate_and_notify self net (pre ++ r :: post) w =
       (Raise (KeyError "namespace"),
        {| store := <[r := normalized d]> (store_after (store w) pre);
           outbound := outbound w ++ events_for self (store w) pre;
           log := lg' |})).
Proof.
  intros Hnd Hnotin Hev Hr Hi.
  destruct (evaluate_loop_spec self net pre (0, 0) w Hnd Hev)
    as (c & lg' & Hpre).
  set (w1 := {| store := store_after (store w) pre;
                outbound := outbound w ++ events_for self (store w) pre;
                log := lg' |}) in *.
  assert (Hr1 : store w1 !! r = Some d).
  { cbn. by rewrite store_after_lookup_notin. }
  assert (Hshape : ∀ e w2,
            evaluate_body self net r c w1 = (Raise e, w2) →
            evaluate_and_notify self net (pre ++ r :: post) w = (Raise e, w2)).
  { intros e w2 Hbody. unfold evaluate_and_notify, for_each_raising.
    cbv beta iota zeta delta [bind]. rewrite for_each_app, Hpre.
    cbn [for_each]. by rewrite Hbody. }
  split; [|split].
  - intros Hn. exists lg'. apply Hshape.
    exact (evaluate_body_no_name r d c w1 Hr1 Hi Hn).
  - intros v Hn Hv. exists lg'. apply Hshape.
    exact (evaluate_body_bad_name r d v c w1 Hr1 Hi Hn Hv).
  - intros n Hn Hns. exists lg'. apply Hshape.
    exact (evaluate_body_no_namespace r d n c w1 Hr1 Hi Hn Hns).
Qed.

(** *** The counters *)

Lemma tally_sent_app n evs evs' counts :
  tally_sent net n (evs ++ evs') counts
  = tally_sent net (n + length evs) evs' (tally_sent net n evs counts).
Proof.
  revert n counts. induction evs as [|e evs IH]; intros n [t s].
  - cbn [app length tally_sent]. by rewrite Nat.add_0_r.
  - cbn [app length tally_sent]. rewrite IH. f_equal. lia.
Qed.

Lemma tally_sent_bounds n evs t s :
  let '(t', s') := tally_sent net n evs (t, s) in
  t ≤ t' ∧ s ≤ s' ∧ (t' - t) + (s' - s) ≤ Z.of_nat (length evs).
Proof.
  revert n t s. induction evs as [|e evs IH]; intros n t s; [cbn; lia|].
  cbn [tally_sent length].
  destruct (post_ok _).
  - destruct (String.eqb _ _).
    + specialize (IH (S n) (t + 1) s). destruct (tally_sent _ _ _ _). lia.
    + specialize (IH (S n) t (s + 1)). destruct (tally_sent _ _ _ _). lia.
  - specialize (IH (S n) t s). destruct (tally_sent _ _ _ _). lia.
Qed.

Lemma evaluate_body_counts r d counts w :
  store w !! r = Some d → ignored d = false → has_identity d →
  ∃ lg',
    evaluate_body self net r counts w =
      (Ret (tally_sent net (length (outbound w))
              (option_list (expected_event self r d)) counts),
       {| store := <[r := normalized d]> (store w);
          outbound := outbound w ++ option_list (expected_event self r d);
          log := lg' |}).
Proof.
  intros Hr Hi ([n Hn] & [ns Hns] & [ty Hty]).
  assert (Hr' : <[r := normalized d]> (store w) !! r = Some (normalized d)).
  { apply list_lookup_insert_eq. by eapply lookup_lt_Some. }
  assert (Hkey : Py.format ns +:+ "/"
                   +:+ Py.format (VStr (remove_replicaset_hash (name_of d)))
                 = resource_key_of d).
  { unfold resource_key_of. by rewrite Hns. }
  unfold evaluate_body. destruct counts as [t s]. wstep.
  rewrite Hr. wreduce. rewrite or_zero_eq_zero.
  fold (desired_of d). fold (ignored d). rewrite Hi. wreduce.
  rewrite Hr. wreduce. rewrite Hn. wreduce.
  rewrite (alter_name_store r d n w Hr Hn), Hr'. wreduce.
  unfold normalized at 1. rewrite lookup_insert_ne by done. rewrite Hns. wreduce.
  rewrite Hr'. wreduce.
  unfold normalized at 1. rewrite lookup_insert_eq. wreduce.
  rewrite or_zero_eq_zero. fold (available_of d). fold (unhealthy d).
  unfold expected_event. rewrite Hi, Hkey.
  destruct (unhealthy d) eqn:Hu; wreduce.
  - rewrite Hr'. wreduce. unfold normalized at 1.
    rewrite lookup_insert_ne by done. rewrite Hty. wreduce.
    match goal with |- context [send_pagerduty_alert self net ?a ?w0] =>
      destruct (send_pagerduty_alert_spec self net a w0) as (entry & -> & _) end.
    wreduce. rewrite Hr'. wreduce.
    cbn [option_list tally_sent event_action trigger_event].
    eexists. reflexivity.
  - rewrite Hr'. wreduce. unfold normalized at 1.
    rewrite lookup_insert_ne by done. rewrite Hty. wreduce.
    match goal with |- context [send_pagerduty_resolve self net ?k ?t0 ?m ?w0] =>
      destruct (send_pagerduty_resolve_spec self net k t0 m w0)
        as (entry & -> & _) end.
    wreduce. cbn [option_list tally_sent event_action resolve_event].
    eexists. reflexivity.
Qed.

Lemma evaluate_body_step_counts r counts w :
  evaluable (store w) r →
  ∃ lg',
    evaluate_body self net r counts w =
      (Ret (tally_sent net (length (outbound w))
              (events_for self (store w) [r]) counts),
       {| store := alter evaluated r (store w);
          outbound := outbound w ++ events_for self (store w) [r];
          log := lg' |}).
Proof.
  intros (d & Hr & Hid). unfold events_for. cbn [omap list_omap]. rewrite Hr.
  cbn [mbind option_bind].
  assert (Halt : alter evaluated r (store w) = <[r := evaluated d]> (store w)).
  { apply list_eq. intros i. destruct (decide (i = r)) as [->|].
    - rewrite list_lookup_alter_eq, Hr, list_lookup_insert_eq; [done|].
      by eapply lookup_lt_Some.
    - by rewrite list_lookup_alter_ne, list_lookup_insert_ne. }
  rewrite Halt. unfold evaluated.
  destruct (ignored d) eqn:Hi.
  - rewrite (evaluate_body_ignored self net r d counts w Hr Hi).
    rewrite expected_event_ignored by done.
    rewrite app_nil_r, list_insert_id by done. exists (log w).
    destruct counts. by destruct w.
  - destruct (evaluate_body_counts r d counts w Hr Hi (Hid eq_refl))
      as (lg' & ->).
    exists lg'. by destruct (expected_event self r d).
Qed.

Lemma evaluate_loop_counts metrics counts w :
  NoDup metrics → Forall (evaluable (store w)) metrics →
  ∃ lg',
    for_each (evaluate_body self net) metrics counts w =
      ((tally_sent net (length (outbound w))
          (events_for self (store w) metrics) counts, None),
       {| store := store_after (store w) metrics;
          outbound := outbound w ++ events_for self (store w) metrics;
          log := lg' |}).
Proof.
  revert counts w. induction metrics as [|r metrics IH]; intros counts w Hnd Hev.
  - exists (log w). cbn. rewrite app_nil_r. destruct counts. by destruct w.
  - apply NoDup_cons in Hnd as [Hnotin Hnd].
    apply Forall_cons in Hev as [Hr Hev].
    cbn [for_each].
    destruct (evaluate_body_step_counts r counts w Hr) as (lg1 & ->).
    set (w1 := {| store := alter evaluated r (store w);
                  outbound := outbound w ++ events_for self (store w) [r];
                  log := lg1 |}).
    assert (Hsame : ∀ r', r' ∈ metrics → store w1 !! r' = store w !! r').
    { intros r' Hin. cbn. apply list_lookup_alter_ne. by intros ->. }
    destruct (IH (tally_sent net (length (outbound w))
                    (events_for self (store w) [r]) counts) w1 Hnd)
      as (lg2 & ->).
    { apply Forall_forall. intros r' Hin.
      eapply Forall_forall in Hev; [|done].
      destruct Hev as (d & ? & ?). exists d. by rewrite Hsame. }
    exists lg2. subst w1. cbn [store outbound store_after foldl].
    rewrite (events_for_ext self _ (store w) metrics) by done.
    rewrite (events_for_cons self (store w) r metrics), tally_sent_app.
    rewrite length_app, <- app_assoc. done.
Qed.

(** X12.  The counters of the evaluator.  Over distinct evaluable
    records the last line logged reports the number of triggers and of
    resolves whose call succeeded; both are non-negative and together
    they do not exceed the number of events sent. *)
Theorem evaluate_and_notify_reports_counts metrics w :
  NoDup metrics → Forall (evaluable (store w)) metrics →
  ∃ lg' triggers resolves,
    tally_sent net (length (outbound w))
      (events_for self (store w) metrics) (0, 0) = (triggers, resolves)
    ∧ (evaluate_and_notify self net metrics w).1 = Ret tt
    ∧ log (evaluate_and_notify self net metrics w).2 =
        lg' ++ [(INFO, "Stateless notify complete - triggers: "
                       +:+ pretty triggers +:+ ", resolves: "
                       +:+ pretty resolves)]
    ∧ 0 ≤ triggers ∧ 0 ≤ resolves
    ∧ triggers + resolves
      ≤ Z.of_nat (length (events_for self (store w) metrics)).
Proof.
  intros Hnd Hev.
  destruct (evaluate_loop_counts metrics (0, 0) w Hnd Hev) as (lg' & Hloop).
  pose proof (tally_sent_bounds (length (outbound w))
                (events_for self (store w) metrics) 0 0) as Hb.
  destruct (tally_sent net _ _ (0, 0)) as [t s] eqn:Ht.
  exists lg', t, s. split; [done|].
  unfold evaluate_and_notify, for_each_raising.
  cbv beta iota zeta delta [bind]. rewrite Hloop. wstep.
  split; [done|]. split; [done|]. lia.
Qed.

End EvaluatorEdges.

Lemma evaluate_and_notify_aborts_witness :
  ∃ lg', evaluate_and_notify Sample.self Sample.net [0; 1; 2]%nat
           Fixture.nameless_world =
    (Raise (KeyError "name"),
     {| store := store_after (store Fixture.nameless_world) [0%nat];
        outbound := events_for Sample.self (store Fixture.nameless_world) [0%nat];
        log := lg' |}).
Proof.
  apply (proj1 (evaluate_and_notify_aborts Sample.self Sample.net [0%nat] 1%nat
                  [2%nat]
                  (list_to_map [ ("namespace", VStr "prod");
                                 ("desired_replicas", VInt 1) ])
                  Fixture.nameless_world
                  ltac:(by_evaluation) ltac:(by_evaluation) ltac:(by_evaluation)
                  eq_refl eq_refl)).
  reflexivity.
Defined.

Lemma evaluate_and_notify_reports_counts_witness :
  ∃ lg' triggers resolves,
    log (evaluate_and_notify Sample.self Sample.net Sample.refs Sample.world).2 =
      lg' ++ [(INFO, "Stateless notify complete - triggers: "
                     +:+ pretty triggers +:+ ", resolves: "
                     +:+ pretty resolves)]
    ∧ triggers + resolves ≤ 3.
Proof.
  destruct (evaluate_and_notify_reports_counts Sample.self Sample.net
              Sample.refs Sample.world)
    as (lg' & t & r & _ & _ & Hlog & _ & _ & Hle); [by_evaluation|by_evaluation|].
  exists lg', t, r. split; [exact Hlog|exact Hle].
Defined.

(** ** What the evaluator never does *)

Section EvaluatorFrame.
Variable self : MetricsScraper.
Variable net : Network.

Lemma trigger_event_shape alert details :
  pagerduty_event self (trigger_event self alert details).
Proof.
  split; [done|]. exists (alert_resource alert). split; [done|].
  left. split; [done|]. eexists. by repeat split.
Qed.

Lemma resolve_event_shape resource_key :
  pagerduty_event self (resolve_event self resource_key).
Proof.
  split; [done|]. exists resource_key. split; [done|]. by right.
Qed.

Ltac effect_leaf :=
  intros [= <- <-]; cbn [store outbound log]; rewrite <- ?app_assoc;
  (lazymatch goal with
   | |- context [outbound ?w ++ ?l] => exists l
   | |- _ => exists []
   end);
  (lazymatch goal with
   | |- context [log ?w ++ ?l] => exists l
   | |- _ => exists []
   end);
  (lazymatch goal with
   | |- context [alter (insert "name" (VStr ?n)) _ _] => exists (Some n)
   | |- _ => exists None
   end);
  rewrite ?app_nil_r; cbn [length];
  split; [done|]; split; [lia|]; split; [|by split];
  first [ apply Forall_nil_2
        | apply Forall_singleton;
          first [apply trigger_event_shape | apply resolve_event_shape] ].

Ltac effect_step :=
  wstep; cbn [remove_replicaset_hash_of alert_metric alert_resource];
  match goal with
  | |- context [remove_replicaset_hash_of ?v] => destruct v
  | |- context [match http_post ?n ?i ?e with _ => _ end] =>
      destruct (http_post n i e)
  | |- context [match @lookup string value dict _ ?k ?d with _ => _ end] =>
      destruct (@lookup string value dict _ k d)
  | |- context [if Py.eq ?a ?b then _ else _] => destruct (Py.eq a b)
  | |- context [if ?a && ?b then _ else _] => destruct (a && b)
  end.

Lemma evaluate_body_effect r counts w o w' :
  evaluate_body self net r counts w = (o, w') → iterates self r w w'.
Proof.
  unfold evaluate_body, iterates, send_pagerduty_alert, send_pagerduty_resolve.
  destruct counts as [t s].
  repeat effect_step; wstep; effect_leaf.
Qed.

Lemma evolves_refl metrics w : evolves self metrics w w.
Proof.
  repeat split.
  - exists []. rewrite app_nil_r. repeat split; [cbn; lia|apply Forall_nil_2].
  - exists []. by rewrite app_nil_r.
  - eauto.
Qed.

Lemma evolves_cons r metrics w w1 w' :
  iterates self r w w1 → evolves self metrics w1 w' →
  evolves self (r :: metrics) w w'.
Proof.
  intros (new1 & added1 & renamed & Ho1 & Hl1 & Hp1 & Hg1 & Hs1)
         ((new & Ho & Hl & Hp) & (added & Hg) & Hlen & Hout & Hin).
  assert (Hlen1 : length (store w1) = length (store w)).
  { rewrite Hs1. destruct renamed; [apply length_alter|done]. }
  assert (Hne : ∀ r', r' ≠ r → store w1 !! r' = store w !! r').
  { intros r' ?. rewrite Hs1. destruct renamed; [|done].
    by apply list_lookup_alter_ne. }
  assert (Hsame : ∀ r' d1, store w1 !! r' = Some d1 →
            ∃ d, store w !! r' = Some d ∧ ∀ k, k ≠ "name" → d1 !! k = d !! k).
  { intros r' d1. rewrite Hs1. destruct renamed as [n|]; [|eauto].
    destruct (decide (r' = r)) as [->|]; [|rewrite list_lookup_alter_ne; eauto].
    rewrite list_lookup_alter_eq.
    destruct (store w !! r) as [d|]; [|done]. intros [= <-].
    exists d. split; [done|]. intros k ?. by rewrite lookup_insert_ne. }
  repeat split.
  - exists (new1 ++ new). rewrite Ho, Ho1, app_assoc. split; [done|].
    split; [rewrite length_app; cbn [length]; lia|by apply Forall_app].
  - exists (added1 ++ added). by rewrite Hg, Hg1, app_assoc.
  - congruence.
  - intros r' Hr'. apply not_elem_of_cons in Hr' as [? ?].
    rewrite Hout by done. by apply Hne.
  - intros r' d' Hd'. destruct (Hin r' d' Hd') as (d1 & Hd1 & Hk1).
    destruct (Hsame r' d1 Hd1) as (d & Hd & Hk).
    exists d. split; [done|]. intros k ?. by rewrite Hk1, Hk.
Qed.

Lemma for_each_evolves metrics : ∀ counts w res w',
  for_each (evaluate_body self net) metrics counts w = (res, w') →
  evolves self metrics w w'.
Proof.
  induction metrics as [|r metrics IH]; intros counts w res w' H.
  - injection H as _ <-. apply evolves_refl.
  - cbn [for_each] in H.
    destruct (evaluate_body self net r counts w) as [[c1|e] w1] eqn:E.
    + eapply evolves_cons; [by eapply evaluate_body_effect|by eapply IH].
    + injection H as _ <-.
      eapply evolves_cons; [by eapply evaluate_body_effect|apply evolves_refl].
Qed.

(** X13.  What the evaluator never does, for any list of references
    and any world: repeated or dangling references and malformed records
    included, and whether it returns or raises.  It sends at most one
    event for each element of the list, each under the scraper's routing
    key and with a deduplication key of the fixed prefix and a resource
    key, a trigger with a critical payload about that resource or a
    resolve with none; it only appends to the log; it neither allocates
    nor drops objects, leaves every object outside the list as it was,
    and changes no key of any object other than ['name']. *)
Theorem evaluate_and_notify_frame metrics w :
  evolves self metrics w (evaluate_and_notify self net metrics w).2.
Proof.
  unfold evaluate_and_notify, for_each_raising.
  destruct (for_each (evaluate_body self net) metrics (0, 0) w)
    as [[[t s] oe] w1] eqn:E.
  pose proof (for_each_evolves _ _ _ _ _ E) as Hev.
  unfold bind. rewrite E. destruct oe as [e|]; [done|].
  wstep. cbn [snd].
  destruct Hev as (Ho & (added & Hg) & Hrest). split; [done|]. split; [|done].
  cbn [log]. eexists. by rewrite Hg, <- app_assoc.
Qed.

End EvaluatorFrame.

(** ** Collectors and evaluator together *)

(** X14.  A watched scheduled job that is suspended is recorded with an
    available count of 0, whatever its Jobs and Pods are, and the
    evaluator passes the record over: nothing is sent, the record is not
    renamed and the counters are unchanged. *)
Theorem suspended_cronjob_is_silent self k8s cj md metrics lg :
  cj_metadata cj = Some md →
  _is_watched self "cronjob" (meta_namespace md) (meta_name md) = true →
  cj_suspended cj = true →
  ∃ m lg',
    cronjob_body self k8s cj metrics lg = (Ret (metrics ++ [m]), lg')
    ∧ m !! "available_replicas" = Some (VInt 0)
    ∧ ∀ net r counts w,
        store w !! r = Some m →
        evaluate_body self net r counts w = (Ret counts, w).
Proof.
  intros Hmd Hw Hs.
  assert (Hsp : is_Some (cj_spec cj)).
  { unfold cj_suspended in Hs. by destruct (cj_spec cj). }
  destruct (cronjob_body_tallies self k8s cj md metrics lg Hmd Hsp Hw)
    as (fj & names & fp & lg1 & lg2 & lg3 & _ & _ & Hbody).
  exists (cj_record k8s cj md fj fp), lg3. split; [done|].
  split; [by rewrite cj_record_available, Hs|].
  intros net r counts w Hr. apply (evaluate_body_ignored self net r _ counts w Hr).
  apply ignored_zero. by rewrite cj_record_desired, Hs.
Qed.

Lemma suspended_cronjob_is_silent_witness :
  ∃ m lg',
    cronjob_body Sample.self Fixture.cluster Fixture.suspended_job [] []
      = (Ret [m], lg')
    ∧ m !! "available_replicas" = Some (VInt 0).
Proof.
  destruct (suspended_cronjob_is_silent Sample.self Fixture.cluster
              Fixture.suspended_job
              {| meta_name := "nightly"; meta_namespace := "batch";
                 owner_references := None; labels := None |} [] []
              eq_refl eq_refl eq_refl) as (m & lg' & H & Ha & _).
  exists m, lg'. split; [exact H|exact Ha].
Defined.

Lemma elem_of_events_for self st metrics r d e :
  r ∈ metrics → st !! r = Some d → expected_event self r d = Some e →
  e ∈ events_for self st metrics.
Proof.
  intros Hin Hr He. unfold events_for. apply list_elem_of_omap.
  exists r. split; [done|]. by rewrite Hr.
Qed.

(** X15.  From the cluster to the endpoint.  When the deployment listing
    returns well-formed deployments, a watched one with a positive
    desired count and no available replica makes the run send a trigger
    whose deduplication key is the prefix, the deployment's namespace, a
    slash and the normalized name of the deployment, whatever the other
    collectors meet and whatever the endpoint answers. *)
Theorem unavailable_deployment_is_reported self net k8s items d md spec status
    desired w :
  list_deployment_for_all_namespaces k8s = Ret items →
  Forall dep_well_formed items →
  d ∈ items →
  dep_metadata d = Some md → dep_spec d = Some spec → dep_status d = Some status →
  _is_watched self "deployment" (meta_namespace md) (meta_name md) = true →
  dep_replicas spec = Some desired → 0 < desired →
  default 0 (dep_available_replicas status) = 0 →
  ∃ w' e,
    run self net k8s w = (Ret tt, w')
    ∧ e ∈ outbound w'
    ∧ event_action e = "trigger"
    ∧ dedup_key e = "k8s-zero-replicas-" +:+ meta_namespace md +:+ "/"
                    +:+ remove_replicaset_hash (meta_name md).
Proof.
  intros Hl Hwf Hin Hmd Hsp Hst Hw Hd Hpos Ha.
  destruct (run_spec self net k8s w)
    as (lg0 & dep & lg1 & rs & lg2 & ds & lg3 & ss & lg4 & cj & lg5 & lg'
        & Hdep & _ & _ & _ & _ & Hrun).
  cbn zeta in Hrun.
  assert (∃ lg1', get_deployment_metrics self k8s lg0 =
            (Ret (dep_record k8s <$> filter (λ d, dep_selected self d = true) items),
             lg1')) as [lg1' Hdep'].
  { unfold get_deployment_metrics. rewrite Hl.
    rewrite <- concat_select. apply collect_appends.
    intros d' s' w' Hin'. apply deployment_body_spec.
    by eapply Forall_forall in Hwf. }
  rewrite Hdep' in Hdep. injection Hdep as <- _.
  set (m := dep_record k8s d).
  set (all := (dep_record k8s <$> filter (λ d, dep_selected self d = true) items)
              ++ rs ++ ds ++ ss ++ cj) in *.
  assert (Hm : m ∈ all).
  { apply elem_of_app. left. apply list_elem_of_fmap. exists d. split; [done|].
    apply list_elem_of_filter. split; [|done].
    unfold dep_selected, dep_ident. by rewrite Hmd. }
  apply list_elem_of_lookup in Hm as [i Hi].
  assert (Hname : m !! "name" = Some (VStr (meta_name md))).
  { unfold m, dep_record, dep_ident. by rewrite Hmd. }
  assert (Hns : m !! "namespace" = Some (VStr (meta_namespace md))).
  { unfold m, dep_record, dep_ident. by rewrite Hmd. }
  assert (Hdes : m !! "desired_replicas" = Some (VInt desired)).
  { unfold m, dep_record. rewrite Hsp. cbn [from_option]. by rewrite Hd. }
  assert (Hav : m !! "available_replicas" = Some (VInt 0)).
  { unfold m, dep_record. rewrite Hst. cbn [from_option]. by rewrite Ha. }
  destruct (expected_event_trigger self (length (store w) + i) m)
    as (e & p & He & Hact & Hkey & _).
  { eapply ignored_nonzero; [done|lia]. }
  { by apply unhealthy_zero. }
  eexists _, e. split; [exact Hrun|]. cbn [outbound].
  split; [|split; [done|]].
  - apply elem_of_app. right.
    apply (elem_of_events_for self _ _ (length (store w) + i) m); [|
      by rewrite lookup_app_r, Nat.add_comm, Nat.add_sub by lia|done].
    apply elem_of_seq. apply lookup_lt_Some in Hi. lia.
  - by rewrite Hkey, (resource_key_strings m _ _ Hns Hname).
Qed.

Lemma unavailable_deployment_is_reported_witness :
  ∃ w' e,
    run Sample.self Sample.net Fixture.cluster Fixture.empty_world = (Ret tt, w')
    ∧ e ∈ outbound w'
    ∧ event_action e = "trigger"
    ∧ dedup_key e = "k8s-zero-replicas-prod/web".
Proof.
  destruct (unavailable_deployment_is_reported Sample.self Sample.net
              Fixture.cluster [Sample.web] Sample.web
              {| meta_name := "web"; meta_namespace := "prod";
                 owner_references := None; labels := None |}
              {| dep_replicas := Some 3 |}
              {| dep_available_replicas := None; dep_ready_replicas := None |}
              3 Fixture.empty_world eq_refl)
    as (w' & e & Hrun & Hin & Hact & Hkey);
    [by_evaluation|apply list_elem_of_here|reflexivity|reflexivity|reflexivity
    |reflexivity|reflexivity|reflexivity|reflexivity|].
  exists w', e. repeat split; assumption.
Defined.

(** X16.  Two records of one namespace whose names differ only in their
    last segment are sent under the same deduplication key and end with
    the same name; each is sent as a trigger or a resolve by its own
    counts, so a trigger and a resolve for one key can leave in the same
    pass. *)
Theorem generations_share_a_key self net r1 r2 d1 d2 ns p a b w :
  r1 ≠ r2 →
  store w !! r1 = Some d1 → store w !! r2 = Some d2 →
  has_identity d1 → has_identity d2 →
  ignored d1 = false → ignored d2 = false →
  d1 !! "namespace" = Some (VStr ns) → d2 !! "namespace" = Some (VStr ns) →
  d1 !! "name" = Some (VStr (p +:+ String PyStr.hyphen a)) →
  d2 !! "name" = Some (VStr (p +:+ String PyStr.hyphen b)) →
  a ≠ EmptyString → all_alnum a = true →
  b ≠ EmptyString → all_alnum b = true →
  ∃ w' e1 e2,
    evaluate_and_notify self net [r1; r2] w = (Ret tt, w')
    ∧ outbound w' = outbound w ++ [e1; e2]
    ∧ dedup_key e1 = "k8s-zero-replicas-" +:+ ns +:+ "/" +:+ p
    ∧ dedup_key e2 = "k8s-zero-replicas-" +:+ ns +:+ "/" +:+ p
    ∧ event_action e1 = (if unhealthy d1 then "trigger" else "resolve")
    ∧ event_action e2 = (if unhealthy d2 then "trigger" else "resolve")
    ∧ store w' !! r1 = Some (<["name" := VStr p]> d1)
    ∧ store w' !! r2 = Some (<["name" := VStr p]> d2).
Proof.
  intros Hne Hr1 Hr2 Hid1 Hid2 Hi1 Hi2 Hns1 Hns2 Hn1 Hn2 Ha1 Ha2 Hb1 Hb2.
  assert (Hnd : NoDup [r1; r2]).
  { apply NoDup_cons. split; [by intros ->%list_elem_of_singleton|].
    apply NoDup_singleton. }
  destruct (evaluate_and_notify_spec self net [r1; r2] w Hnd) as [lg' ->].
  { repeat constructor; eexists; eauto. }
  assert (Hk1 : resource_key_of d1 = ns +:+ "/" +:+ p).
  { rewrite (resource_key_strings d1 _ _ Hns1 Hn1).
    by rewrite strip_one_segment. }
  assert (Hk2 : resource_key_of d2 = ns +:+ "/" +:+ p).
  { rewrite (resource_key_strings d2 _ _ Hns2 Hn2).
    by rewrite strip_one_segment. }
  assert (He : ∀ r d, ignored d = false →
             ∃ e, expected_event self r d = Some e
                  ∧ dedup_key e = "k8s-zero-replicas-" +:+ resource_key_of d
                  ∧ event_action e
                    = (if unhealthy d then "trigger" else "resolve")).
  { intros r d Hi. destruct (unhealthy d) eqn:Hu.
    - destruct (expected_event_trigger self r d Hi Hu) as (e & _ & ? & ? & ? & _).
      eauto.
    - destruct (expected_event_resolve self r d Hi Hu) as (e & ? & ? & ? & _).
      eauto. }
  destruct (He r1 d1 Hi1) as (e1 & He1 & Hd1 & Ha1').
  destruct (He r2 d2 Hi2) as (e2 & He2 & Hd2 & Ha2').
  eexists _, e1, e2. split; [done|]. cbn [outbound store].
  split; [|split; [by rewrite Hd1, Hk1|split; [by rewrite Hd2, Hk2|
    split; [done|split; [done|]]]]].
  - unfold events_for. cbn [omap list_omap]. rewrite Hr1, Hr2.
    cbn [mbind option_bind]. by rewrite He1, He2.
  - rewrite !store_after_lookup_in, Hr1, Hr2
      by (done || apply list_elem_of_here
          || apply list_elem_of_further, list_elem_of_here).
    cbn [fmap option_fmap option_map]. unfold evaluated. rewrite Hi1, Hi2.
    rewrite (normalized_name d1 _ Hn1), (normalized_name d2 _ Hn2).
    by rewrite !strip_one_segment.
Qed.

Lemma generations_share_a_key_witness :
  ∃ w' e1 e2,
    evaluate_and_notify Sample.self Sample.net [0; 1]%nat Fixture.generations
      = (Ret tt, w')
    ∧ outbound w' = [e1; e2]
    ∧ dedup_key e1 = "k8s-zero-replicas-prod/web"
    ∧ dedup_key e2 = "k8s-zero-replicas-prod/web"
    ∧ event_action e1 = "trigger"
    ∧ event_action e2 = "resolve".
Proof.
  destruct (generations_share_a_key Sample.self Sample.net 0%nat 1%nat
              (Sample.record "web-7f8b9c" "replicaset"
                 [ ("desired_replicas", VInt 3); ("available_replicas", VInt 0) ])
              (Sample.record "web-5d4f8" "replicaset"
                 [ ("desired_replicas", VInt 3); ("available_replicas", VInt 3) ])
              "prod" "web" "7f8b9c" "5d4f8" Fixture.generations)
    as (w' & e1 & e2 & Hrun & Hout & Hk1 & Hk2 & Ha1 & Ha2 & _);
    [lia|reflexivity|reflexivity|by_evaluation|by_evaluation|reflexivity
    |reflexivity|reflexivity|reflexivity|reflexivity|reflexivity|discriminate
    |reflexivity|discriminate|reflexivity|].
  exists w', e1, e2. repeat split; assumption.
Defined.
